(** * Health monitoring and recovery of the detection pipeline

    A shallow embedding of the maintenance logic of the inference worker
    ([server/ai_server.py]), of the resilience and alarm logic of the
    capture client ([esp32_cam_simulator.py]) and of the process monitor
    ([start_complete_system.py]), with the properties of the design
    document stated over them. *)

From Stdlib Require Import ZArith List String Ascii Bool Lia QArith Lqa.
Import ListNotations.
Open Scope Z_scope.

(** ** Python strings: the few [str] methods the programs use *)

Module PyStr.

(** [s.endswith(suf)] *)
Fixpoint endswith (s suf : string) : bool :=
  String.eqb s suf ||
  match s with
  | EmptyString => false
  | String _ r => endswith r suf
  end.

(** [s.replace(".pt", "")]: every occurrence, scanned left to right. *)
Fixpoint remove_dot_pt (s : string) : string :=
  match s with
  | String "." (String "p" (String "t" r)) => remove_dot_pt r
  | String c r => String c (remove_dot_pt r)
  | EmptyString => EmptyString
  end.

(** [sub in s] *)
Fixpoint contains (sub s : string) : bool :=
  String.prefix sub s ||
  match s with
  | EmptyString => false
  | String _ r => contains sub r
  end.

Definition lower_ascii (c : ascii) : ascii :=
  let n := nat_of_ascii c in
  if (Nat.leb 65 n && Nat.leb n 90)%bool then ascii_of_nat (n + 32) else c.

(** [s.lower()] on ASCII text *)
Fixpoint lower (s : string) : string :=
  match s with
  | EmptyString => EmptyString
  | String c r => String (lower_ascii c) (lower r)
  end.

(** [s.upper()] on ASCII text *)
Definition upper_ascii (c : ascii) : ascii :=
  let n := nat_of_ascii c in
  if (Nat.leb 97 n && Nat.leb n 122)%bool then ascii_of_nat (n - 32) else c.

Fixpoint upper (s : string) : string :=
  match s with
  | EmptyString => EmptyString
  | String c r => String (upper_ascii c) (upper r)
  end.

(** The text before the first comma, and what follows that comma. *)
Fixpoint cut_comma (s : string) : string * option string :=
  match s with
  | EmptyString => (EmptyString, None)
  | String c r =>
      if Ascii.eqb c "," then (EmptyString, Some r)
      else let '(h, t) := cut_comma r in (String c h, t)
  end.

(** [s.split(",")[1]]; [None] is the [IndexError] of a string without
    a comma. *)
Definition split_comma_1 (s : string) : option string :=
  match snd (cut_comma s) with
  | None => None
  | Some r => Some (fst (cut_comma r))
  end.

End PyStr.

(** ** Python dictionaries keyed by strings

    Insertion-ordered, one entry per key: assigning to a key that is present
    keeps its position, [del] removes the entry. *)

Module PyDict.
Section Dict.
Context {V : Type}.

Definition dict := list (string * V).

Fixpoint get (k : string) (d : dict) : option V :=
  match d with
  | [] => None
  | (k', v) :: r => if String.eqb k' k then Some v else get k r
  end.

Definition mem (k : string) (d : dict) : bool :=
  match get k d with Some _ => true | None => false end.

Fixpoint set (k : string) (v : V) (d : dict) : dict :=
  match d with
  | [] => [(k, v)]
  | (k', v') :: r =>
      if String.eqb k' k then (k', v) :: r else (k', v') :: set k v r
  end.

Fixpoint del (k : string) (d : dict) : dict :=
  match d with
  | [] => []
  | (k', v') :: r => if String.eqb k' k then r else (k', v') :: del k r
  end.

Definition keys (d : dict) : list string := map fst d.

End Dict.
Arguments dict V : clear implicits.
End PyDict.

(** ** Python numbers: [round] on the rationals standing for floats *)

Module PyNum.

(** The nearest integer, ties to the even one. *)
Definition round_half_even (q : Q) : Z :=
  let n := Qnum q in
  let d := Z.pos (Qden q) in
  let f := n / d in
  match (2 * (n mod d)) ?= d with
  | Lt => f
  | Gt => f + 1
  | Eq => if Z.even f then f else f + 1
  end.

(** [round(q, nd)] *)
Definition round_digits (nd : nat) (q : Q) : Q :=
  let scale := 10 ^ Z.of_nat nd in
  Qmake (round_half_even (q * inject_Z scale)) (Z.to_pos scale).

End PyNum.

(** ** Parsed JSON, as Python holds it *)

Module PyJson.
Import PyStr PyDict.

(** What [request.get_json()] gives: [None], a [bool], a number, a [str],
    a [list] or a [dict]. *)
Local Unset Elimination Schemes.
Inductive Json :=
| JNull
| JBool (b : bool)
| JNum (q : Q)
| JStr (s : string)
| JArr (items : list Json)
| JObj (fields : dict Json).
Local Set Elimination Schemes.

(** [k == j] for a string [k] *)
Definition is_str (k : string) (j : Json) : bool :=
  match j with JStr s => String.eqb s k | _ => false end.

(** [k in data] for a string [k]: a key of a [dict], an element of a
    [list], a part of a [str]; [None] is the [TypeError] of the other
    values. *)
Definition py_in (k : string) (data : Json) : option bool :=
  match data with
  | JObj fields => Some (mem k fields)
  | JArr items => Some (existsb (is_str k) items)
  | JStr s => Some (contains k s)
  | _ => None
  end.

(** The value as a number in a comparison with a [float]: a [bool] counts
    as 1 or 0; [None] is the [TypeError] of the other values. *)
Definition py_number (j : Json) : option Q :=
  match j with
  | JNum q => Some q
  | JBool b => Some (if b then 1 else 0)%Q
  | _ => None
  end.

End PyJson.

(** ** The inference worker: [server/ai_server.py] *)

Module Worker.
Import PyStr PyDict PyJson.

(** [CONFIG] entries the detect path reads. *)
Definition default_model : string := "fire_detect_final.pt".
Definition default_confidence : Q := 5 # 10.

(** Literals of the maintenance schedule. *)
Definition cleanup_interval : Z := 20.
Definition model_reload_interval : Z := 100.
Definition post_gc_after : Z := 200.

Definition critical_classes : list string :=
  ["fire"; "smoke"; "person"; "danger"]%string.

Definition recommended_actions : dict string :=
  [("fire", "Immediate evacuation and fire suppression");
   ("smoke", "Investigate source and prepare for evacuation");
   ("person", "Monitor activity and verify authorization");
   ("vehicle", "Check for authorized access");
   ("animal", "Monitor behavior and ensure safety");
   ("default", "Monitor situation and take appropriate action")]%string.

Definition get_recommended_action (object_class : string) : string :=
  match get (lower object_class) recommended_actions with
  | Some a => a
  | None => "Monitor situation and take appropriate action"%string
  end.

(** How a call that may raise ended. *)
Inductive completion := Returned | Raised.

Section Server.
(** The detection library and the image library are opaque: a loaded
    model, a decoded image and a bounding box are abstract, and the calls
    into the libraries are parameters. [None] stands for a raised
    exception. *)
Variables Model Image BBox : Type.
Variable open_image : string -> option Image.
Variable width height : Image -> Z.

(** One box of a prediction, with its class name looked up. *)
Record Box := {
  conf : Q;
  cls : Z;
  cls_name : string;
  xyxy : BBox
}.

(** [model.predict] gets the threshold as the request holds it. *)
Variable predict : Model -> Image -> Json -> option (list Box).

Definition table := dict Model.

(** *** State and environment *)

(** The module-level globals. *)
Record State := {
  models : table;
  request_counter : Z;
  last_model_reload : Z
}.

(** What [load_models] finds on disk: no models directory (it is then
    created, which may fail), a directory that cannot be listed, or the
    listed file names, each with the result of loading it. *)
Inductive ModelsDir :=
| DirMissing (makedirs_ok : bool)
| DirUnreadable
| DirListing (files : list (string * option Model)).

(** What one request sees of the outside: the models directory when the
    reload runs, the directory again when the handler of a failed reload
    runs, and the three clock readings. The collector and the flush of the
    accelerator cache are taken not to raise. *)
Record Env := {
  disk : ModelsDir;
  disk_retry : ModelsDir;
  t_start : Q;
  t_end : Q;
  t_stamp : Q
}.

(** *** [load_models] *)

Definition load_file (t : table) (f : string * option Model) : table :=
  let '(filename, loaded) := f in
  if endswith filename ".pt" then
    match loaded with
    | Some m => set (remove_dot_pt filename) m t
    | None => t
    end
  else t.

Definition load_models (d : ModelsDir) (t : table) : table * completion :=
  match d with
  | DirMissing ok => (t, if ok then Returned else Raised)
  | DirUnreadable => (t, Raised)
  | DirListing files => (fold_left load_file files t, Returned)
  end.

(** *** [reload_models_if_needed] *)

Inductive ReloadOutcome := NotDue | Reloaded | ReloadFailed.

Definition reload_due (s : State) : bool :=
  model_reload_interval <=? request_counter s - last_model_reload s.

Definition reload_models_if_needed (e : Env) (s : State)
  : State * ReloadOutcome :=
  if reload_due s then
    (* every entry deleted, then [models.clear()] *)
    let cleared : table := [] in
    match load_models (disk e) cleared with
    | (t, Returned) =>
        ({| models := t;
            request_counter := request_counter s;
            last_model_reload := request_counter s |}, Reloaded)
    | (t, Raised) =>
        (* the handler loads again and swallows what that raises *)
        ({| models := fst (load_models (disk_retry e) t);
            request_counter := request_counter s;
            last_model_reload := last_model_reload s |}, ReloadFailed)
    end
  else (s, NotDue).

(** The states of the shared table during a reload, one per mutation:
    each [del models[name]], the [clear()], each file of a load pass. *)
Fixpoint del_trace (ks : list string) (t : table) : list table :=
  match ks with
  | [] => []
  | k :: r => let t' := del k t in t' :: del_trace r t'
  end.

Fixpoint load_trace (files : list (string * option Model)) (t : table)
  : list table :=
  match files with
  | [] => []
  | f :: r => let t' := load_file t f in t' :: load_trace r t'
  end.

Definition load_models_trace (d : ModelsDir) (t : table) : list table :=
  match d with
  | DirListing files => load_trace files t
  | _ => []
  end.

Definition reload_trace (e : Env) (t : table) : list table :=
  del_trace (keys t) t ++ [[]] ++
  load_models_trace (disk e) [] ++
  match load_models (disk e) [] with
  | (t1, Raised) => load_models_trace (disk_retry e) t1
  | (_, Returned) => []
  end.

(** Every table a reader may find while request [s] is served: the one
    before the reload, then the states of [reload_trace] when it runs. *)
Definition observable_tables (e : Env) (s : State) : list table :=
  models s :: (if reload_due s then reload_trace e (models s) else []).

(** *** [decode_base64_image] and [process_yolo_results] *)

(** [None] is the [ValueError] the function raises for whatever fails
    inside it. *)
Definition decode_base64_image (base64_string : string) : option Image :=
  if contains "data:image/" base64_string then
    match split_comma_1 base64_string with
    | Some payload => open_image payload
    | None => None
    end
  else open_image base64_string.

Record Detection := {
  d_class : string;
  d_class_id : Z;
  d_confidence : Q;
  d_bbox : BBox
}.

Definition process_yolo_results (results : list Box)
    (confidence_threshold : Q) : list Detection :=
  map (fun b => {| d_class := cls_name b;
                   d_class_id := cls b;
                   d_confidence := PyNum.round_digits 3 (conf b);
                   d_bbox := xyxy b |})
      (filter (fun b => Qle_bool confidence_threshold (conf b)) results).

(** *** [detect_objects] *)

(** The body of a request as the handler finds it: a content type that is
    not JSON, a body declared as JSON on which [get_json()] raises, or the
    parsed value. *)
Inductive Request :=
| NotJson
| Unparsable
| Parsed (data : Json).

Record Alert := {
  a_type : string;
  a_severity : string;
  a_confidence : Q;
  a_recommended_action : string
}.

Record Body := {
  detections : list Detection;
  processing_time_ms : Q;
  model_used : string;
  confidence_threshold : Json;
  image_size : Z * Z;
  b_device_id : Json;
  timestamp : Q;
  detection_count : Z;
  request_count : Z;
  alerts : option (list Alert)
}.

(** The [error] entry of a 400 response. *)
Inductive ErrorMessage :=
| RequestMustBeJson
| NoImageProvided
| ModelNotFound (model_name : Json)
| FailedToDecodeImage.

Inductive Response :=
| Http200 (body : Body)
| Http400 (error : ErrorMessage) (available_models : option (list string))
| Http500.

Definition status_code (r : Response) : Z :=
  match r with
  | Http200 _ => 200
  | Http400 _ _ => 400
  | Http500 => 500
  end.

(** What the maintenance prologue of a request did. *)
Record Maintenance := {
  cleanup : bool;
  reload : ReloadOutcome
}.

Record Served := {
  worker : State;
  maintenance : Maintenance;
  response : Response;
  (** the [gc.collect()] at the end of a served request *)
  post_gc : bool
}.

Definition is_critical (d : Detection) : bool :=
  (negb (Qle_bool (d_confidence d) (8 # 10)) &&
   existsb (String.eqb (lower (d_class d))) critical_classes)%bool.

Definition make_alert (d : Detection) : Alert :=
  {| a_type := (upper (d_class d) ++ "_DETECTED")%string;
     a_severity := if Qle_bool (d_confidence d) (9 # 10)
                   then "MEDIUM"%string else "HIGH"%string;
     a_confidence := d_confidence d;
     a_recommended_action := get_recommended_action (d_class d) |}.

Definition with_default {A : Type} (o : option A) (d : A) : A :=
  match o with Some a => a | None => d end.

(** [model_name not in models] and [models[model_name]]: the keys of the
    table are strings, so no other value that hashes is among them, and a
    [list] or a [dict] does not hash ([TypeError]). *)
Inductive Lookup :=
| Loaded (name : string) (m : Model)
| NotLoaded
| Unhashable.

Definition lookup_model (model_name : Json) (t : table) : Lookup :=
  match model_name with
  | JStr name =>
      match get name t with
      | Some m => Loaded name m
      | None => NotLoaded
      end
  | JArr _ | JObj _ => Unhashable
  | _ => NotLoaded
  end.

(** [decode_base64_image(data["image"])]: on a value that is no string
    one of the calls inside its [try] raises, which it turns into the
    [ValueError] like any other failure. *)
Definition decode_image_value (v : Json) : option Image :=
  match v with
  | JStr base64_string => decode_base64_image base64_string
  | _ => None
  end.

(** [process_yolo_results] on the threshold the request holds: comparing
    the confidence of the first box with a value that is no number raises
    ([None]). *)
Definition process_results (results : list Box) (confidence_threshold : Json)
  : option (list Detection) :=
  match py_number confidence_threshold with
  | Some q => Some (process_yolo_results results q)
  | None =>
      match results with
      | [] => Some []
      | _ :: _ => None
      end
  end.

(** The handler of a parsed object that holds an image. *)
Definition answer_object (e : Env) (fields : dict Json) (image_value : Json)
    (s : State) : Response :=
  let model_name :=
    with_default (get "model" fields)
                 (JStr (remove_dot_pt default_model)) in
  let confidence_threshold :=
    with_default (get "threshold" fields) (JNum default_confidence) in
  let device_id := with_default (get "device_id" fields) (JStr "unknown") in
  match lookup_model model_name (models s) with
  | Unhashable => Http500
  | NotLoaded => Http400 (ModelNotFound model_name) (Some (keys (models s)))
  | Loaded name m =>
      match decode_image_value image_value with
      | None => Http400 FailedToDecodeImage None
      | Some img =>
          match predict m img confidence_threshold with
          | None => Http500
          | Some results =>
              match process_results results confidence_threshold with
              | None => Http500
              | Some ds =>
                  let high := filter is_critical ds in
                  Http200
                    {| detections := ds;
                       processing_time_ms :=
                         PyNum.round_digits 2
                           ((t_end e - t_start e) * inject_Z 1000);
                       model_used := name;
                       confidence_threshold := confidence_threshold;
                       image_size := (width img, height img);
                       b_device_id := device_id;
                       timestamp := t_stamp e;
                       detection_count := Z.of_nat (List.length ds);
                       request_count := request_counter s;
                       alerts := match high with
                                 | [] => None
                                 | _ => Some (map make_alert high)
                                 end |}
              end
          end
      end
  end.

(** The handler after the prologue: validation, inference, response.
    Whatever raises outside [decode_base64_image] reaches the handler's
    own [except] and is answered with 500: [get_json()] on a body that
    does not parse, ["image" not in data] on a number, a [bool] or
    [None], [data.get] on a [list] or a [str] that holds ["image"]. *)
Definition answer (e : Env) (req : Request) (s : State) : Response :=
  match req with
  | NotJson => Http400 RequestMustBeJson None
  | Unparsable => Http500
  | Parsed data =>
      match py_in "image" data with
      | None => Http500
      | Some false => Http400 NoImageProvided None
      | Some true =>
          match data with
          | JObj fields =>
              match get "image" fields with
              | Some image_value => answer_object e fields image_value s
              | None => Http500
              end
          | _ => Http500
          end
      end
  end.

Definition is_200 (r : Response) : bool :=
  match r with Http200 _ => true | _ => false end.

Definition detect_objects (e : Env) (req : Request) (s : State) : Served :=
  let counted :=
    {| models := models s;
       request_counter := request_counter s + 1;
       last_model_reload := last_model_reload s |} in
  let cleaned := request_counter counted mod cleanup_interval =? 0 in
  let '(s', reloaded) := reload_models_if_needed e counted in
  let r := answer e req s' in
  {| worker := s';
     maintenance := {| cleanup := cleaned; reload := reloaded |};
     response := r;
     post_gc := (is_200 r && (post_gc_after <? request_counter s'))%bool |}.

(** Whether [gc.collect()] ran while the request was served: in the
    cleanup block, inside a reload, or at the end of the handler. *)
Definition gc_pass (v : Served) : bool :=
  (cleanup (maintenance v) ||
   match reload (maintenance v) with NotDue => false | _ => true end ||
   post_gc v)%bool.

Definition reload_ran (v : Served) : bool :=
  match reload (maintenance v) with NotDue => false | _ => true end.

(** The worker as the main block leaves it: models loaded into an empty
    table, both counters at their initial 0. *)
Definition start (d : ModelsDir) : State :=
  {| models := fst (load_models d []);
     request_counter := 0;
     last_model_reload := 0 |}.

(** A run of consecutive requests; the results come in call order. *)
Fixpoint serve (calls : list (Env * Request)) (s : State) : list Served :=
  match calls with
  | [] => []
  | (e, req) :: rest =>
      let v := detect_objects e req s in v :: serve rest (worker v)
  end.

Definition final_state (calls : list (Env * Request)) (s : State) : State :=
  fold_left (fun st c => worker (detect_objects (fst c) (snd c) st)) calls s.

End Server.

Arguments DirMissing {Model}.
Arguments DirUnreadable {Model}.
Arguments DirListing {Model}.
Arguments models {Model}.
Arguments request_counter {Model}.
Arguments last_model_reload {Model}.
Arguments disk {Model}.
Arguments disk_retry {Model}.
Arguments t_start {Model}.
Arguments t_end {Model}.
Arguments t_stamp {Model}.
Arguments load_file {Model}.
Arguments load_models {Model}.
Arguments reload_due {Model}.
Arguments reload_models_if_needed {Model}.
Arguments del_trace {Model}.
Arguments load_trace {Model}.
Arguments load_models_trace {Model}.
Arguments reload_trace {Model}.
Arguments observable_tables {Model}.
Arguments start {Model}.
Arguments worker {Model BBox}.
Arguments maintenance {Model BBox}.
Arguments response {Model BBox}.
Arguments post_gc {Model BBox}.
Arguments gc_pass {Model BBox}.
Arguments reload_ran {Model BBox}.
Arguments status_code {BBox}.
Arguments is_200 {BBox}.
Arguments detections {BBox}.
Arguments processing_time_ms {BBox}.
Arguments image_size {BBox}.
Arguments process_yolo_results {BBox}.
Arguments decode_base64_image {Image}.
Arguments Loaded {Model}.
Arguments NotLoaded {Model}.
Arguments Unhashable {Model}.
Arguments lookup_model {Model}.
Arguments decode_image_value {Image}.
Arguments process_results {BBox}.
Arguments answer_object {Model Image BBox}.
Arguments answer {Model Image BBox}.
Arguments detect_objects {Model Image BBox}.
Arguments serve {Model Image BBox}.
Arguments final_state {Model Image BBox}.
Arguments Http500 {BBox}.
Arguments Http400 {BBox}.
Arguments Http200 {BBox}.

End Worker.

(** ** The capture client: [esp32_cam_simulator.py] *)

Module Client.
Import PyStr PyDict.

(** Instants are [datetime] values, counted in microseconds; durations
    told by [time.time()] and [time.sleep] are seconds. *)

(** [timedelta.seconds]: the seconds field of the normalised difference,
    which leaves whole days out. *)
Definition timedelta_seconds (later earlier : Z) : Z :=
  ((later - earlier) / 1000000) mod 86400.

Definition task_models : dict string :=
  [("fire", "fire_detection_final"); ("leaves", "yellow-leaves-best")]%string.

Definition model_for_task (task : string) : string :=
  match get task task_models with
  | Some m => m
  | None => "fire_detect_final"%string
  end.

(** The [timeout] argument of the post to the worker, in seconds. *)
Definition request_timeout : Q := 15.

(** The grace window of the alarm flag, in seconds. *)
Definition grace_seconds : Z := 30.

(** One detection of a worker response, as the client reads it. *)
Record Detection := {
  confidence : Q;
  class_id : option Z;
  class : string
}.

(** The worker's JSON response, as far as the client reads it. *)
Record Result := {
  detections : list Detection
}.

Record HistoryRecord := {
  h_task : string;
  h_target_detected : bool;
  h_fire_on : Z;
  h_confidence : Q;
  h_detections : list Detection
}.

(** The simulator's fields. *)
Record State := {
  frame_rate : Q;
  current_task : string;
  fire_on : Z;
  last_detection_time : option Z;
  detection_history : list HistoryRecord;
  request_count : Z;
  consecutive_failures : Z;
  last_successful_request : Z
}.

(** The simulator as [__init__] leaves it. *)
Definition init (rate : Q) (now : Z) : State :=
  {| frame_rate := rate;
     current_task := "fire";
     fire_on := 0;
     last_detection_time := None;
     detection_history := [];
     request_count := 0;
     consecutive_failures := 0;
     last_successful_request := now |}.

(** What the client does that an observer can see. *)
Inductive Effect :=
| Sleep (seconds : Q)
| WarnHighRequestCount
| LogServerError (status : Z)
| LogTimeout
| LogCriticalTimeouts
| LogSendFailed
| LogHealthCritical (failures : Z) (since_success : Z)
| LogUnresponsive
| LogNoResult
| LogCaptureFailed
| LogFrameProcessed
| NotifyDashboard (record : HistoryRecord).

(** How the post ended: a response with its status and its body (parsed,
    or the message of the parse error), or an exception with its message. *)
Inductive PostOutcome :=
| Responded (status : Z) (body : Result + string)
| PostRaised (message : string).

(** What one call of [_send_to_ai_server] sees of the outside: the task the
    dashboard names, the outcome of the post under a given timeout, and the
    clock when a success is recorded and when the health is reported. *)
Record SendEnv := {
  dashboard_task : string;
  post : Q -> PostOutcome;
  now_success : Z;
  now_health : Z
}.

Definition set_failures (s : State) (n : Z) : State :=
  {| frame_rate := frame_rate s;
     current_task := current_task s;
     fire_on := fire_on s;
     last_detection_time := last_detection_time s;
     detection_history := detection_history s;
     request_count := request_count s;
     consecutive_failures := n;
     last_successful_request := last_successful_request s |}.

Definition set_success (s : State) (now : Z) : State :=
  {| frame_rate := frame_rate s;
     current_task := current_task s;
     fire_on := fire_on s;
     last_detection_time := last_detection_time s;
     detection_history := detection_history s;
     request_count := request_count s;
     consecutive_failures := 0;
     last_successful_request := now |}.

(** The [except] block of [_send_to_ai_server]. *)
Definition on_exception (e : SendEnv) (message : string) (s : State)
  : State * list Effect :=
  let s1 := set_failures s (consecutive_failures s + 1) in
  let fails := consecutive_failures s1 in
  let timeout_effects :=
    if contains "timeout" (lower message) then
      LogTimeout ::
      (if ((200 <? request_count s1) && (2 <=? fails))%bool
       then [LogCriticalTimeouts; Sleep 5] else [])
    else [LogSendFailed] in
  let health_effects :=
    if 3 <=? fails then
      LogHealthCritical fails
        (timedelta_seconds (now_health e) (last_successful_request s1)) ::
      (if 5 <=? fails then [LogUnresponsive; Sleep 10] else [])
    else [] in
  (s1, timeout_effects ++ health_effects).

Definition send_to_ai_server (e : SendEnv) (s : State)
  : State * option Result * list Effect :=
  let s1 :=
    {| frame_rate := frame_rate s;
       current_task := dashboard_task e;
       fire_on := fire_on s;
       last_detection_time := last_detection_time s;
       detection_history := detection_history s;
       request_count := request_count s + 1;
       consecutive_failures := consecutive_failures s;
       last_successful_request := last_successful_request s |} in
  let warn :=
    if ((200 <=? request_count s1) && (request_count s1 mod 20 =? 0))%bool
    then [WarnHighRequestCount] else [] in
  match post e request_timeout with
  | Responded status body =>
      if status =? 200 then
        let s2 := set_success s1 (now_success e) in
        match body with
        | inl result => (s2, Some result, warn)
        | inr message =>
            let '(s3, effects) := on_exception e message s2 in
            (s3, None, warn ++ effects)
        end
      else
        (set_failures s1 (consecutive_failures s1 + 1), None,
         warn ++ [LogServerError status])
  | PostRaised message =>
      let '(s2, effects) := on_exception e message s1 in
      (s2, None, warn ++ effects)
  end.

(** *** [_process_detection_result] *)

Definition Qgtb (a b : Q) : bool := negb (Qle_bool a b).

Definition is_target (task : string) (d : Detection) : bool :=
  let class_name := lower (class d) in
  let zero := match class_id d with Some 0 => true | _ => false end in
  if String.eqb task "fire" then (zero || contains "fire" class_name)%bool
  else if String.eqb task "leaves"
       then (zero || contains "yellow" class_name)%bool
       else false.

(** The loop over the detections: whether a target was seen, the highest
    confidence among the targets, and the targets in order. *)
Definition scan (task : string) (ds : list Detection)
  : bool * Q * list Detection :=
  fold_left
    (fun acc d =>
       let '(seen, best, targets) := acc in
       if is_target task d then
         (true,
          (if Qgtb (confidence d) best then confidence d else best),
          targets ++ [d])
       else acc)
    ds (false, 0%Q, []).

Definition target_detected (task : string) (r : Result) : bool :=
  fst (fst (scan task (detections r))).

(** The flag after one result read at instant [now]. *)
Definition next_fire_on (s : State) (target : bool) (now : Z) : Z :=
  if target then 1
  else match last_detection_time s with
       | Some t =>
           if grace_seconds <? timedelta_seconds now t then 0 else fire_on s
       | None => fire_on s
       end.

Definition keep_last (n : nat) {A : Type} (l : list A) : list A :=
  skipn (List.length l - n) l.

Definition process_detection_result (now : Z) (r : Result) (s : State)
  : State * bool :=
  let '(target, best, targets) := scan (current_task s) (detections r) in
  let flag := next_fire_on s target now in
  let record :=
    {| h_task := current_task s;
       h_target_detected := target;
       h_fire_on := flag;
       h_confidence := best;
       h_detections := targets |} in
  let history := detection_history s ++ [record] in
  ({| frame_rate := frame_rate s;
      current_task := current_task s;
      fire_on := flag;
      last_detection_time :=
        if target then Some now else last_detection_time s;
      detection_history :=
        if (100 <? List.length history)%nat then keep_last 100 history
        else history;
      request_count := request_count s;
      consecutive_failures := consecutive_failures s;
      last_successful_request := last_successful_request s |}, target).

(** *** [_capture_loop] *)

(** [1.0 / self.frame_rate]; [None] is the [ZeroDivisionError]. *)
Definition frame_interval (rate : Q) : option Q :=
  if Qeq_bool rate 0 then None else Some (1 / rate)%Q.

(** What one cycle sees of the outside: the captured frame, the
    environment of the send, the clock when the result is processed, and
    the seconds the cycle spends working rather than sleeping. *)
Record CycleEnv := {
  frame : option string;
  send_env : SendEnv;
  now_detect : Z;
  work : Q
}.

Fixpoint slept (effects : list Effect) : Q :=
  match effects with
  | [] => 0
  | Sleep d :: r => d + slept r
  | _ :: r => slept r
  end.

(** [max(0, x)] *)
Definition max0 (x : Q) : Q := if Qle_bool x 0 then 0 else x.

Record Cycle := {
  after : State;
  effects : list Effect;
  (** [elapsed]: seconds from the start of the cycle to the final wait *)
  elapsed : Q;
  (** the final wait, and with it the seconds from the start of the cycle
      to the start of the next *)
  sleep_time : Q;
  period : Q
}.

Definition cycle (interval : Q) (e : CycleEnv) (s : State) : Cycle :=
  let '(s', effs) :=
    match frame e with
    | Some (String _ _) =>
        let '(s1, result, sent) := send_to_ai_server (send_env e) s in
        match result with
        | Some r =>
            let '(s2, _) := process_detection_result (now_detect e) r s1 in
            (s2,
             sent ++
             match rev (detection_history s2) with
             | last :: _ => [NotifyDashboard last]
             | [] => []
             end ++ [LogFrameProcessed])
        | None => (s1, sent ++ [LogNoResult; Sleep 2])
        end
    | _ => (s, [LogCaptureFailed])
    end in
  let spent := (work e + slept effs)%Q in
  let wait := max0 (interval - spent) in
  {| after := s';
     effects := effs ++ [Sleep wait];
     elapsed := spent;
     sleep_time := wait;
     period := (spent + wait)%Q |}.

(** The cycles while [is_running] holds, one environment per cycle. *)
Fixpoint capture_cycles (interval : Q) (es : list CycleEnv) (s : State)
  : list Cycle :=
  match es with
  | [] => []
  | e :: rest =>
      let c := cycle interval e s in
      c :: capture_cycles interval rest (after c)
  end.

(** The loop with the interval of the configured frame rate. *)
Definition capture_loop (es : list CycleEnv) (s : State)
  : option (list Cycle) :=
  match frame_interval (frame_rate s) with
  | Some interval => Some (capture_cycles interval es s)
  | None => None
  end.

(** The alarm flag over the results of one task, each read at its instant. *)
Fixpoint observe (events : list (Z * Result)) (s : State) : State :=
  match events with
  | [] => s
  | (now, r) :: rest => observe rest (fst (process_detection_result now r s))
  end.

End Client.

(** ** The process monitor: [start_complete_system.py] *)

Module Supervisor.

Definition max_ai_server_restarts : Z := 3.

(** A [Popen] handle. *)
Definition Proc := nat.

Definition is_ai_server (name : string) : bool := String.eqb name "AI Server".

(** The monitor's view: the launcher's process list and the loop's
    restart counter. *)
Record State := {
  processes : list (string * Proc);
  ai_server_restart_count : Z
}.

(** The answer to [GET /api/status]: status 200 with the request count of
    the body ([None] when the body does not parse), another status, or an
    exception of the request. *)
Inductive Probe :=
| Probe200 (request_count : option Z)
| ProbeStatus (code : Z)
| ProbeRaised.

Inductive Message :=
| ApproachingMemoryLimit (request_count : Z)
| LikelyToFailSoon
| NotHealthy (code : Z)
| NotResponding
| ProcessStopped (name : string)
| AttemptingRestart (attempt : Z)
| RestartedSuccessfully
| FailedToRestart
| RunningProcesses (names : list string)
| ForcingRestart
| UnresponsiveRestarted
| FailedToRestartUnresponsive.

Inductive Action :=
| Sleep (seconds : Z)
| Print (m : Message)
| Terminate (p : Proc)
| Kill (p : Proc)
| StartAiServer (result : option Proc).

(** What one pass of the loop sees of the outside: which processes have
    exited, what the probe of a process answers, whether a terminated
    process is gone within the five seconds of the wait, and what the
    successive calls of [start_ai_server] return. *)
Record Env := {
  exited : Proc -> bool;
  probe : Proc -> Probe;
  graceful : Proc -> bool;
  spawn : nat -> option Proc
}.

Definition without_ai_server (ps : list (string * Proc))
  : list (string * Proc) :=
  filter (fun np => negb (is_ai_server (fst np))) ps.

(** The variables the [for] loop reads and writes. *)
Record Scan := {
  sc_processes : list (string * Proc);
  sc_count : Z;
  sc_running : list string;
  sc_responsive : bool;
  sc_spawned : nat;
  sc_actions : list Action
}.

Definition probe_ai_server (e : Env) (p : Proc) (a : Scan) : Scan :=
  match probe e p with
  | Probe200 (Some request_count) =>
      {| sc_processes := sc_processes a;
         sc_count := sc_count a;
         sc_running := sc_running a;
         sc_responsive := true;
         sc_spawned := sc_spawned a;
         sc_actions :=
           sc_actions a ++
           (if 220 <? request_count then
              Print (ApproachingMemoryLimit request_count) ::
              (if 240 <? request_count then [Print LikelyToFailSoon] else [])
            else []) |}
  | ProbeStatus code =>
      {| sc_processes := sc_processes a;
         sc_count := sc_count a;
         sc_running := sc_running a;
         sc_responsive := sc_responsive a;
         sc_spawned := sc_spawned a;
         sc_actions := sc_actions a ++ [Print (NotHealthy code)] |}
  | Probe200 None | ProbeRaised =>
      {| sc_processes := sc_processes a;
         sc_count := sc_count a;
         sc_running := sc_running a;
         sc_responsive := false;
         sc_spawned := sc_spawned a;
         sc_actions := sc_actions a ++ [Print NotResponding] |}
  end.

(** The restart of a worker found dead. *)
Definition restart_dead (e : Env) (a : Scan) : Scan :=
  let started := spawn e (sc_spawned a) in
  let kept := without_ai_server (sc_processes a) in
  let announce :=
    [Print (AttemptingRestart (sc_count a + 1)); StartAiServer started] in
  match started with
  | Some p' =>
      {| sc_processes := kept ++ [("AI Server"%string, p')];
         sc_count := sc_count a + 1;
         sc_running := sc_running a;
         sc_responsive := sc_responsive a;
         sc_spawned := S (sc_spawned a);
         sc_actions :=
           sc_actions a ++ announce ++ [Print RestartedSuccessfully] |}
  | None =>
      {| sc_processes := kept;
         sc_count := sc_count a;
         sc_running := sc_running a;
         sc_responsive := sc_responsive a;
         sc_spawned := S (sc_spawned a);
         sc_actions := sc_actions a ++ announce ++ [Print FailedToRestart] |}
  end.

(** One turn of the [for] loop. *)
Definition check_process (e : Env) (a : Scan) (np : string * Proc) : Scan :=
  let '(name, p) := np in
  if negb (exited e p) then
    let a1 :=
      {| sc_processes := sc_processes a;
         sc_count := sc_count a;
         sc_running := sc_running a ++ [name];
         sc_responsive := sc_responsive a;
         sc_spawned := sc_spawned a;
         sc_actions := sc_actions a |} in
    if is_ai_server name then probe_ai_server e p a1 else a1
  else
    let a1 :=
      {| sc_processes := sc_processes a;
         sc_count := sc_count a;
         sc_running := sc_running a;
         sc_responsive := sc_responsive a;
         sc_spawned := sc_spawned a;
         sc_actions := sc_actions a ++ [Print (ProcessStopped name)] |} in
    if (is_ai_server name && (sc_count a <? max_ai_server_restarts))%bool
    then restart_dead e a1 else a1.

(** [terminate()], [wait(timeout=5)], and [kill()] when that raises, for
    every worker entry of the list. *)
Definition stop_ai_servers (e : Env) (ps : list (string * Proc))
  : list Action :=
  flat_map
    (fun np =>
       if is_ai_server (fst np) then
         Terminate (snd np) ::
         (if graceful e (snd np) then [] else [Kill (snd np)])
       else [])
    ps.

(** The restart of a worker that runs but does not answer. *)
Definition force_restart (e : Env) (a : Scan) : Scan :=
  let started := spawn e (sc_spawned a) in
  let kept := without_ai_server (sc_processes a) in
  let steps :=
    [Print ForcingRestart] ++ stop_ai_servers e (sc_processes a) ++
    [Sleep 2; StartAiServer started] in
  match started with
  | Some p' =>
      {| sc_processes := kept ++ [("AI Server"%string, p')];
         sc_count := sc_count a + 1;
         sc_running := sc_running a;
         sc_responsive := sc_responsive a;
         sc_spawned := S (sc_spawned a);
         sc_actions := sc_actions a ++ steps ++ [Print UnresponsiveRestarted] |}
  | None =>
      {| sc_processes := kept;
         sc_count := sc_count a;
         sc_running := sc_running a;
         sc_responsive := sc_responsive a;
         sc_spawned := S (sc_spawned a);
         sc_actions :=
           sc_actions a ++ steps ++ [Print FailedToRestartUnresponsive] |}
  end.

Definition ai_server_process_running (e : Env) (ps : list (string * Proc))
  : bool :=
  existsb (fun np => is_ai_server (fst np))
          (filter (fun np => negb (exited e (snd np))) ps).

(** The body of the [while True] loop of [monitor_loop], once. *)
Definition monitor_pass (e : Env) (s : State) : State * list Action :=
  let a0 :=
    {| sc_processes := processes s;
       sc_count := ai_server_restart_count s;
       sc_running := [];
       sc_responsive := false;
       sc_spawned := 0%nat;
       sc_actions := [Sleep 10] |} in
  (* the loop walks the list it started with *)
  let a1 := fold_left (check_process e) (processes s) a0 in
  let a2 :=
    if negb (Nat.eqb (List.length (sc_running a1))
                     (List.length (sc_processes a1)))
    then {| sc_processes := sc_processes a1;
            sc_count := sc_count a1;
            sc_running := sc_running a1;
            sc_responsive := sc_responsive a1;
            sc_spawned := sc_spawned a1;
            sc_actions :=
              sc_actions a1 ++ [Print (RunningProcesses (sc_running a1))] |}
    else a1 in
  let a3 :=
    if (ai_server_process_running e (sc_processes a2) &&
        negb (sc_responsive a2) &&
        (sc_count a2 <? max_ai_server_restarts))%bool
    then force_restart e a2 else a2 in
  ({| processes := sc_processes a3; ai_server_restart_count := sc_count a3 |},
   sc_actions a3).

(** The loop over successive passes; the actions come in order. *)
Fixpoint monitor_loop (es : list Env) (s : State) : State * list Action :=
  match es with
  | [] => (s, [])
  | e :: rest =>
      let '(s1, acts) := monitor_pass e s in
      let '(s2, more) := monitor_loop rest s1 in
      (s2, acts ++ more)
  end.

(** The monitor when [launch] starts it. *)
Definition init (ps : list (string * Proc)) : State :=
  {| processes := ps; ai_server_restart_count := 0 |}.

(** What the actions of a run amount to. *)
Definition is_start (a : Action) : bool :=
  match a with StartAiServer _ => true | _ => false end.

Definition is_successful_start (a : Action) : bool :=
  match a with StartAiServer (Some _) => true | _ => false end.

Definition is_stop (a : Action) : bool :=
  match a with Terminate _ | Kill _ => true | _ => false end.

Definition count_if {A : Type} (f : A -> bool) (l : list A) : Z :=
  Z.of_nat (List.length (filter f l)).

End Supervisor.


(** ** The status report of the worker: [get_status] *)

Module WorkerStatus.
Import PyDict Worker.

(** The [memory_info] entry of the report. *)
Record MemoryInfo := {
  mi_cleanup_interval : Z;
  next_cleanup_at : Z;
  requests_until_cleanup : Z;
  mi_model_reload_interval : Z;
  mi_last_model_reload : Z;
  requests_since_model_reload : Z;
  next_model_reload_at : Z
}.

(** The report, without the echo of [CONFIG] and the accelerator entry. *)
Record Status := {
  models_loaded : Z;
  available_models : list string;
  server_time : Q;
  st_request_count : Z;
  memory_info : MemoryInfo
}.

Definition get_status {Model : Type} (now : Q) (s : State Model) : Status :=
  let n := request_counter s in
  {| models_loaded := Z.of_nat (List.length (models s));
     available_models := keys (models s);
     server_time := now;
     st_request_count := n;
     memory_info :=
       {| mi_cleanup_interval := 20;
          next_cleanup_at := (n / 20 + 1) * 20;
          requests_until_cleanup := (n / 20 + 1) * 20 - n;
          mi_model_reload_interval := 100;
          mi_last_model_reload := last_model_reload s;
          requests_since_model_reload := n - last_model_reload s;
          next_model_reload_at := last_model_reload s + 100 |} |}.

End WorkerStatus.

(** ** The task of the dashboard: [fire_detection_dashboard.py] *)

Module Dashboard.
Import PyDict.

Definition task_models : dict string :=
  [("fire", "fire_detection_final"); ("leaves", "yellow-leaves-best")]%string.

(** The task field of the dashboard service. *)
Record State := {
  current_task : string
}.

(** The service as [__init__] leaves it. *)
Definition init : State := {| current_task := "fire" |}.

Definition set_current_task (task : string) (d : State) : State * bool :=
  if mem task task_models then ({| current_task := task |}, true)
  else (d, false).

Definition get_current_task (d : State) : string := current_task d.

Definition get_current_model (d : State) : string :=
  match get (current_task d) task_models with
  | Some m => m
  | None => "fire_detect_final"%string
  end.

(** The body of a switch request: no JSON object ([None], on which the
    handler raises), or an object with or without a ["task"] string. *)
Definition SwitchBody := option (option string).

Inductive SwitchResponse :=
| Switched (task model : string)
| NoTaskSpecified
| InvalidTask (task : string)
| SwitchError.

Definition switch_status (r : SwitchResponse) : Z :=
  match r with
  | Switched _ _ => 200
  | NoTaskSpecified | InvalidTask _ => 400
  | SwitchError => 500
  end.

(** [api_switch_task]; a missing task and an empty one are both falsy. *)
Definition api_switch_task (body : SwitchBody) (d : State)
  : State * SwitchResponse :=
  match body with
  | None => (d, SwitchError)
  | Some None | Some (Some EmptyString) => (d, NoTaskSpecified)
  | Some (Some task) =>
      let '(d', ok) := set_current_task task d in
      if ok then (d', Switched task (get_current_model d'))
      else (d', InvalidTask task)
  end.

(** The [task] and [model] entries of [api_current_task]. *)
Definition api_current_task (d : State) : string * string :=
  (get_current_task d, get_current_model d).

(** The service after a series of switch requests. *)
Definition serve_switches (bodies : list SwitchBody) (d : State) : State :=
  fold_left (fun st b => fst (api_switch_task b st)) bodies d.

End Dashboard.

(** ** More of the capture client *)

Module ClientMore.
Import PyStr PyDict Client.

(** How the request for the current task ended: a response with its
    status and, when its body parses, the ["task"] entry if there is one;
    or an exception. *)
Inductive TaskOutcome :=
| TaskResponded (status : Z) (body : option (option string))
| TaskRaised.

Definition get_current_task_from_dashboard (o : TaskOutcome) : string :=
  match o with
  | TaskResponded status (Some entry) =>
      if status =? 200 then
        match entry with Some task => task | None => "fire"%string end
      else "fire"%string
  | _ => "fire"%string
  end.

(** The health entries of the simulator's [get_status]. *)
Record Health := {
  total_detections : Z;
  hs_request_count : Z;
  hs_consecutive_failures : Z;
  time_since_last_success_sec : Z;
  ai_server_health : string
}.

Definition get_status (now : Z) (s : State) : Health :=
  {| total_detections := Z.of_nat (List.length (detection_history s));
     hs_request_count := request_count s;
     hs_consecutive_failures := consecutive_failures s;
     time_since_last_success_sec :=
       timedelta_seconds now (last_successful_request s);
     ai_server_health :=
       if 3 <=? consecutive_failures s then "critical"%string
       else if 1 <=? consecutive_failures s then "warning"%string
            else "good"%string |}.

(** The state after a series of sends, one environment per send. *)
Definition after_sends (es : list SendEnv) (s : State) : State :=
  fold_left (fun st e => fst (fst (send_to_ai_server e st))) es s.

End ClientMore.

(** ** The launcher: [start_complete_system.py] *)

Module Launcher.
Import Supervisor.

(** What a probe of the starting worker gives. *)
Inductive StartProbe :=
| Ready
| NotReady (status : Z)
| Refused
| Failed.

(** What [start_ai_server] sees of the outside, attempt by attempt:
    whether the process has exited, and what the probe gives. *)
Record StartEnv := {
  died : nat -> bool;
  answer : nat -> StartProbe
}.

Inductive Event :=
| Wait (seconds : Z)
| Say (line : string) (attempt : nat)
| Stopping (name : string)
| Terminate (p : Proc)
| Kill (p : Proc).

Definition every_fifth (attempt : nat) (line : string) : list Event :=
  if Nat.eqb (attempt mod 5) 0 then [Say line (attempt + 1)] else [].

(** The [for attempt in range(30)] loop from [attempt] on, with [left]
    attempts to go, and what follows the loop. *)
Fixpoint await_server (e : StartEnv) (p : Proc) (attempt left : nat)
  : option Proc * list Event :=
  match left with
  | O => (None, [Say "failed to respond" attempt; Terminate p])
  | S left' =>
      if died e attempt then (None, [Wait 1; Say "process died" attempt])
      else
        match answer e attempt with
        | Ready => (Some p, [Wait 1; Say "started and responding" attempt])
        | other =>
            let '(r, events) := await_server e p (S attempt) left' in
            (r,
             Wait 1 ::
             match other with
             | NotReady _ => [Say "not ready" (attempt + 1)]
             | Refused => every_fifth attempt "waiting to bind"
             | _ => every_fifth attempt "connection attempt failed"
             end ++ events)
        end
  end.

(** [start_ai_server] for the process [Popen] returned. *)
Definition start_ai_server (e : StartEnv) (p : Proc)
  : option Proc * list Event :=
  await_server e p 0 30.

(** [shutdown_system]: the signals of one entry of the list. The
    environment is the monitor's: which processes have exited, and which
    are gone within the five seconds of the wait. *)
Definition stop_process (e : Env) (np : string * Proc) : list Event :=
  if exited e (snd np) then []
  else
    Stopping (fst np) :: Terminate (snd np) ::
    (if graceful e (snd np) then [] else [Kill (snd np)]).

Definition shutdown_system (e : Env) (s : State) : State * list Event :=
  ({| processes := [];
      ai_server_restart_count := ai_server_restart_count s |},
   flat_map (stop_process e) (processes s)).

(** The process list [launch] hands to the monitor, from what the three
    starts returned; [None] when [launch] gives up. *)
Definition launch (ai dashboard simulator : option Proc)
  : option (list (string * Proc)) :=
  match ai with
  | None => None
  | Some a =>
      match dashboard with
      | None => None
      | Some d =>
          Some ([("AI Server"%string, a); ("Dashboard"%string, d)] ++
                match simulator with
                | Some c => [("ESP32-CAM Simulator"%string, c)]
                | None => []
                end)
      end
  end.

End Launcher.
(** ** Vocabulary of the properties *)

Module WorkerSpec.
Import PyStr PyDict PyJson Worker.
Section Vocabulary.
Context {Model : Type}.

(** File [f] of a listing yields model [name]. *)
Definition loads (name : string) (f : string * option Model) : bool :=
  (endswith (fst f) ".pt" &&
   match snd f with Some _ => true | None => false end &&
   String.eqb (remove_dot_pt (fst f)) name)%bool.

(** File [f] of a listing is the file of model [name] and fails to load. *)
Definition fails_to_load (name : string) (f : string * option Model)
  : bool :=
  (endswith (fst f) ".pt" &&
   match snd f with Some _ => false | None => true end &&
   String.eqb (remove_dot_pt (fst f)) name)%bool.

(** A load pass over directory [d] loads model [name]. *)
Definition loaded_from (d : ModelsDir Model) (name : string) : bool :=
  match d with
  | DirListing files => existsb (loads name) files
  | _ => false
  end.

(** Model [name] individually failed to load in a pass over [d]. *)
Definition failed_in (d : ModelsDir Model) (name : string) : bool :=
  match d with
  | DirListing files => existsb (fails_to_load name) files
  | _ => false
  end.

(** The directory the table of a reload is finally loaded from: the one
    of the reload, or the one its handler sees when the reload raised. *)
Definition deciding_disk (e : Env Model) : ModelsDir Model :=
  match snd (load_models (disk e) []) with
  | Returned => disk e
  | Raised => disk_retry e
  end.

Definition individually_failed (e : Env Model) (name : string) : bool :=
  (failed_in (disk e) name || failed_in (disk_retry e) name)%bool.

(** The claim of C1 as the design document words it: whatever was loaded
    and did not itself fail to load is still there after the reload. *)
Definition keeps_working_models (e : Env Model) (s : State Model) : Prop :=
  forall name,
    mem name (models s) = true ->
    individually_failed e name = false ->
    mem name (models (fst (reload_models_if_needed e s))) = true.

(** The claim of C9 as the design document words it: a reader finds the
    table of before the reload or the table of after it. *)
Definition swapped_as_a_whole (e : Env Model) (s : State Model) : Prop :=
  forall t,
    In t (observable_tables e s) ->
    t = models s \/ t = models (fst (reload_models_if_needed e s)).

(** The state a request is counted into before its maintenance runs. *)
Definition counted (s : State Model) : State Model :=
  {| models := models s;
     request_counter := request_counter s + 1;
     last_model_reload := last_model_reload s |}.

(** The claim of C2 as the design document words it, for the collection
    passes: one on a call exactly when its number is a multiple of the
    cleanup interval. *)
Definition gc_on_schedule {BBox : Type}
  (served : list (Served Model BBox)) : Prop :=
  forall k v,
    nth_error served k = Some v ->
    (gc_pass v = true <-> (Z.of_nat k + 1) mod cleanup_interval = 0).

(** The number of the last call among [served] whose reload succeeded,
    when the first of them has number [first]; [mark] when there is
    none. *)
Fixpoint last_reloaded {BBox : Type} (first mark : Z)
    (served : list (Served Model BBox)) : Z :=
  match served with
  | [] => mark
  | v :: rest =>
      last_reloaded (first + 1)
        (match reload (maintenance v) with
         | Reloaded => first
         | _ => mark
         end)
        rest
  end.

(** The request count at the last successful reload of a worker that has
    served [served] since its start: 0 before the first. *)
Definition last_successful_reload {BBox : Type}
    (served : list (Served Model BBox)) : Z :=
  last_reloaded 1 0 served.






End Vocabulary.

Section Contract.
Variables Model Image BBox : Type.
Variable open_image : string -> option Image.
Variable width height : Image -> Z.
Variable predict : Model -> Image -> Json -> option (list (Box BBox)).


End Contract.
End WorkerSpec.


Module ClientSpec.
Import Client.

(** A status of the 2xx class. *)
Definition is_2xx (status : Z) : bool := (200 <=? status) && (status <? 300).

(** The claim of C5 as the design document words it: the count is 0 after
    a response of the 2xx class, and one more than before after an
    exception or a response of another class. *)
Definition failure_count_law (e : SendEnv) (s : State) : Prop :=
  let s' := fst (fst (send_to_ai_server e s)) in
  match post e request_timeout with
  | Responded status _ =>
      if is_2xx status then consecutive_failures s' = 0
      else consecutive_failures s' = consecutive_failures s + 1
  | PostRaised _ => consecutive_failures s' = consecutive_failures s + 1
  end.

Definition is_health_critical (f : Effect) : bool :=
  match f with LogHealthCritical _ _ => true | _ => false end.

(** The claim of C6 as the design document words it: a cycle that leaves 3
    or more consecutive failures logs the degraded health, sleeps extra
    time, and lasts longer than the base interval of the frame rate. *)
Definition degraded_backoff (e : CycleEnv) (s : State) : Prop :=
  forall interval,
    frame_interval (frame_rate s) = Some interval ->
    let c := cycle interval e s in
    3 <= consecutive_failures (after c) ->
    existsb is_health_critical (effects c) = true /\
    (0 < elapsed c - work e)%Q /\
    (interval < period c)%Q.

(** The claim of C8 as the design document words it: the timeout of the
    post is below the period of the cycles. *)
Definition timeout_below_period (rate : Q) : Prop :=
  exists p, frame_interval rate = Some p /\ (request_timeout < p)%Q.

(** The environment of a send whose post ends in [o] whatever the
    timeout. *)
Definition answering (o : PostOutcome) (e : SendEnv) : SendEnv :=
  {| dashboard_task := dashboard_task e;
     post := fun _ => o;
     now_success := now_success e;
     now_health := now_health e |}.




End ClientSpec.

Module SupervisorSpec.
Import Supervisor.

(** A probe that does not end with a parsed 200 response. *)
Definition unanswered (a : Probe) : bool :=
  match a with Probe200 (Some _) => false | _ => true end.

Definition has_ai_server (ps : list (string * Proc)) : bool :=
  existsb (fun np => is_ai_server (fst np)) ps.

(** The worker runs, every process of the list runs, and no probe of the
    worker is answered. *)
Definition unresponsive (e : Env) (s : State) : Prop :=
  has_ai_server (processes s) = true /\
  Forall (fun np => exited e (snd np) = false) (processes s) /\
  Forall (fun np => is_ai_server (fst np) = true ->
                    unanswered (probe e (snd np)) = true) (processes s).

(** The claim of C4 as the design document words it, for one pass: an
    unresponsive worker with restarts left is stopped and started again,
    and the restart counter grows by exactly 1. *)
Definition restart_law (e : Env) (s : State) : Prop :=
  unresponsive e s ->
  ai_server_restart_count s < max_ai_server_restarts ->
  let '(s', actions) := monitor_pass e s in
  0 < count_if is_stop actions /\
  0 < count_if is_start actions /\
  ai_server_restart_count s' = ai_server_restart_count s + 1.

Definition is_print (a : Action) : bool :=
  match a with Print _ => true | _ => false end.

(** Scan [a'] continues scan [a]: the actions grow at the end, the counter
    grows by the successful starts among the new actions and stays within
    the maximum, and nothing is started or stopped once the maximum is
    reached. *)
Definition accounted (a a' : Scan) : Prop :=
  exists new,
    sc_actions a' = sc_actions a ++ new /\
    sc_count a' = sc_count a + count_if is_successful_start new /\
    (sc_count a <= max_ai_server_restarts ->
     sc_count a' <= max_ai_server_restarts) /\
    (max_ai_server_restarts <= sc_count a ->
     count_if is_start new = 0 /\ count_if is_stop new = 0 /\
     sc_processes a' = sc_processes a).

End SupervisorSpec.

Module MoreSpec.

(** Character [c] occurs in [s]. *)
Fixpoint has_char (c : ascii) (s : string) : bool :=
  match s with
  | EmptyString => false
  | String a r => (Ascii.eqb a c || has_char c r)%bool
  end.

(** What the fields of a running client satisfy: the flag is 0 or 1 and
    is 1 only after a detection, the history holds at most 100 records,
    and the counters are not negative. *)
Definition sound (s : Client.State) : Prop :=
  (Client.fire_on s = 0 \/ Client.fire_on s = 1) /\
  (Client.fire_on s = 1 -> Client.last_detection_time s <> None) /\
  (List.length (Client.detection_history s) <= 100)%nat /\
  0 <= Client.consecutive_failures s /\
  0 <= Client.request_count s.

(** A send answered with status 200 and a body that parses. *)
Definition succeeded (e : Client.SendEnv) : Prop :=
  exists r, Client.post e Client.request_timeout = Client.Responded 200 (inl r).

(** Microseconds of a day. *)
Definition day : Z := 86400 * 1000000.

Definition is_notify (f : Client.Effect) : bool :=
  match f with Client.NotifyDashboard _ => true | _ => false end.

Definition is_wait (v : Launcher.Event) : bool :=
  match v with Launcher.Wait _ => true | _ => false end.

(** No attempt of a start finds the process dead or the worker ready. *)
Definition never_ready (e : Launcher.StartEnv) : Prop :=
  forall i, (i < 30)%nat ->
            Launcher.died e i = false /\ Launcher.answer e i <> Launcher.Ready.

(** The entries of the worker in a process list. *)
Definition ai_servers (ps : list (string * Supervisor.Proc))
  : list (string * Supervisor.Proc) :=
  filter (fun np => Supervisor.is_ai_server (fst np)) ps.

(** Process [p] is a worker the monitor knows: one of the list the pass
    started with, or one a start of the pass returned. *)
Definition known_worker (e : Supervisor.Env)
    (ps0 : list (string * Supervisor.Proc)) (p : Supervisor.Proc) : Prop :=
  (exists np, In np (ai_servers ps0) /\ snd np = p) \/
  exists k, Supervisor.spawn e k = Some p.

Definition stops (p : Supervisor.Proc) (acts : list Supervisor.Action)
  : Prop :=
  In (Supervisor.Terminate p) acts \/ In (Supervisor.Kill p) acts.

(** What a scan keeps of the list [ps0] its pass started with: the other
    processes, a single worker if there was at most one, and signals for
    known workers only. *)
Definition tidy (e : Supervisor.Env) (ps0 : list (string * Supervisor.Proc))
    (a : Supervisor.Scan) : Prop :=
  Supervisor.without_ai_server (Supervisor.sc_processes a) =
    Supervisor.without_ai_server ps0 /\
  (forall np, In np (ai_servers (Supervisor.sc_processes a)) ->
              known_worker e ps0 (snd np)) /\
  ((List.length (ai_servers ps0) <= 1)%nat ->
   (List.length (ai_servers (Supervisor.sc_processes a)) <= 1)%nat) /\
  (forall p, stops p (Supervisor.sc_actions a) -> known_worker e ps0 p).

(** A probe answered with status 200 and a body that parses. *)
Definition answered (a : Supervisor.Probe) : bool :=
  match a with Supervisor.Probe200 (Some _) => true | _ => false end.

End MoreSpec.
(** ** Concrete workers, clients and monitors for the examples *)

Module Fixtures.
Import PyDict PyJson Worker WorkerSpec.

(** A model is told by its artifact, an image by its size. *)
Definition Model := string.
Definition Image := (Z * Z)%type.
Definition BBox := unit.

Definition open_image (payload : string) : option Image :=
  if String.eqb payload "" then None else Some (640, 480).

Definition predict (m : Model) (img : Image) (threshold : Json)
  : option (list (Box BBox)) :=
  if String.eqb m "corrupt" then None
  else Some [ {| conf := 91 # 100; cls := 0; cls_name := "fire";
                 xyxy := tt |};
              {| conf := 30 # 100; cls := 0; cls_name := "fire";
                 xyxy := tt |} ].

Definition detect := detect_objects open_image fst snd predict.

Definition run := serve open_image fst snd predict.

Definition healthy_disk : ModelsDir Model :=
  DirListing [("fire_detection_final.pt"%string, Some "fire-weights"%string);
              ("README.md"%string, None)].

Definition env_at (d : ModelsDir Model) : Env Model :=
  {| disk := d; disk_retry := d;
     t_start := 10; t_end := 10 + (25 # 1000); t_stamp := 11 |}.

Definition fire_fields : dict Json :=
  [("image"%string, JStr "aGVsbG8=");
   ("model"%string, JStr "fire_detection_final");
   ("device_id"%string, JStr "ESP32_CAM_SIM_001")].

Definition fire_request : Request := Parsed (JObj fire_fields).

Definition fresh : State Model := start healthy_disk.

(** A worker that has served 99 requests since its last reload. *)
Definition before_reload : State Model :=
  {| models := [("fire_detection_final"%string, "fire-weights"%string)];
     request_counter := 99;
     last_model_reload := 0 |}.

(** The same worker once the hundredth request is counted. *)
Definition at_reload : State Model := counted before_reload.

Definition one_call : Env Model * Request :=
  (env_at healthy_disk, fire_request).

(** The twentieth result of twenty calls to a fresh worker. *)
Definition twentieth : Served Model BBox :=
  detect (env_at healthy_disk) fire_request
    (final_state open_image fst snd predict (repeat one_call 19) fresh).

End Fixtures.


Module ClientFixtures.
Import Client ClientSpec.

Definition fire_seen : Result :=
  {| detections :=
       [{| confidence := 6 # 10; class_id := Some 0; class := "fire" |}] |}.

Definition nothing_seen : Result := {| detections := [] |}.

(** A client at 1 frame per second, started at instant 0. *)
Definition idle : State := init 1 0.

(** The same client after two failed requests. *)
Definition struggling : State :=
  {| frame_rate := 1;
     current_task := "fire";
     fire_on := 0;
     last_detection_time := None;
     detection_history := [];
     request_count := 2;
     consecutive_failures := 2;
     last_successful_request := 0 |}.

(** A client at 1 frame in 10 seconds after two failed requests. *)
Definition slow_struggling : State :=
  {| frame_rate := 1 # 10;
     current_task := "fire";
     fire_on := 0;
     last_detection_time := None;
     detection_history := [];
     request_count := 2;
     consecutive_failures := 2;
     last_successful_request := 0 |}.

Definition send_with (o : PostOutcome) : SendEnv :=
  {| dashboard_task := "fire";
     post := fun _ => o;
     now_success := 3000000;
     now_health := 3000000 |}.

Definition refused : PostOutcome := PostRaised "Connection refused".

Definition cycle_with (o : PostOutcome) : CycleEnv :=
  {| frame := Some "aGVsbG8="%string;
     send_env := send_with o;
     now_detect := 3000000;
     work := 1 # 10 |}.

(** The alarm scenario of the design document: a fire at instant 0, then
    nothing, read every 10 seconds. *)
Definition quiet_until_30 : list (Z * Result) :=
  [(10000000, nothing_seen); (20000000, nothing_seen);
   (30000000, nothing_seen)].

End ClientFixtures.

Module SupervisorFixtures.
Import Supervisor SupervisorSpec.

(** The process list [launch] builds. *)
Definition launched : list (string * Proc) :=
  [("AI Server"%string, 1%nat); ("Dashboard"%string, 2%nat);
   ("ESP32-CAM Simulator"%string, 3%nat)].

(** Nothing has exited, the worker answers no probe, a terminated process
    is gone in time, and a started worker gets the handle [first + k]. *)
Definition hung (first : nat) : Env :=
  {| exited := fun _ => false;
     probe := fun _ => ProbeRaised;
     graceful := fun _ => true;
     spawn := fun k => Some (first + k)%nat |}.

(** The same, with a worker that cannot be started again. *)
Definition hung_for_good : Env :=
  {| exited := fun _ => false;
     probe := fun _ => ProbeRaised;
     graceful := fun _ => false;
     spawn := fun _ => None |}.

(** Process [dead] has exited, every other process runs and answers. *)
Definition crashed (dead first : nat) : Env :=
  {| exited := fun p => Nat.eqb p dead;
     probe := fun _ => Probe200 (Some 12);
     graceful := fun _ => true;
     spawn := fun k => Some (first + k)%nat |}.

(** A monitor that has used up its restarts, with a dead worker. *)
Definition spent : State :=
  {| processes := [("Dashboard"%string, 2%nat);
                   ("ESP32-CAM Simulator"%string, 3%nat);
                   ("AI Server"%string, 30%nat)];
     ai_server_restart_count := 3 |}.

End SupervisorFixtures.

Module MoreFixtures.


(** The detection made of the first of them. *)
Definition seen : Worker.Detection unit :=
  {| Worker.d_class := "fire";
     Worker.d_class_id := 0;
     Worker.d_confidence := PyNum.round_digits 3 (91 # 100);
     Worker.d_bbox := tt |}.

(** A client whose task is neither fire nor leaves. *)
Definition on_weeds : Client.State :=
  {| Client.frame_rate := 1;
     Client.current_task := "weeds";
     Client.fire_on := 0;
     Client.last_detection_time := None;
     Client.detection_history := [];
     Client.request_count := 0;
     Client.consecutive_failures := 0;
     Client.last_successful_request := 0 |}.

(** A client whose alarm was raised by a detection at instant 0. *)
Definition alarmed : Client.State :=
  {| Client.frame_rate := 1;
     Client.current_task := "fire";
     Client.fire_on := 1;
     Client.last_detection_time := Some 0;
     Client.detection_history := [];
     Client.request_count := 1;
     Client.consecutive_failures := 0;
     Client.last_successful_request := 0 |}.

(** Every process runs, and the worker answers its probe. *)
Definition healthy : Supervisor.Env :=
  {| Supervisor.exited := fun _ => false;
     Supervisor.probe := fun _ => Supervisor.Probe200 (Some 12);
     Supervisor.graceful := fun _ => true;
     Supervisor.spawn := fun k => Some (10 + k)%nat |}.

End MoreFixtures.

(** ** Rounding *)

Module PyNumFacts.





End PyNumFacts.
(** ** Properties of the dictionaries *)

Module PyDictFacts.
Import PyDict.
Section Facts.
Context {V : Type}.

Lemma mem_set (k k' : string) (v : V) (d : dict V) :
  mem k' (set k v d) = (String.eqb k k' || mem k' d)%bool.
Proof.
  unfold mem. induction d as [|[a w] r IH]; simpl.
  - destruct (String.eqb k k'); reflexivity.
  - destruct (String.eqb a k) eqn:Eak; simpl.
    + apply String.eqb_eq in Eak. subst a.
      destruct (String.eqb k k'); reflexivity.
    + destruct (String.eqb a k') eqn:Eak'; simpl.
      * now rewrite orb_true_r.
      * exact IH.
Qed.

Lemma mem_nil (k : string) : mem k (@nil (string * V)) = false.
Proof. reflexivity. Qed.

End Facts.
End PyDictFacts.

(** ** Properties of the worker *)

Module WorkerProps.
Import PyStr PyDict PyDictFacts Worker WorkerSpec.

Section Reload.
Context {Model : Type}.
Implicit Types (t : table Model) (d : ModelsDir Model) (e : Env Model)
               (s : State Model) (name : string).

Lemma mem_load_file t f name :
  mem name (load_file t f) = (mem name t || loads name f)%bool.
Proof.
  destruct f as [filename [m|]]; unfold load_file, loads; simpl;
    destruct (endswith filename ".pt"); simpl;
    rewrite ?mem_set, ?orb_false_r; try reflexivity.
  apply orb_comm.
Qed.

Lemma mem_fold_load files t name :
  mem name (fold_left load_file files t) =
  (mem name t || existsb (loads name) files)%bool.
Proof.
  revert t. induction files as [|f r IH]; intros t; simpl.
  - now rewrite orb_false_r.
  - rewrite IH, mem_load_file. now rewrite orb_assoc.
Qed.

Lemma mem_load_models d name :
  mem name (fst (load_models d [])) = loaded_from d name.
Proof.
  destruct d as [ok| |files]; simpl; try reflexivity.
  now rewrite mem_fold_load.
Qed.

(** A pass that raises does so before it touches the table. *)
Lemma load_models_raised d t t' :
  load_models d t = (t', Raised) -> t' = t.
Proof.
  destruct d as [[|]| |files]; simpl; intros H; inversion H; reflexivity.
Qed.

Lemma last_cons_load_trace files t (dflt : table Model) :
  last (t :: load_trace files t) dflt = fold_left load_file files t.
Proof.
  revert t. induction files as [|f r IH]; intros t.
  - reflexivity.
  - transitivity
      (last (load_file t f :: load_trace r (load_file t f)) dflt).
    + reflexivity.
    + apply IH.
Qed.

Lemma last_cons_load_models_trace d t (dflt : table Model) :
  last (t :: load_models_trace d t) dflt = fst (load_models d t).
Proof.
  destruct d as [ok| |files]; simpl load_models_trace; simpl load_models;
    try reflexivity.
  apply last_cons_load_trace.
Qed.

Lemma last_app_cons {A : Type} (l r : list A) (a dflt : A) :
  last (l ++ a :: r) dflt = last (a :: r) dflt.
Proof.
  induction l as [|x l IH]; [reflexivity|].
  simpl app. destruct (l ++ a :: r) eqn:E.
  - destruct l; discriminate.
  - rewrite <- IH. reflexivity.
Qed.

(** The table the reload ends with is the last state of its trace. *)
Lemma reload_trace_last e s :
  reload_due s = true ->
  last (reload_trace e (models s)) (models s) =
  models (fst (reload_models_if_needed e s)).
Proof.
  intros Hdue. unfold reload_trace, reload_models_if_needed.
  rewrite Hdue. simpl app. rewrite last_app_cons.
  destruct (load_models (disk e) []) as [t1 c] eqn:E.
  destruct c.
  - rewrite app_nil_r. rewrite last_cons_load_models_trace, E.
    reflexivity.
  - pose proof (load_models_raised _ _ _ E) as ->.
    assert (Hnil : load_models_trace (disk e) [] = []).
    { destruct (disk e) as [ok| |files]; try reflexivity.
      simpl in E. discriminate. }
    rewrite Hnil. simpl app. rewrite last_cons_load_models_trace.
    reflexivity.
Qed.

(** The table after a reload that was due holds what the deciding load
    pass loads. *)
Lemma reloaded_table e s (name : string) :
  reload_due s = true ->
  mem name (models (fst (reload_models_if_needed e s))) =
  loaded_from (deciding_disk e) name.
Proof.
  intros Hdue. unfold reload_models_if_needed, deciding_disk.
  rewrite Hdue.
  destruct (load_models (disk e) []) as [t1 c] eqn:E.
  destruct c; simpl.
  - rewrite <- mem_load_models, E. reflexivity.
  - pose proof (load_models_raised _ _ _ E) as ->.
    apply mem_load_models.
Qed.

(** C1, amended: a reload that is due empties the table and then serves
    exactly what its deciding load pass loads from the models directory;
    a model of before the reload is available afterwards if and only if
    that pass loads it again, and a failed reload leaves the reload mark
    where it was. *)
Theorem reload_serves_what_loads e s :
  reload_due s = true ->
  let s' := fst (reload_models_if_needed e s) in
  (forall name,
      mem name (models s') = loaded_from (deciding_disk e) name) /\
  (forall name,
      mem name (models s) = true ->
      (mem name (models s') = true <->
       loaded_from (deciding_disk e) name = true)) /\
  (snd (reload_models_if_needed e s) = ReloadFailed ->
   last_model_reload s' = last_model_reload s).
Proof.
  intros Hdue s'.
  assert (Hmem : forall name,
             mem name (models s') = loaded_from (deciding_disk e) name).
  { intros name. subst s'. unfold reload_models_if_needed, deciding_disk.
    rewrite Hdue.
    destruct (load_models (disk e) []) as [t1 c] eqn:E.
    destruct c; simpl.
    - rewrite <- mem_load_models, E. reflexivity.
    - pose proof (load_models_raised _ _ _ E) as ->.
      apply mem_load_models. }
  split; [exact Hmem|]. split.
  - intros name _. rewrite Hmem. tauto.
  - subst s'. unfold reload_models_if_needed. rewrite Hdue.
    destruct (load_models (disk e) []) as [t1 [|]]; simpl.
    + discriminate.
    + reflexivity.
Qed.

(** C9, amended: a reload that is due works on the shared table in
    place. The states a reader may find start at the table of before the
    reload, end at the table of after it, and pass through the empty
    table. *)
Theorem reload_mutates_in_place e s :
  reload_due s = true ->
  hd_error (observable_tables e s) = Some (models s) /\
  last (observable_tables e s) (models s) =
    models (fst (reload_models_if_needed e s)) /\
  In [] (observable_tables e s).
Proof.
  intros Hdue. unfold observable_tables. rewrite Hdue.
  split; [reflexivity|]. split.
  - rewrite <- (reload_trace_last e s Hdue).
    unfold reload_trace. cbn [app].
    rewrite app_comm_cons, !last_app_cons. reflexivity.
  - right. unfold reload_trace. apply in_or_app. right. now left.
Qed.

End Reload.
End WorkerProps.

Module WorkerServing.
Import PyStr PyDict PyJson PyNumFacts PyDictFacts Worker WorkerSpec
       WorkerProps.

Section Serving.
Variables Model Image BBox : Type.
Variable open_image : string -> option Image.
Variable width height : Image -> Z.
Variable predict : Model -> Image -> Json -> option (list (Box BBox)).

Local Abbreviation detect := (detect_objects open_image width height predict).
Local Abbreviation run := (serve open_image width height predict).
Local Abbreviation state_after := (final_state open_image width height predict).

Implicit Types (e : Env Model) (s : State Model) (req : Request).

Lemma detect_objects_eq e req s :
  detect e req s =
  let rr := reload_models_if_needed e (counted s) in
  let r := answer open_image width height predict e req (fst rr) in
  {| worker := fst rr;
     maintenance :=
       {| cleanup := (request_counter s + 1) mod cleanup_interval =? 0;
          reload := snd rr |};
     response := r;
     post_gc :=
       (is_200 r && (post_gc_after <? request_counter (fst rr)))%bool |}.
Proof.
  unfold detect_objects, counted. simpl.
  destruct (reload_models_if_needed e _) as [s' o]. reflexivity.
Qed.

Lemma reload_keeps_counter e s :
  request_counter (fst (reload_models_if_needed e s)) = request_counter s.
Proof.
  unfold reload_models_if_needed.
  destruct (reload_due s); [|reflexivity].
  destruct (load_models (disk e) []) as [t [|]]; reflexivity.
Qed.

Lemma reload_outcome_due e s :
  match snd (reload_models_if_needed e s) with
  | NotDue => false
  | _ => true
  end = reload_due s.
Proof.
  unfold reload_models_if_needed.
  destruct (reload_due s); [|reflexivity].
  destruct (load_models (disk e) []) as [t [|]]; reflexivity.
Qed.

Lemma detect_counter e req s :
  request_counter (worker (detect e req s)) = request_counter s + 1.
Proof. rewrite detect_objects_eq. simpl. apply reload_keeps_counter. Qed.

Lemma state_after_counter calls s :
  request_counter (state_after calls s) =
  request_counter s + Z.of_nat (List.length calls).
Proof.
  revert s. induction calls as [|[e req] rest IH]; intros s.
  - simpl. lia.
  - change (state_after ((e, req) :: rest) s)
      with (state_after rest (worker (detect e req s))).
    rewrite IH, detect_counter. simpl List.length. lia.
Qed.

(** The [k]-th result of a run is the handler applied to the [k]-th call
    in the state the calls before it leave. *)
Lemma run_nth calls : forall s k v,
  nth_error (run calls s) k = Some v ->
  exists e req,
    nth_error calls k = Some (e, req) /\
    v = detect e req (state_after (firstn k calls) s).
Proof.
  induction calls as [|[e req] rest IH]; intros s k v H.
  - destruct k; discriminate.
  - destruct k as [|k].
    + simpl in H. inversion H. exists e, req. split; reflexivity.
    + simpl in H. destruct (IH _ _ _ H) as (e' & req' & Hn & Hv).
      exists e', req'. split; [exact Hn|exact Hv].
Qed.

(** *** The reload mark *)

Lemma reload_mark e s :
  last_model_reload (fst (reload_models_if_needed e s)) =
  match snd (reload_models_if_needed e s) with
  | Reloaded => request_counter s
  | _ => last_model_reload s
  end.
Proof.
  unfold reload_models_if_needed.
  destruct (reload_due s); [|reflexivity].
  destruct (load_models (disk e) []) as [t [|]]; reflexivity.
Qed.

Lemma reload_succeeds_iff e s :
  snd (reload_models_if_needed e s) = Reloaded <->
  reload_due s = true /\ snd (load_models (disk e) []) = Returned.
Proof.
  unfold reload_models_if_needed.
  destruct (reload_due s).
  - destruct (load_models (disk e) []) as [t [|]]; cbn [fst snd].
    + split; auto.
    + split; [discriminate|]. intros [_ H]. discriminate H.
  - cbn [snd]. split; [discriminate|]. intros [H _]. discriminate H.
Qed.

Lemma reload_not_due e s :
  reload_due s = false -> fst (reload_models_if_needed e s) = s.
Proof. unfold reload_models_if_needed. intros ->. reflexivity. Qed.

Lemma detect_mark e req s :
  last_model_reload (worker (detect e req s)) =
  match reload (maintenance (detect e req s)) with
  | Reloaded => request_counter s + 1
  | _ => last_model_reload s
  end.
Proof.
  rewrite detect_objects_eq. cbn [worker maintenance reload].
  rewrite reload_mark. reflexivity.
Qed.

Lemma run_firstn calls : forall s k,
  firstn k (run calls s) = run (firstn k calls) s.
Proof.
  induction calls as [|[e req] rest IH]; intros s k.
  - destruct k; reflexivity.
  - destruct k as [|k]; [reflexivity|].
    cbn [firstn serve]. cbv zeta. rewrite IH. reflexivity.
Qed.

(** The reload mark of the state is the number of the last call whose
    reload succeeded. *)
Lemma run_marks calls : forall s,
  last_model_reload (state_after calls s) =
  last_reloaded (request_counter s + 1) (last_model_reload s) (run calls s).
Proof.
  induction calls as [|[e req] rest IH]; intros s.
  - reflexivity.
  - change (state_after ((e, req) :: rest) s)
      with (state_after rest (worker (detect e req s))).
    change (run ((e, req) :: rest) s)
      with (detect e req s :: run rest (worker (detect e req s))).
    cbn [last_reloaded].
    rewrite IH, detect_counter, detect_mark. reflexivity.
Qed.

(** C2, amended: in every run of detect calls from the start of the
    worker, call number [n] runs the cleanup block exactly when
    [n mod 20 = 0] and attempts a reload exactly when [n] minus the number
    of the last call whose reload succeeded (0 before the first) is at
    least 100; a collection pass runs on a call exactly when the cleanup
    block runs, a reload is attempted, or the call is answered with 200
    and its number exceeds 200. *)
Theorem maintenance_schedule calls (d : ModelsDir Model) k v :
  nth_error (run calls (start d)) k = Some v ->
  let n := Z.of_nat k + 1 in
  let earlier := firstn k (run calls (start d)) in
  request_counter (worker v) = n /\
  cleanup (maintenance v) = (n mod 20 =? 0) /\
  reload_ran v = (100 <=? n - last_successful_reload earlier) /\
  post_gc v = (is_200 (response v) && (200 <? n))%bool /\
  gc_pass v =
    ((n mod 20 =? 0) || (100 <=? n - last_successful_reload earlier) ||
     (is_200 (response v) && (200 <? n)))%bool.
Proof.
  intros H n earlier.
  destruct (run_nth _ _ _ _ H) as (e & req & Hcall & ->).
  set (before := state_after (firstn k calls) (start d)).
  assert (Hlen : List.length (firstn k calls) = k).
  { apply firstn_length_le. apply Nat.lt_le_incl.
    apply nth_error_Some. rewrite Hcall. discriminate. }
  assert (Hbefore : request_counter before = Z.of_nat k).
  { subst before. rewrite state_after_counter, Hlen. simpl. lia. }
  assert (Hmark : last_model_reload before = last_successful_reload earlier).
  { subst before earlier. rewrite run_marks, run_firstn. reflexivity. }
  assert (Hn : request_counter (worker (detect e req before)) = n).
  { rewrite detect_counter, Hbefore. reflexivity. }
  assert (Hran : reload_ran (detect e req before)
                 = (100 <=? n - last_successful_reload earlier)).
  { unfold reload_ran. rewrite detect_objects_eq. cbn [maintenance reload].
    rewrite reload_outcome_due.
    unfold reload_due, counted, model_reload_interval.
    cbn [request_counter last_model_reload].
    rewrite Hbefore, Hmark. reflexivity. }
  assert (Hclean : cleanup (maintenance (detect e req before))
                   = (n mod 20 =? 0)).
  { rewrite detect_objects_eq. cbn [maintenance cleanup].
    rewrite Hbefore. reflexivity. }
  assert (Hpost : post_gc (detect e req before) =
                  (is_200 (response (detect e req before)) &&
                   (200 <? n))%bool).
  { rewrite <- Hn. rewrite !detect_objects_eq. reflexivity. }
  split; [exact Hn|]. split; [exact Hclean|]. split; [exact Hran|].
  split; [exact Hpost|].
  unfold gc_pass. fold (reload_ran (detect e req before)).
  rewrite Hclean, Hran, Hpost. reflexivity.
Qed.

(** *** The contract of a request *)



(** C10: every call adds exactly 1 to the request counter and, before it
    looks at the request, runs the cleanup block exactly when the new
    count is a multiple of 20 and attempts a reload exactly when the new
    count is 100 or more beyond the reload mark; the reload succeeds
    exactly when the load pass completes and then moves the mark to the
    new count, and without a reload the table is left alone. So the state
    and the maintenance of a call are the same whatever the request is
    and however it is answered. *)
Theorem maintenance_before_validation e req req' s :
  let v := detect e req s in
  let v' := detect e req' s in
  let n := request_counter s + 1 in
  request_counter (worker v) = n /\
  cleanup (maintenance v) = (n mod 20 =? 0) /\
  reload_ran v = (100 <=? n - last_model_reload s) /\
  (reload (maintenance v) = Reloaded <->
   100 <= n - last_model_reload s /\
   snd (load_models (disk e) []) = Returned) /\
  last_model_reload (worker v) =
    match reload (maintenance v) with
    | Reloaded => n
    | _ => last_model_reload s
    end /\
  (reload_ran v = true ->
   forall name,
     mem name (models (worker v)) = loaded_from (deciding_disk e) name) /\
  (reload_ran v = false -> models (worker v) = models s) /\
  worker v = worker v' /\
  maintenance v = maintenance v'.
Proof.
  intros v v' n. subst v v'.
  assert (Hran : reload_ran (detect e req s)
                 = (100 <=? n - last_model_reload s)).
  { unfold reload_ran. rewrite detect_objects_eq. cbn [maintenance reload].
    rewrite reload_outcome_due. reflexivity. }
  split; [apply detect_counter|].
  split; [rewrite detect_objects_eq; reflexivity|].
  split; [exact Hran|].
  split.
  { rewrite detect_objects_eq. cbn [maintenance reload].
    rewrite reload_succeeds_iff. unfold reload_due, model_reload_interval.
    cbn [counted request_counter last_model_reload].
    fold n. rewrite Z.leb_le. reflexivity. }
  split; [apply detect_mark|].
  split.
  { intros Hdue name. rewrite Hran in Hdue.
    rewrite detect_objects_eq. cbn [worker].
    apply reloaded_table. exact Hdue. }
  split.
  { intros Hnot. rewrite Hran in Hnot.
    rewrite detect_objects_eq. cbn [worker].
    rewrite reload_not_due by exact Hnot. reflexivity. }
  rewrite !detect_objects_eq. split; reflexivity.
Qed.

End Serving.
End WorkerServing.

(** ** The worker on concrete requests *)

Module WorkerExamples.
Import PyStr PyDict PyJson Worker WorkerSpec WorkerProps WorkerServing
       Fixtures.

(** Ninety-nine served requests bring a fresh worker to [before_reload]. *)
Example before_reload_reached :
  final_state open_image fst snd predict (repeat one_call 99) fresh =
  before_reload.
Proof. vm_compute. reflexivity. Qed.

(** A hundred served requests: the reload has run, and both marks of the
    status report stand at 100. *)
Example hundred_requests :
  let s := final_state open_image fst snd predict (repeat one_call 100)
             fresh in
  request_counter s = 100 /\ last_model_reload s = 100.
Proof. vm_compute. split; reflexivity. Qed.

(** C1 fails as worded: the hundredth request finds the models directory
    unreadable; the model that served until then did not itself fail to
    load, yet the table is empty afterwards and the request for that model
    is answered with 400. *)
Lemma reload_failure_drops_working_models :
  ~ keeps_working_models (env_at DirUnreadable) at_reload /\
  snd (reload_models_if_needed (env_at DirUnreadable) at_reload) =
    ReloadFailed /\
  models (worker (detect (env_at DirUnreadable) fire_request before_reload))
    = [] /\
  status_code
    (response (detect (env_at DirUnreadable) fire_request before_reload))
    = 400.
Proof.
  split.
  - intros H.
    specialize (H "fire_detection_final"%string eq_refl eq_refl).
    vm_compute in H. discriminate.
  - repeat split; vm_compute; reflexivity.
Qed.

Lemma reload_serves_what_loads_witness :
  reload_due at_reload = true /\
  forall name,
    mem name
      (models (fst (reload_models_if_needed (env_at healthy_disk) at_reload)))
    = loaded_from (deciding_disk (env_at healthy_disk)) name.
Proof.
  split.
  - reflexivity.
  - exact (proj1 (reload_serves_what_loads (env_at healthy_disk) at_reload
                    eq_refl)).
Defined.

(** C9 fails as worded: during the reload of the hundredth request a
    reader can find the empty table, which is neither the table of before
    the reload nor the table of after it. *)
Lemma reload_exposes_empty_table :
  ~ swapped_as_a_whole (env_at healthy_disk) at_reload.
Proof.
  intros H.
  destruct (H []) as [E|E].
  - vm_compute. tauto.
  - vm_compute in E. discriminate.
  - vm_compute in E. discriminate.
Qed.

Lemma reload_mutates_in_place_witness :
  reload_due at_reload = true /\
  In [] (observable_tables (env_at healthy_disk) at_reload).
Proof.
  split.
  - reflexivity.
  - exact (proj2 (proj2 (reload_mutates_in_place (env_at healthy_disk)
                           at_reload eq_refl))).
Defined.

(** C2 fails as worded: the 201st of 201 served requests runs a
    collection pass, and 201 is no multiple of 20. *)
Lemma gc_off_schedule_after_200 :
  ~ gc_on_schedule (run (repeat one_call 201) fresh).
Proof.
  intros H.
  destruct (nth_error (run (repeat one_call 201) fresh) 200) as [v|] eqn:E.
  - pose proof (H 200%nat v E) as [Hgc _].
    assert (Hv : gc_pass v = true).
    { vm_compute in E. inversion E. vm_compute. reflexivity. }
    specialize (Hgc Hv). vm_compute in Hgc. discriminate.
  - vm_compute in E. discriminate.
Qed.

Lemma maintenance_schedule_witness :
  nth_error (run (repeat one_call 20) fresh) 19 = Some twentieth /\
  request_counter (worker twentieth) = 20 /\
  cleanup (maintenance twentieth) = true /\
  reload_ran twentieth = false.
Proof.
  assert (H : nth_error (run (repeat one_call 20) fresh) 19 = Some twentieth)
    by (vm_compute; reflexivity).
  split; [exact H|].
  pose proof (maintenance_schedule Model Image BBox open_image fst snd predict
                (repeat one_call 20) healthy_disk 19 twentieth H)
    as (Hn & Hc & Hr & _).
  split; [exact Hn|]. split; [exact Hc|].
  rewrite Hr. vm_compute. reflexivity.
Defined.

(** A worker that reloaded at request 100 reloads next at request 200,
    and at no request between. *)
Example reloads_every_hundred :
  map (fun v => request_counter (worker v))
      (filter reload_ran (run (repeat one_call 250) fresh)) = [100; 200].
Proof. vm_compute. reflexivity. Qed.


(** The other bodies the handler answers with 500: a body declared as
    JSON that does not parse, and a parsed [null]. A list without the
    string ["image"] is answered with 400. *)
Example malformed_bodies :
  status_code (response (detect (env_at healthy_disk) Unparsable fresh))
    = 500 /\
  status_code (response (detect (env_at healthy_disk) (Parsed JNull) fresh))
    = 500 /\
  status_code
    (response (detect (env_at healthy_disk) (Parsed (JArr [JNum 1])) fresh))
    = 400.
Proof. vm_compute. repeat split; reflexivity. Qed.


(** Requests that are refused still advance the schedule: a body that is
    no JSON, sent as the hundredth request, is answered with 400 and
    triggers the cleanup and the reload all the same. *)
Example refused_request_runs_maintenance :
  let v := detect (env_at healthy_disk) NotJson before_reload in
  status_code (response v) = 400 /\
  request_counter (worker v) = 100 /\
  maintenance v = {| cleanup := true; reload := Reloaded |} /\
  last_model_reload (worker v) = 100.
Proof. vm_compute. repeat split; reflexivity. Qed.

Lemma maintenance_before_validation_witness :
  status_code
    (response (detect (env_at healthy_disk) NotJson before_reload)) = 400 /\
  status_code
    (response (detect (env_at healthy_disk) Unparsable before_reload)) = 500 /\
  status_code
    (response (detect (env_at healthy_disk) fire_request before_reload))
    = 200 /\
  reload_ran (detect (env_at healthy_disk) NotJson before_reload) = true /\
  worker (detect (env_at healthy_disk) NotJson before_reload) =
  worker (detect (env_at healthy_disk) fire_request before_reload) /\
  worker (detect (env_at healthy_disk) Unparsable before_reload) =
  worker (detect (env_at healthy_disk) fire_request before_reload).
Proof.
  split; [reflexivity|]. split; [reflexivity|]. split; [reflexivity|].
  destruct (maintenance_before_validation Model Image BBox open_image fst snd
              predict (env_at healthy_disk) NotJson fire_request
              before_reload)
    as (_ & _ & Hr & _ & _ & _ & _ & Hw & _).
  destruct (maintenance_before_validation Model Image BBox open_image fst snd
              predict (env_at healthy_disk) Unparsable fire_request
              before_reload)
    as (_ & _ & _ & _ & _ & _ & _ & Hw' & _).
  split; [exact (eq_trans Hr eq_refl)|]. split; [exact Hw|exact Hw'].
Defined.

End WorkerExamples.

(** ** Properties of the capture client *)

Module ClientProps.
Import PyStr Client ClientSpec.

(** *** The alarm flag *)

Lemma process_fields (now : Z) (r : Result) (s : State) :
  let s' := fst (process_detection_result now r s) in
  let target := target_detected (current_task s) r in
  current_task s' = current_task s /\
  fire_on s' = next_fire_on s target now /\
  last_detection_time s' =
    (if target then Some now else last_detection_time s).
Proof.
  unfold process_detection_result, target_detected.
  destruct (scan (current_task s) (detections r)) as [[target best] targets].
  simpl. auto.
Qed.



Section Hysteresis.
Variable task : string.
Variable t0 : Z.



End Hysteresis.


(** *** The failure count *)

(** C5, amended: a response with status 200 whose body parses sets the
    count of consecutive failures to exactly 0 and yields the result; an
    exception of the request (a timeout, a connection error) and a response
    with any status other than 200, hence any status outside the 2xx class,
    add exactly 1 to it and yield no result. *)
Theorem failure_count_rule (e : SendEnv) (s : State) (outcome : PostOutcome) :
  post e request_timeout = outcome ->
  let s' := fst (fst (send_to_ai_server e s)) in
  let result := snd (fst (send_to_ai_server e s)) in
  match outcome with
  | Responded status (inl r) =>
      if status =? 200
      then consecutive_failures s' = 0 /\ result = Some r
      else consecutive_failures s' = consecutive_failures s + 1 /\
           result = None
  | Responded status (inr _) =>
      status <> 200 ->
      consecutive_failures s' = consecutive_failures s + 1 /\ result = None
  | PostRaised _ =>
      consecutive_failures s' = consecutive_failures s + 1 /\ result = None
  end.
Proof.
  intros Hpost. unfold send_to_ai_server. rewrite Hpost.
  destruct outcome as [status [r|message]|message]; simpl.
  - destruct (status =? 200); simpl; split; reflexivity.
  - intros Hne. apply Z.eqb_neq in Hne. rewrite Hne. simpl.
    split; reflexivity.
  - split; reflexivity.
Qed.

(** *** The delays of a failed cycle *)

Lemma slept_app (a b : list Effect) :
  (slept (a ++ b) == slept a + slept b)%Q.
Proof.
  induction a as [|f a IH]; simpl.
  - lra.
  - destruct f; try exact IH. rewrite IH. lra.
Qed.

Lemma slept_on_exception (e : SendEnv) (message : string) (s : State) :
  let effects := snd (on_exception e message s) in
  let n := consecutive_failures s + 1 in
  (0 <= slept effects)%Q /\
  (3 <= n -> existsb is_health_critical effects = true) /\
  (5 <= n -> In (Sleep 10) effects /\ (10 <= slept effects)%Q) /\
  (n < 5 -> contains "timeout" (lower message) = false ->
   (slept effects == 0)%Q).
Proof.
  unfold on_exception. cbn [snd consecutive_failures set_failures].
  set (n := consecutive_failures s + 1).
  set (timeouts :=
         if contains "timeout" (lower message) then _ else [LogSendFailed]).
  assert (Ht : (0 <= slept timeouts)%Q /\
               (contains "timeout" (lower message) = false ->
                slept timeouts = 0%Q)).
  { subst timeouts. destruct (contains "timeout" (lower message)).
    - split; [|discriminate]. destruct (_ && _)%bool; simpl; lra.
    - split; [simpl; lra|reflexivity]. }
  destruct Ht as [Ht Ht0].
  destruct (3 <=? n) eqn:E3.
  - destruct (5 <=? n) eqn:E5.
    + apply Z.leb_le in E5. rewrite slept_app. simpl.
      split; [lra|]. split; [|split].
      * intros _. rewrite existsb_app. simpl. apply orb_true_r.
      * intros _. split; [|lra]. apply in_or_app. right. simpl. auto.
      * lia.
    + apply Z.leb_gt in E5. rewrite slept_app. simpl.
      split; [lra|]. split; [|split].
      * intros _. rewrite existsb_app. simpl. apply orb_true_r.
      * lia.
      * intros _ Hc. rewrite (Ht0 Hc). lra.
  - apply Z.leb_gt in E3. rewrite slept_app. simpl.
    split; [lra|]. split; [|split].
    + lia.
    + lia.
    + intros _ Hc. rewrite (Ht0 Hc). lra.
Qed.

Lemma period_bounds (interval spent : Q) :
  (interval <= spent + max0 (interval - spent) /\
   spent <= spent + max0 (interval - spent))%Q.
Proof.
  unfold max0. destruct (Qle_bool (interval - spent) 0) eqn:E.
  - apply Qle_bool_iff in E. split; lra.
  - assert (~ (interval - spent <= 0)%Q).
    { intros H. apply Qle_bool_iff in H. congruence. }
    split; lra.
Qed.

(** C6, amended: a cycle whose request raises (timeout or connection
    error) adds 1 to the consecutive failures; when that leaves 3 or more
    the client logs the critical health; from 5 on it sleeps the 10 extra
    seconds, while below 5 a connection error adds no sleep to the 2
    seconds every such cycle pauses; the cycle never ends before the base
    interval, and lasts longer than the base interval whenever that
    interval is below 2 seconds. *)
Theorem degraded_backoff_rule (interval : Q) (e : CycleEnv) (s : State)
    (c0 : ascii) (image : string) (message : string) :
  frame e = Some (String c0 image) ->
  post (send_env e) request_timeout = PostRaised message ->
  (0 <= work e)%Q ->
  let c := cycle interval e s in
  let n := consecutive_failures (after c) in
  n = consecutive_failures s + 1 /\
  (3 <= n -> existsb is_health_critical (effects c) = true) /\
  (5 <= n -> In (Sleep 10) (effects c) /\ (12 <= elapsed c - work e)%Q) /\
  (n < 5 -> contains "timeout" (lower message) = false ->
   (elapsed c - work e == 2)%Q) /\
  In (Sleep 2) (effects c) /\
  (2 <= elapsed c - work e)%Q /\
  (interval <= period c)%Q /\
  ((interval < 2)%Q -> (interval < period c)%Q).
Proof.
  intros Hframe Hpost Hwork.
  unfold cycle. rewrite Hframe.
  unfold send_to_ai_server. rewrite Hpost.
  set (s1 := {| frame_rate := frame_rate s;
                current_task := dashboard_task (send_env e);
                fire_on := fire_on s;
                last_detection_time := last_detection_time s;
                detection_history := detection_history s;
                request_count := request_count s + 1;
                consecutive_failures := consecutive_failures s;
                last_successful_request := last_successful_request s |}).
  set (warn := if (_ && _)%bool then [WarnHighRequestCount] else []).
  assert (Hwarn : slept warn = 0%Q /\ existsb is_health_critical warn = false).
  { subst warn. destruct (_ && _)%bool; split; reflexivity. }
  destruct Hwarn as [Hw0 Hwh].
  pose proof (slept_on_exception (send_env e) message s1) as Hex.
  destruct (on_exception (send_env e) message s1) as [s2 exc] eqn:Eexc.
  assert (Hn : consecutive_failures s2 = consecutive_failures s + 1).
  { unfold on_exception in Eexc. inversion Eexc. reflexivity. }
  cbn [snd] in Hex. change (consecutive_failures s1) with
    (consecutive_failures s) in Hex.
  destruct Hex as (Hnonneg & Hcrit & Hten & Hnone).
  cbn [after effects elapsed period].
  set (effs := (warn ++ exc) ++ [LogNoResult; Sleep 2]).
  assert (Hslept : (slept effs == slept exc + 2)%Q).
  { subst effs. rewrite !slept_app, Hw0. simpl. lra. }
  destruct (period_bounds interval (work e + slept effs)) as [Hp1 Hp2].
  split; [exact Hn|]. rewrite Hn.
  split; [|split; [|split; [|split; [|split; [|split]]]]].
  - intros H3. subst effs. rewrite !existsb_app, (Hcrit H3).
    rewrite orb_true_r. reflexivity.
  - intros H5. destruct (Hten H5) as [Hin H10]. split.
    + subst effs. apply in_or_app. left. apply in_or_app. left.
      apply in_or_app. right. exact Hin.
    + lra.
  - intros H5 Hc. pose proof (Hnone H5 Hc). lra.
  - subst effs. apply in_or_app. left. apply in_or_app. right.
    simpl. auto.
  - lra.
  - exact Hp1.
  - intros H2. lra.
Qed.

(** *** The timeout of the request *)

(** C8, amended: the timeout of the post is the constant 15 seconds,
    whatever the frame rate; for a positive frame rate it is below the
    inter-frame interval exactly when the rate is below one frame in 15
    seconds. *)
Theorem timeout_is_fixed (rate p : Q) :
  (0 < rate)%Q ->
  frame_interval rate = Some p ->
  ((request_timeout < p)%Q <-> (rate < 1 # 15)%Q) /\
  (forall e s,
      send_to_ai_server e s =
      send_to_ai_server (answering (post e request_timeout) e) s).
Proof.
  intros Hpos Hp. split.
  - unfold frame_interval in Hp.
    destruct (Qeq_bool rate 0) eqn:E; [discriminate|].
    inversion Hp as [Hp']. clear Hp Hp'.
    unfold request_timeout.
    assert (Hinv : ((1 / rate) * rate == 1)%Q).
    { field. intros H0. rewrite H0 in Hpos. lra. }
    split; intros H.
    + nra.
    + apply Qlt_shift_div_l; [exact Hpos|]. lra.
  - intros e s. reflexivity.
Qed.

End ClientProps.

(** ** The capture client on concrete cycles *)

Module ClientExamples.
Import Client ClientSpec ClientProps ClientFixtures.

(** Two refused requests bring an idle client to [struggling]. *)
Example struggling_reached :
  fst (fst (send_to_ai_server (send_with refused)
              (fst (fst (send_to_ai_server (send_with refused) idle))))) =
  struggling.
Proof. vm_compute. reflexivity. Qed.

Example slow_struggling_reached :
  fst (fst (send_to_ai_server (send_with refused)
              (fst (fst (send_to_ai_server (send_with refused)
                           (init (1 # 10) 0)))))) =
  slow_struggling.
Proof. vm_compute. reflexivity. Qed.



(** The alarm scenario of the design document: on at the fire, still on 30
    seconds later, off at the result read 40 seconds after the fire. *)
Example alarm_scenario :
  let seen := fst (process_detection_result 0 fire_seen idle) in
  fire_on seen = 1 /\
  fire_on (observe quiet_until_30 seen) = 1 /\
  fire_on (observe (quiet_until_30 ++ [(40000000, nothing_seen)]) seen) = 0.
Proof. vm_compute. repeat split; reflexivity. Qed.

(** C5 fails as worded: a response with status 204 is of the 2xx class,
    and the count goes from 2 to 3 instead of to 0; and a response with
    status 200 whose body does not parse takes the count from 2 to 1,
    which is neither 0 nor one more than before. *)
Lemma no_content_counts_as_failure :
  ~ failure_count_law (send_with (Responded 204 (inl nothing_seen)))
      struggling /\
  consecutive_failures
    (fst (fst (send_to_ai_server
                 (send_with (Responded 200 (inr "Expecting value"%string)))
                 struggling))) = 1.
Proof.
  split.
  - intros H. vm_compute in H. discriminate.
  - reflexivity.
Qed.

Lemma failure_count_rule_witness :
  post (send_with (Responded 200 (inl fire_seen))) request_timeout =
    Responded 200 (inl fire_seen) /\
  consecutive_failures
    (fst (fst (send_to_ai_server (send_with (Responded 200 (inl fire_seen)))
                 struggling))) = 0.
Proof.
  split; [reflexivity|].
  exact (proj1 (failure_count_rule
                  (send_with (Responded 200 (inl fire_seen))) struggling
                  (Responded 200 (inl fire_seen)) eq_refl)).
Defined.

(** C6 fails as worded: at 1 frame in 10 seconds the third consecutive
    refused connection leaves 3 failures and the next cycle starts exactly
    one base interval after this one; and at 1 frame per second such a
    cycle sleeps 2 extra seconds, the 10 seconds not being among its
    sleeps. *)
Lemma third_failure_backoff :
  ~ degraded_backoff (cycle_with refused) slow_struggling /\
  (let c := cycle 10 (cycle_with refused) slow_struggling in
   consecutive_failures (after c) = 3 /\ (period c == 10)%Q) /\
  (let c := cycle 1 (cycle_with refused) struggling in
   consecutive_failures (after c) = 3 /\
   ~ In (Sleep 10) (effects c) /\
   (elapsed c - work (cycle_with refused) == 2)%Q).
Proof.
  split; [|split].
  - intros H. destruct (H 10%Q eq_refl) as (_ & _ & Hlt).
    + vm_compute. discriminate.
    + vm_compute in Hlt. discriminate.
  - split; reflexivity.
  - split; [reflexivity|]. split; [|reflexivity].
    vm_compute. intros H.
    repeat (destruct H as [H|H]; [discriminate|]). exact H.
Qed.

Lemma degraded_backoff_rule_witness :
  frame (cycle_with refused) = Some "aGVsbG8="%string /\
  post (send_env (cycle_with refused)) request_timeout =
    PostRaised "Connection refused" /\
  (0 <= work (cycle_with refused))%Q /\
  consecutive_failures (after (cycle 1 (cycle_with refused) struggling)) = 3 /\
  existsb is_health_critical
    (effects (cycle 1 (cycle_with refused) struggling)) = true.
Proof.
  assert (Hw : (0 <= work (cycle_with refused))%Q)
    by (vm_compute; discriminate).
  pose proof (degraded_backoff_rule 1 (cycle_with refused) struggling
                "a"%char "GVsbG8="%string "Connection refused"%string
                eq_refl eq_refl Hw) as (Hn & Hcrit & _).
  split; [reflexivity|]. split; [reflexivity|]. split; [exact Hw|].
  split; [exact Hn|].
  apply Hcrit. rewrite Hn. vm_compute. discriminate.
Defined.

(** C8 fails as worded: at the configured rate of 1 frame per second the
    period is 1 second and the timeout is 15. *)
Lemma timeout_exceeds_default_period :
  frame_interval 1 = Some 1%Q /\ ~ timeout_below_period 1.
Proof.
  split; [reflexivity|].
  intros (p & Hp & Hlt). vm_compute in Hp. inversion Hp. subst p.
  vm_compute in Hlt. discriminate.
Qed.

Lemma timeout_is_fixed_witness :
  (0 < 1 # 20)%Q /\
  frame_interval (1 # 20) = Some 20%Q /\
  (request_timeout < 20)%Q.
Proof.
  assert (Hpos : (0 < 1 # 20)%Q) by reflexivity.
  split; [exact Hpos|]. split; [reflexivity|].
  apply (proj1 (timeout_is_fixed (1 # 20) 20 Hpos eq_refl)).
  reflexivity.
Defined.

End ClientExamples.

(** ** Properties of the process monitor *)

Module SupervisorProps.
Import Supervisor SupervisorSpec.

(** *** Counting actions *)

Lemma count_if_app {A : Type} (f : A -> bool) (a b : list A) :
  count_if f (a ++ b) = count_if f a + count_if f b.
Proof.
  unfold count_if. rewrite filter_app, length_app. lia.
Qed.

Lemma count_if_nonneg {A : Type} (f : A -> bool) (l : list A) :
  0 <= count_if f l.
Proof. unfold count_if. lia. Qed.

Lemma count_if_none {A : Type} (f g : A -> bool) (l : list A) :
  (forall x, g x = true -> f x = false) ->
  forallb g l = true -> count_if f l = 0.
Proof.
  intros Hfg. unfold count_if. induction l as [|x l IH]; simpl; intros H.
  - reflexivity.
  - apply andb_prop in H as [Hx Hl]. rewrite (Hfg x Hx). auto.
Qed.

Lemma successful_starts_are_starts (l : list Action) :
  count_if is_successful_start l <= count_if is_start l.
Proof.
  unfold count_if. induction l as [|a l IH]; simpl; [lia|].
  destruct a as [n|m|p|p|[p|]]; simpl; simpl in IH; lia.
Qed.

Lemma prints_do_nothing (msgs : list Action) :
  forallb is_print msgs = true ->
  count_if is_start msgs = 0 /\
  count_if is_successful_start msgs = 0 /\
  count_if is_stop msgs = 0.
Proof.
  intros H. repeat split; apply (count_if_none _ is_print); try exact H;
    intros [n|m|p|p|r]; simpl; congruence.
Qed.

Lemma stops_start_nothing (e : Env) (ps : list (string * Proc)) :
  count_if is_start (stop_ai_servers e ps) = 0 /\
  count_if is_successful_start (stop_ai_servers e ps) = 0.
Proof.
  split; apply (count_if_none _ is_stop);
    try (intros [n|m|p|p|r]; simpl; congruence);
    unfold stop_ai_servers; induction ps as [|[name p] ps IH]; simpl;
    try reflexivity;
    rewrite forallb_app, IH, andb_true_r;
    destruct (is_ai_server name); simpl; try reflexivity;
    destruct (graceful e p); reflexivity.
Qed.

(** Whenever a worker is killed, it was asked to terminate just before. *)
Lemma kill_follows_terminate (e : Env) (ps : list (string * Proc))
    (p : Proc) :
  In (Kill p) (stop_ai_servers e ps) ->
  exists before after,
    stop_ai_servers e ps = before ++ Terminate p :: Kill p :: after.
Proof.
  unfold stop_ai_servers. induction ps as [|[name q] ps IH]; simpl.
  - intros [].
  - intros H. apply in_app_or in H as [H|H].
    + destruct (is_ai_server name); [|destruct H].
      destruct (graceful e q); simpl in H.
      * destruct H as [H|[]]. discriminate.
      * destruct H as [H|[H|[]]]; [discriminate|].
        inversion H. subst q. exists [], (flat_map
          (fun np => if is_ai_server (fst np)
                     then Terminate (snd np) ::
                          (if graceful e (snd np) then []
                           else [Kill (snd np)])
                     else []) ps).
        reflexivity.
    + destruct (IH H) as (before & after & E). rewrite E.
      eexists (_ ++ before), after. rewrite <- app_assoc. reflexivity.
Qed.

(** *** The accounting of one pass *)

Lemma accounted_refl (a : Scan) : accounted a a.
Proof.
  exists []. rewrite app_nil_r. unfold count_if. simpl.
  repeat split; try reflexivity; lia.
Qed.

Lemma accounted_trans (a b c : Scan) :
  accounted a b -> accounted b c -> accounted a c.
Proof.
  intros (n1 & Ha1 & Hc1 & Hm1 & Hx1) (n2 & Ha2 & Hc2 & Hm2 & Hx2).
  exists (n1 ++ n2). rewrite !count_if_app. repeat split.
  - rewrite Ha2, Ha1, app_assoc. reflexivity.
  - lia.
  - auto.
  - destruct (Hx1 H) as (Hs1 & _ & _).
    pose proof (successful_starts_are_starts n1).
    pose proof (count_if_nonneg is_successful_start n1).
    destruct Hx2 as (Hs2 & _ & _); lia.
  - destruct (Hx1 H) as (Hs1 & Hk1 & _).
    pose proof (successful_starts_are_starts n1).
    pose proof (count_if_nonneg is_successful_start n1).
    destruct Hx2 as (_ & Hk2 & _); lia.
  - destruct (Hx1 H) as (Hs1 & _ & Hp1).
    pose proof (successful_starts_are_starts n1).
    pose proof (count_if_nonneg is_successful_start n1).
    destruct Hx2 as (_ & _ & Hp2); [lia|congruence].
Qed.

Lemma accounted_prints (a a' : Scan) (msgs : list Action) :
  sc_actions a' = sc_actions a ++ msgs ->
  forallb is_print msgs = true ->
  sc_count a' = sc_count a ->
  sc_processes a' = sc_processes a ->
  accounted a a'.
Proof.
  intros Ha Hm Hc Hp. destruct (prints_do_nothing msgs Hm) as (H1 & H2 & H3).
  exists msgs. rewrite H1, H2, H3. repeat split; auto; lia.
Qed.

Lemma probe_accounted (e : Env) (p : Proc) (a : Scan) :
  accounted a (probe_ai_server e p a).
Proof.
  unfold probe_ai_server.
  destruct (probe e p) as [[rc|]|code|];
    eapply accounted_prints; simpl; try reflexivity.
  destruct (220 <? rc); [destruct (240 <? rc)|]; reflexivity.
Qed.

Lemma restart_dead_accounted (e : Env) (a : Scan) :
  sc_count a < max_ai_server_restarts ->
  accounted a (restart_dead e a).
Proof.
  intros Hlt. unfold restart_dead.
  destruct (spawn e (sc_spawned a)) as [p'|]; eexists; simpl;
    (split; [reflexivity|]); unfold count_if; simpl;
    repeat split; intros; lia.
Qed.

Lemma force_restart_accounted (e : Env) (a : Scan) :
  sc_count a < max_ai_server_restarts ->
  accounted a (force_restart e a).
Proof.
  intros Hlt. unfold force_restart.
  destruct (stops_start_nothing e (sc_processes a)) as [Hs Hss].
  destruct (spawn e (sc_spawned a)) as [p'|].
  - exists (([Print ForcingRestart] ++ stop_ai_servers e (sc_processes a) ++
             [Sleep 2; StartAiServer (Some p')]) ++
            [Print UnresponsiveRestarted]).
    split; [reflexivity|].
    rewrite !count_if_app, Hss. unfold count_if at 1 2 3. simpl.
    repeat split; intros; lia.
  - exists (([Print ForcingRestart] ++ stop_ai_servers e (sc_processes a) ++
             [Sleep 2; StartAiServer None]) ++
            [Print FailedToRestartUnresponsive]).
    split; [reflexivity|].
    rewrite !count_if_app, Hss. unfold count_if at 1 2 3. simpl.
    repeat split; intros; lia.
Qed.

Lemma check_process_accounted (e : Env) (a : Scan) (np : string * Proc) :
  accounted a (check_process e a np).
Proof.
  destruct np as [name p]. unfold check_process.
  destruct (exited e p); simpl.
  - destruct (is_ai_server name && (sc_count a <? max_ai_server_restarts))%bool
      eqn:E.
    + apply andb_prop in E as [_ E]. apply Z.ltb_lt in E.
      eapply accounted_trans; [|apply restart_dead_accounted; exact E].
      eapply accounted_prints with (msgs := [Print (ProcessStopped name)]);
        reflexivity.
    + eapply accounted_prints with (msgs := [Print (ProcessStopped name)]);
        reflexivity.
  - destruct (is_ai_server name).
    + eapply accounted_trans; [|apply probe_accounted].
      eapply accounted_prints with (msgs := []); simpl;
        rewrite ?app_nil_r; reflexivity.
    + eapply accounted_prints with (msgs := []); simpl;
        rewrite ?app_nil_r; reflexivity.
Qed.

Lemma scan_accounted (e : Env) (ps : list (string * Proc)) : forall a,
  accounted a (fold_left (check_process e) ps a).
Proof.
  induction ps as [|np ps IH]; intros a; simpl.
  - apply accounted_refl.
  - eapply accounted_trans; [apply check_process_accounted|apply IH].
Qed.

(** One pass: the counter grows by the successful starts of the pass and
    stays within the maximum; at the maximum nothing is started or stopped
    and the state is left as it is. *)
Lemma pass_accounting (e : Env) (s : State) :
  let s' := fst (monitor_pass e s) in
  let actions := snd (monitor_pass e s) in
  ai_server_restart_count s' =
    ai_server_restart_count s + count_if is_successful_start actions /\
  (ai_server_restart_count s <= max_ai_server_restarts ->
   ai_server_restart_count s' <= max_ai_server_restarts) /\
  (max_ai_server_restarts <= ai_server_restart_count s ->
   count_if is_start actions = 0 /\ count_if is_stop actions = 0 /\ s' = s).
Proof.
  unfold monitor_pass.
  set (a0 := {| sc_processes := processes s;
                sc_count := ai_server_restart_count s;
                sc_running := [];
                sc_responsive := false;
                sc_spawned := 0%nat;
                sc_actions := [Sleep 10] |}).
  set (a1 := fold_left (check_process e) (processes s) a0).
  set (a2 := if negb _ then _ else a1).
  set (a3 := if (_ && _ && _)%bool then force_restart e a2 else a2).
  assert (H01 : accounted a0 a1) by apply scan_accounted.
  assert (H12 : accounted a1 a2).
  { subst a2. destruct (negb _).
    - eapply accounted_prints
        with (msgs := [Print (RunningProcesses (sc_running a1))]);
        reflexivity.
    - apply accounted_refl. }
  assert (H23 : accounted a2 a3).
  { subst a3.
    destruct (_ && _ && (sc_count a2 <? max_ai_server_restarts))%bool eqn:E.
    - apply andb_prop in E as [_ E]. apply Z.ltb_lt in E.
      apply force_restart_accounted. exact E.
    - apply accounted_refl. }
  pose proof (accounted_trans _ _ _ (accounted_trans _ _ _ H01 H12) H23)
    as (new & Ha & Hc & Hm & Hx).
  cbn [fst snd ai_server_restart_count processes].
  change (sc_count a0) with (ai_server_restart_count s) in *.
  change (sc_actions a0) with [Sleep 10] in Ha.
  change (sc_processes a0) with (processes s) in Hx.
  rewrite Ha, !count_if_app.
  change (count_if is_successful_start [Sleep 10]) with 0.
  change (count_if is_start [Sleep 10]) with 0.
  change (count_if is_stop [Sleep 10]) with 0.
  split; [lia|]. split; [exact Hm|].
  intros Hmax. destruct (Hx Hmax) as (Hs & Hk & Hp).
  pose proof (successful_starts_are_starts new).
  pose proof (count_if_nonneg is_successful_start new).
  repeat split; try lia.
  destruct s as [ps c]. simpl in *. f_equal; [exact Hp|lia].
Qed.

(** A whole run from the launch: the counter is the number of successful
    starts and never exceeds the maximum. *)
Lemma run_accounting (es : list Env) : forall s,
  ai_server_restart_count s <= max_ai_server_restarts ->
  let s' := fst (monitor_loop es s) in
  let actions := snd (monitor_loop es s) in
  ai_server_restart_count s' =
    ai_server_restart_count s + count_if is_successful_start actions /\
  ai_server_restart_count s' <= max_ai_server_restarts.
Proof.
  induction es as [|e es IH]; intros s Hle.
  - simpl. unfold count_if. simpl. lia.
  - cbn [monitor_loop]. destruct (pass_accounting e s) as (Hc & Hm & _).
    destruct (monitor_pass e s) as [s1 acts]. cbn [fst snd] in Hc, Hm.
    specialize (IH s1 (Hm Hle)).
    destruct (monitor_loop es s1) as [s2 more]. cbn [fst snd] in IH |- *.
    rewrite count_if_app. lia.
Qed.

(** *** The pass over an unresponsive worker *)

Lemma scan_unresponsive (e : Env) (ps : list (string * Proc)) : forall a,
  Forall (fun np => exited e (snd np) = false) ps ->
  Forall (fun np => is_ai_server (fst np) = true ->
                    unanswered (probe e (snd np)) = true) ps ->
  sc_responsive a = false ->
  let a' := fold_left (check_process e) ps a in
  sc_processes a' = sc_processes a /\
  sc_count a' = sc_count a /\
  sc_spawned a' = sc_spawned a /\
  sc_responsive a' = false /\
  sc_running a' = sc_running a ++ map fst ps /\
  exists msgs,
    sc_actions a' = sc_actions a ++ msgs /\ forallb is_print msgs = true.
Proof.
  induction ps as [|[name p] ps IH]; intros a Hrun Hun Hresp.
  - simpl. rewrite app_nil_r. repeat split; auto.
    exists []. rewrite app_nil_r. auto.
  - apply Forall_cons_iff in Hrun as [Hp Hrun].
    apply Forall_cons_iff in Hun as [Hu Hun]. simpl in Hp, Hu.
    cbn [fold_left].
    set (a1 := check_process e a (name, p)).
    assert (H1 : sc_processes a1 = sc_processes a /\
                 sc_count a1 = sc_count a /\
                 sc_spawned a1 = sc_spawned a /\
                 sc_responsive a1 = false /\
                 sc_running a1 = sc_running a ++ [name] /\
                 exists msgs, sc_actions a1 = sc_actions a ++ msgs /\
                              forallb is_print msgs = true).
    { subst a1. unfold check_process. rewrite Hp. cbn [negb].
      destruct (is_ai_server name).
      - specialize (Hu eq_refl). unfold probe_ai_server.
        destruct (probe e p) as [[rc|]|code|]; try discriminate;
          cbn; repeat split; auto; eexists; split; reflexivity.
      - cbn. repeat split; auto. exists []. rewrite app_nil_r. auto. }
    destruct H1 as (Hp1 & Hc1 & Hs1 & Hr1 & Hn1 & m1 & Ha1 & Hm1).
    destruct (IH a1 Hrun Hun Hr1)
      as (Hp2 & Hc2 & Hs2 & Hr2 & Hn2 & m2 & Ha2 & Hm2).
    repeat split; try congruence.
    + rewrite Hn2, Hn1, <- app_assoc. reflexivity.
    + exists (m1 ++ m2). rewrite Ha2, Ha1, <- app_assoc, forallb_app, Hm1, Hm2.
      auto.
Qed.

Lemma all_running (e : Env) (ps : list (string * Proc)) :
  Forall (fun np => exited e (snd np) = false) ps ->
  ai_server_process_running e ps = has_ai_server ps.
Proof.
  intros H. unfold ai_server_process_running, has_ai_server.
  f_equal. induction H as [|np ps Hx Hps IH]; simpl.
  - reflexivity.
  - rewrite Hx. simpl. now rewrite IH.
Qed.

Lemma unresponsive_pass (e : Env) (s : State) (p' : Proc) :
  unresponsive e s ->
  ai_server_restart_count s < max_ai_server_restarts ->
  spawn e 0%nat = Some p' ->
  exists msgs,
    forallb is_print msgs = true /\
    monitor_pass e s =
    ({| processes :=
          without_ai_server (processes s) ++ [("AI Server"%string, p')];
        ai_server_restart_count := ai_server_restart_count s + 1 |},
     [Sleep 10] ++ msgs ++ [Print ForcingRestart] ++
     stop_ai_servers e (processes s) ++
     [Sleep 2; StartAiServer (Some p'); Print UnresponsiveRestarted]).
Proof.
  intros (Hhas & Hrun & Hun) Hlt Hspawn.
  unfold monitor_pass.
  set (a0 := {| sc_processes := processes s;
                sc_count := ai_server_restart_count s;
                sc_running := [];
                sc_responsive := false;
                sc_spawned := 0%nat;
                sc_actions := [Sleep 10] |}).
  destruct (scan_unresponsive e (processes s) a0 Hrun Hun eq_refl)
    as (Hp & Hc & Hs & Hr & Hn & msgs & Ha & Hm).
  set (a1 := fold_left (check_process e) (processes s) a0) in *.
  cbn [sc_processes sc_count sc_spawned sc_running sc_actions a0] in
    Hp, Hc, Hs, Hn, Ha.
  assert (Hlen : Nat.eqb (List.length (sc_running a1))
                         (List.length (sc_processes a1)) = true).
  { rewrite Hn, Hp. cbn [app]. rewrite length_map. apply Nat.eqb_refl. }
  rewrite Hlen. cbn [negb].
  rewrite Hp, (all_running e _ Hrun), Hhas, Hr, Hc.
  apply Z.ltb_lt in Hlt. rewrite Hlt. cbn [negb andb].
  unfold force_restart. rewrite Hs, Hspawn, Hp, Hc, Ha.
  exists msgs. split; [exact Hm|].
  cbn [sc_processes sc_count sc_actions]. f_equal.
  rewrite <- !app_assoc. reflexivity.
Qed.

(** *** A pass that finds the worker running but unanswered *)

Lemma others_unfiltered (l : list (string * Proc)) :
  Forall (fun np => is_ai_server (fst np) = false) l ->
  without_ai_server l = l.
Proof.
  unfold without_ai_server.
  induction 1 as [|np l Hnp Hl IH]; [reflexivity|].
  cbn [filter]. rewrite Hnp. cbn [negb]. now rewrite IH.
Qed.

Lemma others_not_stopped (e : Env) (l : list (string * Proc)) :
  Forall (fun np => is_ai_server (fst np) = false) l ->
  stop_ai_servers e l = [].
Proof.
  unfold stop_ai_servers.
  induction 1 as [|np l Hnp Hl IH]; [reflexivity|].
  cbn [flat_map]. rewrite Hnp, IH. reflexivity.
Qed.

Lemma scan_others (e : Env) (ps : list (string * Proc)) : forall a,
  Forall (fun np => is_ai_server (fst np) = false) ps ->
  let a' := fold_left (check_process e) ps a in
  sc_processes a' = sc_processes a /\
  sc_count a' = sc_count a /\
  sc_spawned a' = sc_spawned a /\
  sc_responsive a' = sc_responsive a /\
  exists msgs,
    sc_actions a' = sc_actions a ++ msgs /\ forallb is_print msgs = true.
Proof.
  induction ps as [|[name p] ps IH]; intros a Hothers.
  - cbn. repeat split; auto. exists []. rewrite app_nil_r. auto.
  - apply Forall_cons_iff in Hothers as [Hname Hothers].
    cbn [fst] in Hname. cbn [fold_left].
    set (a1 := check_process e a (name, p)).
    assert (H1 : sc_processes a1 = sc_processes a /\
                 sc_count a1 = sc_count a /\
                 sc_spawned a1 = sc_spawned a /\
                 sc_responsive a1 = sc_responsive a /\
                 exists msgs, sc_actions a1 = sc_actions a ++ msgs /\
                              forallb is_print msgs = true).
    { subst a1. unfold check_process. rewrite Hname. cbn [andb].
      destruct (exited e p); cbn [negb]; cbn; repeat split; auto.
      - eexists. split; reflexivity.
      - exists []. rewrite app_nil_r. auto. }
    destruct H1 as (Hp1 & Hc1 & Hs1 & Hr1 & m1 & Ha1 & Hm1).
    destruct (IH a1 Hothers) as (Hp2 & Hc2 & Hs2 & Hr2 & m2 & Ha2 & Hm2).
    repeat split; try congruence.
    exists (m1 ++ m2).
    rewrite Ha2, Ha1, <- app_assoc, forallb_app, Hm1, Hm2. auto.
Qed.

(** The scan of a list whose one worker runs and is not answered. *)
Lemma scan_hung_worker (e : Env) (l1 l2 : list (string * Proc)) (p : Proc) :
  forall a,
  Forall (fun np => is_ai_server (fst np) = false) l1 ->
  Forall (fun np => is_ai_server (fst np) = false) l2 ->
  exited e p = false ->
  unanswered (probe e p) = true ->
  sc_responsive a = false ->
  let a' :=
    fold_left (check_process e) (l1 ++ ("AI Server"%string, p) :: l2) a in
  sc_processes a' = sc_processes a /\
  sc_count a' = sc_count a /\
  sc_spawned a' = sc_spawned a /\
  sc_responsive a' = false /\
  exists msgs,
    sc_actions a' = sc_actions a ++ msgs /\ forallb is_print msgs = true.
Proof.
  intros a Ho1 Ho2 Hrun Hun Hresp. rewrite fold_left_app. cbn [fold_left].
  destruct (scan_others e l1 a Ho1) as (Hp1 & Hc1 & Hs1 & Hr1 & m1 & Ha1 & Hm1).
  set (b := fold_left (check_process e) l1 a) in *.
  set (c := check_process e b ("AI Server"%string, p)).
  assert (Hc : sc_processes c = sc_processes b /\
               sc_count c = sc_count b /\
               sc_spawned c = sc_spawned b /\
               sc_responsive c = false /\
               exists msgs, sc_actions c = sc_actions b ++ msgs /\
                            forallb is_print msgs = true).
  { subst c. unfold check_process. rewrite Hrun. cbn [negb].
    change (is_ai_server "AI Server") with true. cbv iota.
    unfold probe_ai_server.
    destruct (probe e p) as [[rc|]|code|]; try discriminate Hun;
      cbn [sc_processes sc_count sc_spawned sc_responsive sc_actions];
      repeat split; try congruence; eexists; split; reflexivity. }
  destruct Hc as (Hp2 & Hc2 & Hs2 & Hr2 & m2 & Ha2 & Hm2).
  destruct (scan_others e l2 c Ho2) as (Hp3 & Hc3 & Hs3 & Hr3 & m3 & Ha3 & Hm3).
  repeat split; try congruence.
  exists (m1 ++ m2 ++ m3).
  rewrite Ha3, Ha2, Ha1, <- !app_assoc, !forallb_app, Hm1, Hm2, Hm3. auto.
Qed.

Lemma worker_is_running (e : Env) (l1 l2 : list (string * Proc)) (p : Proc) :
  exited e p = false ->
  ai_server_process_running e (l1 ++ ("AI Server"%string, p) :: l2) = true.
Proof.
  intros Hrun. unfold ai_server_process_running.
  apply existsb_exists. exists ("AI Server"%string, p).
  split; [|reflexivity].
  apply filter_In. split.
  - apply in_or_app. right. now left.
  - cbn [snd]. now rewrite Hrun.
Qed.

Lemma hung_worker_pass (e : Env) (s : State) (l1 l2 : list (string * Proc))
    (p : Proc) :
  processes s = l1 ++ ("AI Server"%string, p) :: l2 ->
  Forall (fun np => is_ai_server (fst np) = false) (l1 ++ l2) ->
  exited e p = false ->
  unanswered (probe e p) = true ->
  ai_server_restart_count s < max_ai_server_restarts ->
  exists msgs,
    forallb is_print msgs = true /\
    snd (monitor_pass e s) =
      [Sleep 10] ++ msgs ++ [Print ForcingRestart; Terminate p] ++
      (if graceful e p then [] else [Kill p]) ++
      [Sleep 2; StartAiServer (spawn e 0%nat);
       Print (match spawn e 0%nat with
              | Some _ => UnresponsiveRestarted
              | None => FailedToRestartUnresponsive
              end)] /\
    fst (monitor_pass e s) =
      match spawn e 0%nat with
      | Some p' =>
          {| processes := l1 ++ l2 ++ [("AI Server"%string, p')];
             ai_server_restart_count := ai_server_restart_count s + 1 |}
      | None =>
          {| processes := l1 ++ l2;
             ai_server_restart_count := ai_server_restart_count s |}
      end.
Proof.
  intros Hps Hothers Hrun Hun Hlt.
  apply Forall_app in Hothers as [Ho1 Ho2].
  assert (Hkept : without_ai_server (processes s) = l1 ++ l2).
  { rewrite Hps. unfold without_ai_server. rewrite filter_app.
    cbn [filter fst]. change (is_ai_server "AI Server") with true.
    cbn [negb]. fold (without_ai_server l1). fold (without_ai_server l2).
    now rewrite !others_unfiltered. }
  assert (Hstop : stop_ai_servers e (processes s) =
                  Terminate p :: (if graceful e p then [] else [Kill p])).
  { rewrite Hps. unfold stop_ai_servers. rewrite flat_map_app.
    cbn [flat_map fst snd]. change (is_ai_server "AI Server") with true.
    cbv iota. fold (stop_ai_servers e l1). fold (stop_ai_servers e l2).
    rewrite !others_not_stopped by assumption.
    rewrite app_nil_r. reflexivity. }
  assert (Hup : ai_server_process_running e (processes s) = true).
  { rewrite Hps. apply worker_is_running. exact Hrun. }
  unfold monitor_pass.
  set (a0 := {| sc_processes := processes s;
                sc_count := ai_server_restart_count s;
                sc_running := [];
                sc_responsive := false;
                sc_spawned := 0%nat;
                sc_actions := [Sleep 10] |}).
  pose proof (scan_hung_worker e l1 l2 p a0 Ho1 Ho2 Hrun Hun eq_refl)
    as Hscan.
  cbv zeta in Hscan. rewrite <- Hps in Hscan.
  set (a1 := fold_left (check_process e) (processes s) a0) in *.
  destruct Hscan as (Hp & Hc & Hs & Hr & m1 & Ha & Hm1).
  cbn [a0 sc_processes sc_count sc_spawned sc_actions] in Hp, Hc, Hs, Ha.
  set (a2 := if negb _ then _ else a1).
  assert (H2 : sc_processes a2 = processes s /\
               sc_count a2 = ai_server_restart_count s /\
               sc_spawned a2 = 0%nat /\
               sc_responsive a2 = false /\
               exists msgs,
                 sc_actions a2 = [Sleep 10] ++ msgs /\
                 forallb is_print msgs = true).
  { subst a2. destruct (negb _).
    - cbn [sc_processes sc_count sc_spawned sc_responsive sc_actions].
      repeat split; auto.
      exists (m1 ++ [Print (RunningProcesses (sc_running a1))]).
      rewrite Ha, <- app_assoc, forallb_app, Hm1. auto.
    - repeat split; auto. exists m1. auto. }
  destruct H2 as (Hp2 & Hc2 & Hs2 & Hr2 & msgs & Ha2 & Hm).
  rewrite Hp2, Hup, Hr2, Hc2.
  apply Z.ltb_lt in Hlt. rewrite Hlt. cbn [negb andb].
  unfold force_restart. rewrite Hs2, Hp2, Hc2, Ha2, Hkept, Hstop.
  exists msgs. split; [exact Hm|].
  destruct (spawn e 0%nat) as [p'|];
    cbn [fst snd sc_processes sc_count sc_actions];
    rewrite <- !app_assoc; split; reflexivity.
Qed.

(** *** Kills *)

Lemma kill_after_failed_wait (e : Env) (ps : list (string * Proc))
    (p : Proc) :
  In (Kill p) (stop_ai_servers e ps) -> graceful e p = false.
Proof.
  unfold stop_ai_servers. intros H.
  apply in_flat_map in H as ([name q] & _ & H). cbn [fst snd] in H.
  destruct (is_ai_server name); [|destruct H].
  destruct (graceful e q) eqn:E.
  - destruct H as [H|[]]. discriminate H.
  - destruct H as [H|[H|[]]]; [discriminate H|].
    inversion H. subst q. exact E.
Qed.

Lemma no_stop_no_kill (l : list Action) (q : Proc) :
  count_if is_stop l = 0 -> ~ In (Kill q) l.
Proof.
  unfold count_if. intros H Hin.
  assert (Hf : In (Kill q) (filter is_stop l))
    by (apply filter_In; split; [exact Hin|reflexivity]).
  destruct (filter is_stop l); [exact Hf|discriminate H].
Qed.

Lemma check_process_never_stops (e : Env) (a : Scan) (np : string * Proc) :
  exists new,
    sc_actions (check_process e a np) = sc_actions a ++ new /\
    count_if is_stop new = 0.
Proof.
  destruct np as [name p]. unfold check_process.
  destruct (exited e p); cbn [negb].
  - destruct (is_ai_server name && _)%bool.
    + unfold restart_dead. cbn [sc_actions sc_spawned].
      destruct (spawn e (sc_spawned a)); cbn [sc_actions];
        rewrite <- !app_assoc; eexists; split; reflexivity.
    + cbn [sc_actions]. eexists. split; reflexivity.
  - destruct (is_ai_server name).
    + unfold probe_ai_server.
      destruct (probe e p) as [[rc|]|code|]; cbn [sc_actions];
        try (eexists; split; reflexivity).
      destruct (220 <? rc); [destruct (240 <? rc)|];
        eexists; split; reflexivity.
    + cbn [sc_actions]. exists []. rewrite app_nil_r. split; reflexivity.
Qed.

Lemma scan_never_stops (e : Env) (ps : list (string * Proc)) : forall a,
  exists new,
    sc_actions (fold_left (check_process e) ps a) = sc_actions a ++ new /\
    count_if is_stop new = 0.
Proof.
  induction ps as [|np ps IH]; intros a.
  - exists []. rewrite app_nil_r. split; reflexivity.
  - cbn [fold_left].
    destruct (check_process_never_stops e a np) as (n1 & H1 & Hn1).
    destruct (IH (check_process e a np)) as (n2 & H2 & Hn2).
    exists (n1 ++ n2). rewrite H2, H1, <- app_assoc, count_if_app.
    split; [reflexivity|lia].
Qed.

(** In any pass, a process is killed only right after it was asked to
    terminate, and only when that or the wait for its end failed. *)
Lemma pass_kill (e : Env) (s : State) (q : Proc) :
  In (Kill q) (snd (monitor_pass e s)) ->
  graceful e q = false /\
  exists before after,
    snd (monitor_pass e s) = before ++ Terminate q :: Kill q :: after.
Proof.
  unfold monitor_pass.
  set (a0 := {| sc_processes := processes s;
                sc_count := ai_server_restart_count s;
                sc_running := [];
                sc_responsive := false;
                sc_spawned := 0%nat;
                sc_actions := [Sleep 10] |}).
  destruct (scan_never_stops e (processes s) a0) as (n1 & H1 & Hn1).
  set (a1 := fold_left (check_process e) (processes s) a0) in *.
  set (a2 := if negb _ then _ else a1).
  assert (H2 : count_if is_stop (sc_actions a2) = 0).
  { subst a2. destruct (negb _); cbn [sc_actions]; rewrite H1;
      rewrite !count_if_app, Hn1; reflexivity. }
  destruct (_ && _ && _)%bool; cbn [snd].
  - unfold force_restart.
    set (tail := [Sleep 2; StartAiServer (spawn e (sc_spawned a2))]).
    assert (Hsteps : forall last,
               In (Kill q)
                  (sc_actions a2 ++
                   ([Print ForcingRestart] ++
                    stop_ai_servers e (sc_processes a2) ++ tail) ++
                   [Print last]) ->
               graceful e q = false /\
               exists before after,
                 sc_actions a2 ++
                 ([Print ForcingRestart] ++
                  stop_ai_servers e (sc_processes a2) ++ tail) ++
                 [Print last]
                 = before ++ Terminate q :: Kill q :: after).
    { intros last Hin.
      apply in_app_or in Hin as [Hin|Hin];
        [exfalso; exact (no_stop_no_kill _ _ H2 Hin)|].
      apply in_app_or in Hin as [Hin|Hin];
        [|destruct Hin as [Hin|[]]; discriminate Hin].
      apply in_app_or in Hin as [Hin|Hin];
        [destruct Hin as [Hin|[]]; discriminate Hin|].
      apply in_app_or in Hin as [Hin|Hin];
        [|destruct Hin as [Hin|[Hin|[]]]; discriminate Hin].
      split; [exact (kill_after_failed_wait _ _ _ Hin)|].
      destruct (kill_follows_terminate _ _ _ Hin) as (b & a & E).
      rewrite E.
      exists (sc_actions a2 ++ [Print ForcingRestart] ++ b),
             (a ++ tail ++ [Print last]).
      rewrite <- !app_assoc. reflexivity. }
    destruct (spawn e (sc_spawned a2)); cbn [sc_actions]; apply Hsteps.
  - intros Hin. exfalso. exact (no_stop_no_kill _ _ H2 Hin).
Qed.

(** C4, amended: when the worker runs but does not answer its probe in a
    pass and restarts are left, whatever the other processes do, the
    monitor terminates the worker, kills it exactly when the terminate or
    the wait for its end failed, and starts it again; a start that
    succeeds adds exactly 1 to the restart counter and puts the new worker
    in the place of the old one, a start that fails leaves the counter as
    it is and the list without a worker. In any pass a process is killed
    only right after it was asked to terminate and the wait failed. The
    counter counts the successful starts and never exceeds the maximum of
    3; and once it has reached the maximum, a pass starts and stops
    nothing and leaves the monitor as it is. *)
Theorem restart_budget :
  (forall (e : Env) (s : State) (l1 l2 : list (string * Proc)) (p : Proc),
      processes s = l1 ++ ("AI Server"%string, p) :: l2 ->
      Forall (fun np => is_ai_server (fst np) = false) (l1 ++ l2) ->
      exited e p = false ->
      unanswered (probe e p) = true ->
      ai_server_restart_count s < max_ai_server_restarts ->
      exists msgs,
        forallb is_print msgs = true /\
        snd (monitor_pass e s) =
          [Sleep 10] ++ msgs ++ [Print ForcingRestart; Terminate p] ++
          (if graceful e p then [] else [Kill p]) ++
          [Sleep 2; StartAiServer (spawn e 0%nat);
           Print (match spawn e 0%nat with
                  | Some _ => UnresponsiveRestarted
                  | None => FailedToRestartUnresponsive
                  end)] /\
        fst (monitor_pass e s) =
          match spawn e 0%nat with
          | Some p' =>
              {| processes := l1 ++ l2 ++ [("AI Server"%string, p')];
                 ai_server_restart_count := ai_server_restart_count s + 1 |}
          | None =>
              {| processes := l1 ++ l2;
                 ai_server_restart_count := ai_server_restart_count s |}
          end) /\
  (forall (e : Env) (s : State) (q : Proc),
      In (Kill q) (snd (monitor_pass e s)) ->
      graceful e q = false /\
      exists before after,
        snd (monitor_pass e s) = before ++ Terminate q :: Kill q :: after) /\
  (forall (e : Env) (s : State),
      max_ai_server_restarts <= ai_server_restart_count s ->
      count_if is_start (snd (monitor_pass e s)) = 0 /\
      count_if is_stop (snd (monitor_pass e s)) = 0 /\
      fst (monitor_pass e s) = s) /\
  (forall (es : list Env) (ps : list (string * Proc)),
      ai_server_restart_count (fst (monitor_loop es (init ps))) =
        count_if is_successful_start (snd (monitor_loop es (init ps))) /\
      count_if is_successful_start (snd (monitor_loop es (init ps))) <= 3).
Proof.
  split; [exact hung_worker_pass|].
  split; [exact pass_kill|].
  split.
  - intros e s Hmax. exact (proj2 (proj2 (pass_accounting e s)) Hmax).
  - intros es ps.
    destruct (run_accounting es (init ps)) as [Hc Hm].
    + unfold init, max_ai_server_restarts. simpl. lia.
    + cbn [init ai_server_restart_count] in Hc.
      unfold max_ai_server_restarts in Hm. lia.
Qed.

End SupervisorProps.

(** ** The monitor on concrete passes *)

Module SupervisorExamples.
Import Supervisor SupervisorSpec SupervisorProps SupervisorFixtures.

Lemma launched_is_hung (e : Env) :
  exited e = (fun _ => false) -> probe e = (fun _ => ProbeRaised) ->
  unresponsive e (init launched).
Proof.
  intros He Hp. unfold unresponsive. rewrite He, Hp.
  split; [reflexivity|]. split; repeat constructor.
Qed.

(** C4 fails as worded: the worker answers no probe and cannot be started
    again; it is stopped and a start is attempted, yet the counter stays
    at 0. And a monitor at its maximum prints for its dead worker the two
    lines it prints for a dead worker while restarts are left, and nothing
    more. *)
Lemma failed_restart_is_not_counted :
  ~ restart_law hung_for_good (init launched) /\
  monitor_pass (crashed 30 40) spent =
    (spent,
     [Sleep 10; Print (ProcessStopped "AI Server");
      Print (RunningProcesses ["Dashboard"; "ESP32-CAM Simulator"]%string)])
  /\
  (forall m,
      In (Print m) (snd (monitor_pass (crashed 30 40) spent)) ->
      In (Print m) (snd (monitor_pass (crashed 1 10) (init launched)))).
Proof.
  split; [|split].
  - intros H. unfold restart_law in H.
    assert (Hlt : ai_server_restart_count (init launched)
                  < max_ai_server_restarts) by reflexivity.
    specialize (H (launched_is_hung hung_for_good eq_refl eq_refl) Hlt).
    vm_compute in H. destruct H as (_ & _ & H). discriminate.
  - vm_compute. reflexivity.
  - intros m H. vm_compute in H. vm_compute.
    destruct H as [H|[H|[H|[]]]]; try discriminate;
      inversion H; subst m; tauto.
Qed.

Lemma restart_budget_witness :
  processes (init launched) =
    [] ++ ("AI Server"%string, 1%nat) ::
    [("Dashboard"%string, 2%nat); ("ESP32-CAM Simulator"%string, 3%nat)] /\
  exited (hung 10) 1%nat = false /\
  unanswered (probe (hung 10) 1%nat) = true /\
  ai_server_restart_count (init launched) < max_ai_server_restarts /\
  In (Terminate 1%nat) (snd (monitor_pass (hung 10) (init launched))) /\
  ai_server_restart_count (fst (monitor_pass (hung 10) (init launched))) = 1.
Proof.
  assert (Ho : Forall (fun np : string * Proc => is_ai_server (fst np) = false)
                 ([] ++ [("Dashboard"%string, 2%nat);
                         ("ESP32-CAM Simulator"%string, 3%nat)]))
    by (repeat constructor).
  assert (Hlt : ai_server_restart_count (init launched)
                < max_ai_server_restarts) by reflexivity.
  split; [reflexivity|]. split; [reflexivity|]. split; [reflexivity|].
  split; [exact Hlt|].
  destruct (proj1 restart_budget (hung 10) (init launched) []
              [("Dashboard"%string, 2%nat);
               ("ESP32-CAM Simulator"%string, 3%nat)]
              1%nat eq_refl Ho eq_refl eq_refl Hlt)
    as (msgs & _ & Ea & Es).
  split.
  - rewrite Ea. apply in_or_app. right. apply in_or_app. right.
    right. left. reflexivity.
  - rewrite Es. reflexivity.
Defined.

(** A worker that hangs beside an exited simulator and cannot be started
    again is terminated and killed all the same; the counter stays as it
    is and the list is left without a worker. *)
Example hung_beside_exited_simulator :
  let e := {| exited := fun p => Nat.eqb p 3;
              probe := fun _ => ProbeRaised;
              graceful := fun _ => false;
              spawn := fun _ => None |} in
  monitor_pass e (init launched) =
    ({| processes := [("Dashboard"%string, 2%nat);
                      ("ESP32-CAM Simulator"%string, 3%nat)];
        ai_server_restart_count := 0 |},
     [Sleep 10; Print NotResponding;
      Print (ProcessStopped "ESP32-CAM Simulator");
      Print (RunningProcesses ["AI Server"; "Dashboard"]%string);
      Print ForcingRestart; Terminate 1%nat; Kill 1%nat; Sleep 2;
      StartAiServer None; Print FailedToRestartUnresponsive]).
Proof. vm_compute. reflexivity. Qed.

(** A worker that hangs in four passes in a row is started again in the
    first three and left alone in the fourth; the monitor is then
    [spent]. *)
Example four_hangs_three_restarts :
  let run := monitor_loop [hung 10; hung 20; hung 30; hung 40]
               (init launched) in
  fst run = spent /\
  count_if is_start (snd run) = 3 /\
  count_if is_stop (snd run) = 3 /\
  snd (monitor_pass (hung 40) (fst run)) = [Sleep 10; Print NotResponding].
Proof. vm_compute. repeat split; reflexivity. Qed.

(** A worker found dead is started twice in the pass that finds it: the
    fresh worker has not been probed when the check for a running but
    unresponsive worker follows. *)
Example dead_worker_is_started_twice :
  let pass := monitor_pass (crashed 1 10) (init launched) in
  ai_server_restart_count (fst pass) = 2 /\
  count_if is_successful_start (snd pass) = 2 /\
  In (Terminate 10%nat) (snd pass).
Proof. vm_compute. repeat split; try reflexivity. tauto. Qed.

End SupervisorExamples.

(** ** More properties of the worker *)

Module WorkerMore.
Import PyStr PyDict PyJson PyNumFacts PyDictFacts Worker WorkerSpec
       WorkerProps WorkerServing WorkerStatus MoreSpec.

Section Results.
Variable BBox : Type.


End Results.

Section Serving.
Variables Model Image BBox : Type.
Variable open_image : string -> option Image.
Variable width height : Image -> Z.
Variable predict : Model -> Image -> Json -> option (list (Box BBox)).

Local Abbreviation detect := (detect_objects open_image width height predict).
Local Abbreviation run := (serve open_image width height predict).
Local Abbreviation state_after :=
  (final_state open_image width height predict).

Implicit Types (e : Env Model) (s : State Model) (req : Request).

Lemma critical_confidence (d : Detection BBox) :
  is_critical BBox d = true -> (8 # 10 < d_confidence BBox d)%Q.
Proof.
  unfold is_critical. intros H. apply andb_prop in H as [H _].
  apply negb_true_iff in H. apply Qnot_le_lt. intros Hle.
  apply Qle_bool_iff in Hle. congruence.
Qed.

Lemma critical_class (d : Detection BBox) :
  is_critical BBox d = true ->
  In (lower (d_class BBox d)) ["fire"; "smoke"; "person"; "danger"]%string.
Proof.
  unfold is_critical. intros H. apply andb_prop in H as [_ H].
  apply existsb_exists in H as (c & Hc & E).
  apply String.eqb_eq in E. rewrite E. exact Hc.
Qed.

Lemma is_critical_iff (d : Detection BBox) :
  is_critical BBox d = true <->
  (8 # 10 < d_confidence BBox d)%Q /\
  In (lower (d_class BBox d)) ["fire"; "smoke"; "person"; "danger"]%string.
Proof.
  split.
  - intros H. split; [apply critical_confidence|apply critical_class];
      exact H.
  - intros [Hconf Hclass]. unfold is_critical. apply andb_true_intro. split.
    + apply negb_true_iff. destruct (Qle_bool _ _) eqn:E; [|reflexivity].
      apply Qle_bool_iff in E. exfalso. exact (Qlt_not_le _ _ Hconf E).
    + apply existsb_exists. exists (lower (d_class BBox d)).
      split; [exact Hclass|apply String.eqb_refl].
Qed.

Lemma lookup_loaded (j : Json) (t : table Model) (name : string) (m : Model) :
  lookup_model j t = Loaded name m -> get name t = Some m.
Proof.
  unfold lookup_model. destruct j as [|b|q|n|items|fields];
    try discriminate.
  destruct (get n t) as [m'|] eqn:E; [|discriminate].
  intros H. inversion H. subst. exact E.
Qed.

(** X2: a body served with status 200 reports the number of the request,
    counts its detections, names a model of the table, and carries alerts
    only when there are some. Each alert stems from a detection of one of
    the classes fire, smoke, person and danger with confidence above 0.8,
    carries its class in upper case and its confidence, and is HIGH
    exactly when the confidence is above 0.9; and every such detection
    has its alert. *)
Theorem served_body_is_consistent e req s (body : Body BBox) :
  response (detect e req s) = Http200 body ->
  request_count BBox body = request_counter s + 1 /\
  detection_count BBox body = Z.of_nat (List.length (detections body)) /\
  mem (model_used BBox body) (models (worker (detect e req s))) = true /\
  alerts BBox body <> Some [] /\
  (forall l a,
      alerts BBox body = Some l -> In a l ->
      exists d,
        In d (detections body) /\ a = make_alert BBox d /\
        In (lower (d_class BBox d))
           ["fire"; "smoke"; "person"; "danger"]%string /\
        a_type a = (upper (d_class BBox d) ++ "_DETECTED")%string /\
        a_confidence a = d_confidence BBox d /\
        (8 # 10 < a_confidence a)%Q /\
        (a_severity a = "HIGH"%string <-> (9 # 10 < a_confidence a)%Q) /\
        (a_severity a = "MEDIUM"%string <-> (a_confidence a <= 9 # 10)%Q)) /\
  (forall d,
      In d (detections body) ->
      In (lower (d_class BBox d))
         ["fire"; "smoke"; "person"; "danger"]%string ->
      (8 # 10 < d_confidence BBox d)%Q ->
      exists l a,
        alerts BBox body = Some l /\ In a l /\
        a_type a = (upper (d_class BBox d) ++ "_DETECTED")%string /\
        a_confidence a = d_confidence BBox d).
Proof.
  rewrite detect_objects_eq. cbv zeta. cbn [worker response].
  pose proof (reload_keeps_counter Model e (counted s)) as Hc.
  set (s' := fst (reload_models_if_needed e (counted s))) in *.
  cbn [counted request_counter] in Hc.
  unfold answer. destruct req as [| |data]; try discriminate.
  destruct (py_in "image" data) as [[|]|]; try discriminate.
  destruct data as [|b|q|str|items|fields]; try discriminate.
  destruct (get "image" fields) as [image_value|]; [|discriminate].
  unfold answer_object.
  set (model_name := with_default (get "model" fields) _).
  set (thr := with_default (get "threshold" fields) _).
  destruct (lookup_model model_name (models s')) as [name m| |] eqn:El;
    try discriminate.
  apply lookup_loaded in El.
  destruct (decode_image_value open_image image_value) as [img|];
    [|discriminate].
  destruct (predict m img thr) as [results|]; [|discriminate].
  destruct (process_results results thr) as [ds|]; [|discriminate].
  intros H. inversion H as [Hb]. clear H Hb.
  cbn [request_count detection_count model_used alerts detections].
  unfold mem. rewrite El.
  split; [exact Hc|]. split; [reflexivity|]. split; [reflexivity|].
  assert (Halert : forall d,
             In d (filter (is_critical BBox) ds) ->
             let a := make_alert BBox d in
             In d ds /\
             In (lower (d_class BBox d))
                ["fire"; "smoke"; "person"; "danger"]%string /\
             (8 # 10 < a_confidence a)%Q /\
             (a_severity a = "HIGH"%string <-> (9 # 10 < a_confidence a)%Q) /\
             (a_severity a = "MEDIUM"%string <->
              (a_confidence a <= 9 # 10)%Q)).
  { intros d Hd a. apply filter_In in Hd as [Hd Hcrit].
    apply is_critical_iff in Hcrit as [Hconf Hclass].
    split; [exact Hd|]. split; [exact Hclass|]. split; [exact Hconf|].
    subst a. cbn [make_alert a_confidence a_severity].
    destruct (Qle_bool (d_confidence BBox d) (9 # 10)) eqn:E9.
    - apply Qle_bool_iff in E9. split.
      + split; [discriminate|]. intros Hlt.
        exfalso. exact (Qlt_not_le _ _ Hlt E9).
      + split; [intros _; exact E9|reflexivity].
    - assert (Hlt : (9 # 10 < d_confidence BBox d)%Q).
      { apply Qnot_le_lt. intros Hle. apply Qle_bool_iff in Hle.
        congruence. }
      split.
      + split; [intros _; exact Hlt|reflexivity].
      + split; [discriminate|]. intros Hle.
        exfalso. exact (Qlt_not_le _ _ Hlt Hle). }
  destruct (filter (is_critical BBox) ds) as [|d0 high] eqn:Ehigh.
  - split; [discriminate|]. split.
    + intros l a Hl. discriminate.
    + intros d Hd Hclass Hconf. exfalso.
      assert (Hin : In d (filter (is_critical BBox) ds)).
      { apply filter_In. split; [exact Hd|].
        apply is_critical_iff. split; assumption. }
      rewrite Ehigh in Hin. exact Hin.
  - split; [discriminate|]. split.
    + intros l a Hl Ha.
      inversion Hl as [Hl']. subst l. clear Hl.
      change (make_alert BBox d0 :: map (make_alert BBox) high)
        with (map (make_alert BBox) (d0 :: high)) in Ha.
      apply in_map_iff in Ha as (d & <- & Hd).
      destruct (Halert d Hd) as (Hin & Hclass & Hconf & Hhigh & Hmed).
      exists d. split; [exact Hin|]. split; [reflexivity|].
      split; [exact Hclass|]. split; [reflexivity|].
      split; [reflexivity|]. split; [exact Hconf|].
      split; [exact Hhigh|exact Hmed].
    + intros d Hd Hclass Hconf.
      assert (Hin : In d (filter (is_critical BBox) ds)).
      { apply filter_In. split; [exact Hd|].
        apply is_critical_iff. split; assumption. }
      rewrite Ehigh in Hin.
      exists (map (make_alert BBox) (d0 :: high)), (make_alert BBox d).
      split; [reflexivity|]. split; [apply in_map; exact Hin|].
      split; reflexivity.
Qed.

(** *** The status report and the schedule *)

Lemma cleanup_of_nth calls s k (v : Served Model BBox) :
  nth_error (run calls s) k = Some v ->
  cleanup (maintenance v) =
    ((request_counter s + Z.of_nat k + 1) mod 20 =? 0) /\
  exists e req,
    v = detect e req (state_after (firstn k calls) s) /\
    request_counter (state_after (firstn k calls) s) =
      request_counter s + Z.of_nat k.
Proof.
  intros H.
  destruct (run_nth _ _ _ _ _ _ _ _ _ _ _ H) as (e & req & Hcall & ->).
  assert (Hlen : List.length (firstn k calls) = k).
  { apply firstn_length_le. apply Nat.lt_le_incl.
    apply nth_error_Some. rewrite Hcall. discriminate. }
  assert (Hbefore : request_counter (state_after (firstn k calls) s)
                    = request_counter s + Z.of_nat k).
  { rewrite state_after_counter, Hlen. reflexivity. }
  split.
  - rewrite detect_objects_eq. cbn [maintenance cleanup].
    rewrite Hbefore. reflexivity.
  - exists e, req. split; [reflexivity|exact Hbefore].
Qed.

(** X3: the report names the request of the next cleanup: a multiple of
    20 that lies 1 to 20 requests ahead, and among the requests up to it
    the cleanup block runs on that one and on no other. *)
Theorem status_names_next_cleanup calls s k (v : Served Model BBox)
    (now : Q) :
  nth_error (run calls s) k = Some v ->
  let n := request_counter s + Z.of_nat k + 1 in
  let info := memory_info (get_status now s) in
  request_counter s < next_cleanup_at info <= request_counter s + 20 /\
  next_cleanup_at info mod 20 = 0 /\
  requests_until_cleanup info = next_cleanup_at info - request_counter s /\
  (n <= next_cleanup_at info ->
   (cleanup (maintenance v) = true <-> n = next_cleanup_at info)).
Proof.
  intros H n info. destruct (cleanup_of_nth _ _ _ _ H) as [Hc _].
  subst info. cbn [get_status memory_info next_cleanup_at
                   requests_until_cleanup].
  set (c := request_counter s) in *.
  pose proof (Z.div_mod c 20 ltac:(lia)) as Hdm.
  pose proof (Z.mod_pos_bound c 20 ltac:(lia)) as Hb.
  split; [lia|]. split; [apply Z.mod_mul; lia|]. split; [reflexivity|].
  intros Hle. rewrite Hc. fold n. rewrite Z.eqb_eq. split.
  - intros Hm.
    pose proof (Z.div_mod n 20 ltac:(lia)) as Hn. rewrite Hm in Hn.
    assert (c < n) by (subst n; lia). lia.
  - intros ->. apply Z.mod_mul. lia.
Qed.

Lemma quiet_calls_keep_reload_mark calls : forall s,
  request_counter s + Z.of_nat (List.length calls)
    < last_model_reload s + 100 ->
  last_model_reload (state_after calls s) = last_model_reload s.
Proof.
  induction calls as [|[e req] rest IH]; intros s Hlt.
  - reflexivity.
  - change (state_after ((e, req) :: rest) s)
      with (state_after rest (worker (detect e req s))).
    assert (Hs : worker (detect e req s) = counted s).
    { rewrite detect_objects_eq. cbn [worker].
      unfold reload_models_if_needed, reload_due, model_reload_interval.
      cbn [counted request_counter last_model_reload].
      cbn [List.length] in Hlt.
      destruct (100 <=? request_counter s + 1 - last_model_reload s) eqn:E;
        [apply Z.leb_le in E; lia|reflexivity]. }
    rewrite Hs. rewrite IH.
    + reflexivity.
    + cbn [counted request_counter last_model_reload].
      cbn [List.length] in Hlt. lia.
Qed.

(** X4: while no reload is pending, the report names the request of the
    next reload: among the requests up to it a reload is attempted on that
    one and on no other. *)
Theorem status_names_next_reload calls s k (v : Served Model BBox)
    (now : Q) :
  nth_error (run calls s) k = Some v ->
  let n := request_counter s + Z.of_nat k + 1 in
  let info := memory_info (get_status now s) in
  requests_since_model_reload info < 100 ->
  n <= next_model_reload_at info ->
  (reload_ran v = true <-> n = next_model_reload_at info).
Proof.
  intros H n info Hsince Hle.
  destruct (cleanup_of_nth _ _ _ _ H) as (_ & e & req & -> & Hbefore).
  subst info. cbn [get_status memory_info requests_since_model_reload
                   next_model_reload_at] in *.
  assert (Hlen : (List.length (firstn k calls) <= k)%nat)
    by apply firstn_le_length.
  assert (Hmark : last_model_reload (state_after (firstn k calls) s)
                  = last_model_reload s).
  { apply quiet_calls_keep_reload_mark. subst n. lia. }
  unfold reload_ran. rewrite detect_objects_eq. cbn [maintenance reload].
  rewrite reload_outcome_due.
  unfold reload_due, model_reload_interval.
  cbn [counted request_counter last_model_reload].
  rewrite Hbefore, Hmark. fold n. rewrite Z.leb_le. lia.
Qed.

Lemma reload_outcome_marks e s :
  let s' := fst (reload_models_if_needed e s) in
  request_counter s' = request_counter s /\
  match snd (reload_models_if_needed e s) with
  | ReloadFailed =>
      last_model_reload s' = last_model_reload s /\
      100 <= request_counter s - last_model_reload s
  | Reloaded => last_model_reload s' = request_counter s
  | NotDue => s' = s
  end.
Proof.
  unfold reload_models_if_needed, reload_due, model_reload_interval.
  destruct (100 <=? request_counter s - last_model_reload s) eqn:E.
  - apply Z.leb_le in E.
    destruct (load_models (disk e) []) as [t [|]]; cbn; auto.
  - cbn. auto.
Qed.

(** X5: a reload that failed is attempted again on the very next request,
    whatever that request is; a reload that succeeded is not. *)
Theorem failed_reload_is_retried e req s e' req' :
  let v := detect e req s in
  let next := detect e' req' (worker v) in
  (reload (maintenance v) = ReloadFailed -> reload_ran next = true) /\
  (reload (maintenance v) = Reloaded -> reload_ran next = false).
Proof.
  intros v next. subst v next. unfold reload_ran.
  rewrite (detect_objects_eq _ _ _ _ _ _ _ e' req').
  cbn [maintenance reload]. rewrite reload_outcome_due.
  rewrite detect_objects_eq. cbn [maintenance reload worker].
  destruct (reload_outcome_marks e (counted s)) as [Hc Ho].
  unfold reload_due, model_reload_interval.
  cbn [counted request_counter last_model_reload] in *.
  split; intros H; rewrite H in Ho.
  - destruct Ho as [Hl Hdue]. apply Z.leb_le. rewrite Hc, Hl. lia.
  - apply Z.leb_gt. rewrite Hc, Ho. lia.
Qed.

End Serving.

(** *** Strings of the worker *)

Lemma prefix_app (sub s x : string) :
  String.prefix sub s = true -> String.prefix sub (s ++ x) = true.
Proof.
  revert s. induction sub as [|a sub IH]; intros s H.
  - destruct (s ++ x)%string; reflexivity.
  - destruct s as [|b s]; [discriminate|]. simpl in H |- *.
    destruct (ascii_dec a b); [apply IH; exact H|discriminate].
Qed.

Lemma contains_app (sub s x : string) :
  contains sub s = true -> contains sub (s ++ x) = true.
Proof.
  induction s as [|c s IH]; intros H.
  - simpl in H. rewrite orb_false_r in H.
    destruct sub; [|discriminate].
    destruct x; reflexivity.
  - cbn [contains] in H. apply orb_prop in H as [H|H].
    + change ((String c s ++ x)%string) with (String c (s ++ x)).
      cbn [contains]. change (String c (s ++ x)) with ((String c s ++ x)%string).
      rewrite (prefix_app _ _ _ H). reflexivity.
    + change ((String c s ++ x)%string) with (String c (s ++ x)).
      cbn [contains]. rewrite (IH H). apply orb_true_r.
Qed.

Lemma cut_comma_app (pre rest : string) :
  has_char "," pre = false ->
  cut_comma (pre ++ String "," rest) = (pre, Some rest).
Proof.
  induction pre as [|c pre IH]; intros H.
  - reflexivity.
  - cbn [has_char] in H. apply orb_false_elim in H as [Hc Hpre].
    change ((String c pre ++ String "," rest)%string)
      with (String c (pre ++ String "," rest)).
    cbn [cut_comma]. rewrite Hc, (IH Hpre). reflexivity.
Qed.

Lemma cut_comma_none (s : string) :
  has_char "," s = false -> cut_comma s = (s, None).
Proof.
  induction s as [|c s IH]; intros H.
  - reflexivity.
  - cbn [has_char] in H. apply orb_false_elim in H as [Hc Hs].
    cbn [cut_comma]. rewrite Hc, (IH Hs). reflexivity.
Qed.

Section Decoding.
Variable Image : Type.
Variable open_image : string -> option Image.

(** X6: of a data URL the decoder takes the text between the first comma
    and the next, whatever follows; a text that holds [data:image/] and no
    comma does not decode; any other text goes to the decoder whole. *)
Theorem data_url_is_stripped (pre payload : string) :
  contains "data:image/" pre = true ->
  has_char "," pre = false ->
  has_char "," payload = false ->
  decode_base64_image open_image (pre ++ String "," payload)
    = open_image payload /\
  (forall rest,
      decode_base64_image open_image
        (pre ++ String "," (payload ++ String "," rest))
      = open_image payload) /\
  decode_base64_image open_image pre = None /\
  (forall s, contains "data:image/" s = false ->
             decode_base64_image open_image s = open_image s).
Proof.
  intros Hdata Hpre Hpay. unfold decode_base64_image, split_comma_1.
  split; [|split; [|split]].
  - rewrite (contains_app _ _ _ Hdata), (cut_comma_app _ _ Hpre).
    cbn [snd]. rewrite (cut_comma_none _ Hpay). reflexivity.
  - intros rest.
    rewrite (contains_app _ _ _ Hdata), (cut_comma_app _ _ Hpre).
    cbn [snd]. rewrite (cut_comma_app _ _ Hpay). reflexivity.
  - rewrite Hdata, (cut_comma_none _ Hpre). reflexivity.
  - intros s Hs. rewrite Hs. reflexivity.
Qed.

End Decoding.

(** *** Names of the model files *)

Ltac split_char c :=
  let b0 := fresh in let b1 := fresh in let b2 := fresh in
  let b3 := fresh in let b4 := fresh in let b5 := fresh in
  let b6 := fresh in let b7 := fresh in
  destruct c as [b0 b1 b2 b3 b4 b5 b6 b7];
  destruct b0, b1, b2, b3, b4, b5, b6, b7.

(** Where no occurrence starts, the scan keeps the character. *)
Lemma remove_dot_pt_keeps (c : ascii) (r : string) :
  String.prefix ".pt" (String c r) = false ->
  remove_dot_pt (String c r) = String c (remove_dot_pt r).
Proof.
  intros H. split_char c; try reflexivity.
  destruct r as [|a r]; [reflexivity|].
  split_char a; try reflexivity.
  destruct r as [|b r]; [reflexivity|].
  split_char b; try reflexivity.
  simpl in H. destruct r; discriminate.
Qed.

Lemma no_prefix_with_extension (c : ascii) (r : string) :
  String.prefix ".pt" (String c r) = false ->
  String.prefix ".pt" (String c (r ++ ".pt")) = false.
Proof.
  intros H. cbn [String.prefix] in H |- *.
  destruct (ascii_dec "." c); [|reflexivity].
  destruct r as [|a r]; [reflexivity|].
  change ((String a r ++ ".pt")%string) with (String a (r ++ ".pt")).
  cbn [String.prefix] in H |- *.
  destruct (ascii_dec "p" a); [|reflexivity].
  destruct r as [|b r]; [reflexivity|].
  change ((String b r ++ ".pt")%string) with (String b (r ++ ".pt")).
  cbn [String.prefix] in H |- *.
  destruct (ascii_dec "t" b); [|reflexivity].
  destruct r; discriminate.
Qed.

Lemma remove_dot_pt_extension (name : string) :
  contains ".pt" name = false ->
  remove_dot_pt (name ++ ".pt") = name.
Proof.
  induction name as [|c r IH]; intros H.
  - reflexivity.
  - cbn [contains] in H. apply orb_false_elim in H as [Hp Hr].
    change ((String c r ++ ".pt")%string) with (String c (r ++ ".pt")).
    rewrite remove_dot_pt_keeps by (apply no_prefix_with_extension; exact Hp).
    rewrite (IH Hr). reflexivity.
Qed.

Lemma endswith_extension (name : string) :
  endswith (name ++ ".pt") ".pt" = true.
Proof.
  induction name as [|c r IH].
  - reflexivity.
  - change ((String c r ++ ".pt")%string) with (String c (r ++ ".pt")).
    cbn [endswith]. rewrite IH. apply orb_true_r.
Qed.

Section Loading.
Variable Model : Type.

(** X7: a listed file [name.pt] that loads is served under [name],
    provided [name] holds no [.pt] itself; and a load pass drops nothing
    the table held before it. *)
Theorem model_files_are_served_by_name
    (files : list (string * option Model)) (t : table Model)
    (name : string) (m : Model) :
  contains ".pt" name = false ->
  In ((name ++ ".pt")%string, Some m) files ->
  mem name (fst (load_models (DirListing files) t)) = true /\
  (forall (d : ModelsDir Model) (other : string),
      mem other t = true -> mem other (fst (load_models d t)) = true).
Proof.
  intros Hname Hin. split.
  - cbn [load_models fst]. rewrite mem_fold_load.
    apply orb_true_iff. right. apply existsb_exists.
    exists ((name ++ ".pt")%string, Some m). split; [exact Hin|].
    unfold loads. cbn [fst snd].
    rewrite endswith_extension, (remove_dot_pt_extension _ Hname).
    rewrite String.eqb_refl. reflexivity.
  - intros d other Hmem. destruct d as [ok| |fs]; cbn [load_models fst].
    + destruct ok; exact Hmem.
    + exact Hmem.
    + rewrite mem_fold_load, Hmem. reflexivity.
Qed.

End Loading.

End WorkerMore.

(** ** More properties of the capture client *)

Module ClientMoreProps.
Import PyStr PyDict Client ClientSpec ClientProps ClientMore MoreSpec.

(** *** The scan of a result *)

Lemma scan_from (task : string) (ds : list Detection) :
  forall (seen : bool) (best : Q) (targets : list Detection),
    let out :=
      fold_left
        (fun acc d =>
           let '(seen, best, targets) := acc in
           if is_target task d then
             (true,
              (if Qgtb (confidence d) best then confidence d else best),
              targets ++ [d])
           else acc)
        ds (seen, best, targets) in
    fst (fst out) = (seen || existsb (is_target task) ds)%bool /\
    snd out = targets ++ filter (is_target task) ds /\
    (best <= snd (fst out))%Q /\
    (forall d, In d (filter (is_target task) ds) ->
               (confidence d <= snd (fst out))%Q) /\
    (snd (fst out) = best \/
     exists d, In d (filter (is_target task) ds) /\
               snd (fst out) = confidence d).
Proof.
  induction ds as [|d ds IH]; intros seen best targets.
  - cbn. rewrite orb_false_r, app_nil_r.
    repeat split; auto; try apply Qle_refl. intros d [].
  - cbn [fold_left existsb filter].
    destruct (is_target task d) eqn:Ed.
    + set (best' := if Qgtb (confidence d) best then confidence d else best).
      destruct (IH true best' (targets ++ [d])) as (H1 & H2 & H3 & H4 & H5).
      assert (Hb : (best <= best')%Q /\ (confidence d <= best')%Q).
      { subst best'. unfold Qgtb.
        destruct (Qle_bool (confidence d) best) eqn:E; cbn.
        - apply Qle_bool_iff in E. split; [apply Qle_refl|exact E].
        - split; [|apply Qle_refl].
          apply Qlt_le_weak, Qnot_le_lt. intros Hle.
          apply Qle_bool_iff in Hle. congruence. }
      destruct Hb as [Hb1 Hb2].
      split; [rewrite H1; now rewrite orb_true_r|].
      split; [rewrite H2, <- app_assoc; reflexivity|].
      split; [eapply Qle_trans; eassumption|].
      split.
      * intros x [<-|Hx]; [eapply Qle_trans; eassumption|auto].
      * destruct H5 as [H5|(x & Hx & H5)].
        -- rewrite H5. subst best'.
           destruct (Qgtb (confidence d) best); [right|left; reflexivity].
           exists d. split; [now left|reflexivity].
        -- right. exists x. split; [now right|exact H5].
    + destruct (IH seen best targets) as (H1 & H2 & H3 & H4 & H5).
      repeat split; assumption.
Qed.

Lemma scan_seen (task : string) (ds : list Detection) :
  fst (fst (scan task ds)) = existsb (is_target task) ds.
Proof.
  destruct (scan_from task ds false 0%Q []) as (H1 & _).
  unfold scan. simpl orb in H1. exact H1.
Qed.

(** X8: the scan of a result reports a target exactly when some detection
    is one, keeps the targets in their order, and records a confidence
    that bounds the confidence of every target and is either 0 or the
    confidence of one of them. *)
Theorem scan_finds_targets (task : string) (ds : list Detection) :
  let seen := fst (fst (scan task ds)) in
  let best := snd (fst (scan task ds)) in
  let targets := snd (scan task ds) in
  seen = existsb (is_target task) ds /\
  targets = filter (is_target task) ds /\
  (forall d, In d targets -> (confidence d <= best)%Q) /\
  (best = 0%Q \/ exists d, In d targets /\ best = confidence d) /\
  (0 <= best)%Q.
Proof.
  destruct (scan_from task ds false 0%Q []) as (H1 & H2 & H3 & H4 & H5).
  unfold scan. cbv zeta. simpl app in H2. simpl orb in H1.
  split; [exact H1|]. split; [exact H2|]. rewrite H2.
  split; [exact H4|]. split; [exact H5|exact H3].
Qed.

(** X9: for a task other than fire and leaves no result holds a target,
    so a flag that is 0 stays 0 whatever the worker reports. *)
Theorem unknown_task_never_alarms (s : State) (now : Z) (r : Result) :
  current_task s <> "fire"%string ->
  current_task s <> "leaves"%string ->
  target_detected (current_task s) r = false /\
  (fire_on s = 0 -> fire_on (fst (process_detection_result now r s)) = 0).
Proof.
  intros Hf Hl.
  assert (Hnone : forall d, is_target (current_task s) d = false).
  { intros d. unfold is_target.
    apply String.eqb_neq in Hf. apply String.eqb_neq in Hl.
    rewrite Hf, Hl. reflexivity. }
  assert (Ht : target_detected (current_task s) r = false).
  { unfold target_detected.
    rewrite (scan_seen (current_task s) (detections r)).
    induction (detections r) as [|d ds IH]; [reflexivity|].
    cbn [existsb]. rewrite Hnone, IH. reflexivity. }
  split; [exact Ht|]. intros H0.
  destruct (process_fields now r s) as (_ & Hflag & _).
  rewrite Hflag, Ht. unfold next_fire_on.
  destruct (last_detection_time s) as [t|]; [|exact H0].
  destruct (grace_seconds <? timedelta_seconds now t); [reflexivity|exact H0].
Qed.

(** *** The grace window and the day *)

Lemma seconds_of_day (t0 k d : Z) :
  0 <= d < day ->
  timedelta_seconds (t0 + k * day + d) t0 = d / 1000000.
Proof.
  unfold timedelta_seconds, day. intros Hd.
  replace (t0 + k * (86400 * 1000000) + d - t0)
    with (d + (k * 86400) * 1000000) by ring.
  rewrite Z.div_add by lia. rewrite Z.mod_add by lia.
  apply Z.mod_small. split.
  - apply Z.div_pos; lia.
  - apply Z.div_lt_upper_bound; lia.
Qed.

(** X10: the grace window is told by the seconds of the day that have
    passed since the last detection, whole days left out: a result without
    a target read [k] days and [d] microseconds after the detection leaves
    a raised flag up when [d] is below 31 seconds, and clears it when [d]
    is 31 seconds or more. *)
Theorem grace_counts_seconds_of_day (s : State) (t0 k d : Z) (r : Result) :
  last_detection_time s = Some t0 ->
  fire_on s = 1 ->
  target_detected (current_task s) r = false ->
  0 <= d < day ->
  let s' := fst (process_detection_result (t0 + k * day + d) r s) in
  (d < 31000000 -> fire_on s' = 1) /\
  (31000000 <= d -> fire_on s' = 0).
Proof.
  intros Hlast Hon Hneg Hd s'.
  destruct (process_fields (t0 + k * day + d) r s) as (_ & Hflag & _).
  fold s' in Hflag. rewrite Hneg in Hflag.
  unfold next_fire_on in Hflag.
  rewrite Hlast, (seconds_of_day _ _ _ Hd) in Hflag.
  unfold grace_seconds in Hflag. split; intros Hc.
  - assert (E : (30 <? d / 1000000) = false).
    { apply Z.ltb_ge.
      enough (d / 1000000 < 31) by lia.
      apply Z.div_lt_upper_bound; lia. }
    rewrite E in Hflag. congruence.
  - assert (E : (30 <? d / 1000000) = true).
    { apply Z.ltb_lt.
      enough (31 <= d / 1000000) by lia.
      apply Z.div_le_lower_bound; lia. }
    rewrite E in Hflag. exact Hflag.
Qed.

(** *** What a send and a result leave of the state *)

Lemma send_fields (e : SendEnv) (s : State) :
  let s' := fst (fst (send_to_ai_server e s)) in
  let result := snd (fst (send_to_ai_server e s)) in
  frame_rate s' = frame_rate s /\
  fire_on s' = fire_on s /\
  last_detection_time s' = last_detection_time s /\
  detection_history s' = detection_history s /\
  current_task s' = dashboard_task e /\
  request_count s' = request_count s + 1 /\
  (consecutive_failures s' = 0 \/
   consecutive_failures s' = 1 \/
   consecutive_failures s' = consecutive_failures s + 1) /\
  (result <> None -> consecutive_failures s' = 0) /\
  (consecutive_failures s' = 0 -> 0 <= consecutive_failures s ->
   succeeded e).
Proof.
  unfold send_to_ai_server, succeeded.
  destruct (post e request_timeout) as [status [r|message]|message].
  - destruct (status =? 200) eqn:E; cbn.
    + apply Z.eqb_eq in E. subst status.
      repeat split; auto; try congruence.
      intros _ _. exists r. reflexivity.
    + repeat split; auto; try congruence; intros; lia.
  - destruct (status =? 200) eqn:E; cbn;
      repeat split; auto; try congruence; intros; lia.
  - cbn. repeat split; auto; try congruence; intros; lia.
Qed.

Lemma send_no_notify (e : SendEnv) (s : State) :
  existsb is_notify (snd (send_to_ai_server e s)) = false.
Proof.
  assert (Hexc : forall message s0,
             existsb is_notify (snd (on_exception e message s0)) = false).
  { intros message s0. unfold on_exception. cbn [snd].
    rewrite existsb_app.
    destruct (contains "timeout" (lower message));
      [destruct (_ && _)%bool|];
      (destruct (3 <=? _); [destruct (5 <=? _)|]); reflexivity. }
  unfold send_to_ai_server.
  set (warn := if (_ && _)%bool then [WarnHighRequestCount] else []).
  assert (Hw : existsb is_notify warn = false)
    by (subst warn; destruct (_ && _)%bool; reflexivity).
  destruct (post e request_timeout) as [status [r|message]|message].
  - destruct (status =? 200); cbn [snd]; [exact Hw|].
    rewrite existsb_app, Hw. reflexivity.
  - destruct (status =? 200); cbn [snd].
    + pose proof (Hexc message
                    (set_success
                       {| frame_rate := frame_rate s;
                          current_task := dashboard_task e;
                          fire_on := fire_on s;
                          last_detection_time := last_detection_time s;
                          detection_history := detection_history s;
                          request_count := request_count s + 1;
                          consecutive_failures := consecutive_failures s;
                          last_successful_request :=
                            last_successful_request s |}
                       (now_success e))) as H.
      destruct (on_exception e message _) as [s3 effs]. cbn [snd] in H |- *.
      rewrite existsb_app, Hw, H. reflexivity.
    + rewrite existsb_app, Hw. reflexivity.
  - pose proof (Hexc message
                  {| frame_rate := frame_rate s;
                     current_task := dashboard_task e;
                     fire_on := fire_on s;
                     last_detection_time := last_detection_time s;
                     detection_history := detection_history s;
                     request_count := request_count s + 1;
                     consecutive_failures := consecutive_failures s;
                     last_successful_request :=
                       last_successful_request s |}) as H.
    destruct (on_exception e message _) as [s3 effs]. cbn [snd] in H |- *.
    rewrite existsb_app, Hw, H. reflexivity.
Qed.

Lemma process_history (now : Z) (r : Result) (s : State) :
  let s' := fst (process_detection_result now r s) in
  (List.length (detection_history s) <= 100 ->
   List.length (detection_history s') <= 100)%nat /\
  frame_rate s' = frame_rate s /\
  request_count s' = request_count s /\
  consecutive_failures s' = consecutive_failures s /\
  exists older record,
    detection_history s' = older ++ [record] /\
    h_fire_on record = fire_on s' /\
    h_task record = current_task s' /\
    h_target_detected record = target_detected (current_task s) r.
Proof.
  unfold process_detection_result, target_detected.
  destruct (scan (current_task s) (detections r)) as [[target best] targets].
  cbn [fst snd detection_history fire_on current_task frame_rate
       request_count consecutive_failures].
  set (record := {| h_task := current_task s;
                    h_target_detected := target;
                    h_fire_on := next_fire_on s target now;
                    h_confidence := best;
                    h_detections := targets |}).
  set (history := detection_history s ++ [record]).
  assert (Hlen : List.length history = S (List.length (detection_history s)))
    by (subst history; rewrite length_app; simpl; lia).
  destruct (100 <? List.length history)%nat eqn:E.
  - apply Nat.ltb_lt in E. unfold keep_last. split; [|repeat split].
    + intros _. rewrite length_skipn. lia.
    + exists (skipn (List.length history - 100) (detection_history s)), record.
      split; [|repeat split].
      subst history. rewrite skipn_app.
      replace (List.length (detection_history s ++ [record]) - 100
               - List.length (detection_history s))%nat with 0%nat
        by (rewrite length_app; simpl; lia).
      reflexivity.
  - apply Nat.ltb_ge in E. split; [|repeat split].
    + intros _. exact E.
    + exists (detection_history s), record. repeat split.
Qed.

Lemma process_sound (now : Z) (r : Result) (s : State) :
  sound s -> sound (fst (process_detection_result now r s)).
Proof.
  intros (H01 & Hlast & Hlen & Hcf & Hrc).
  destruct (process_fields now r s) as (_ & Hflag & Htime).
  destruct (process_history now r s) as (Hh & _ & Hr & Hc & _).
  unfold sound. rewrite Hflag, Htime, Hr, Hc. unfold next_fire_on.
  destruct (target_detected (current_task s) r).
  - repeat split; auto; try discriminate.
  - destruct (last_detection_time s) as [t|] eqn:Et.
    + destruct (grace_seconds <? timedelta_seconds now t);
        repeat split; auto; try discriminate; intros; discriminate.
    + repeat split; auto.
Qed.

Lemma send_sound (e : SendEnv) (s : State) :
  sound s -> sound (fst (fst (send_to_ai_server e s))).
Proof.
  intros (H01 & Hlast & Hlen & Hcf & Hrc).
  destruct (send_fields e s) as (_ & Hf & Hl & Hh & _ & Hr & Hc & _).
  unfold sound. rewrite Hf, Hl, Hh, Hr.
  repeat split; auto; lia.
Qed.

(** The parts of a cycle. *)
Lemma cycle_shape (interval : Q) (e : CycleEnv) (s : State) :
  let c := cycle interval e s in
  exists effs,
    effects c = effs ++ [Sleep (sleep_time c)] /\
    elapsed c = (work e + slept effs)%Q /\
    sleep_time c = max0 (interval - elapsed c) /\
    period c = (elapsed c + sleep_time c)%Q /\
    (sound s -> sound (after c)) /\
    frame_rate (after c) = frame_rate s /\
    (forall record,
        In (NotifyDashboard record) effs ->
        h_fire_on record = fire_on (after c) /\
        h_task record = current_task (after c) /\
        consecutive_failures (after c) = 0).
Proof.
  unfold cycle.
  destruct (frame e) as [[|c0 image]|].
  - exists [LogCaptureFailed]. cbn [after effects elapsed sleep_time period].
    split; [reflexivity|]. split; [reflexivity|].
    split; [reflexivity|]. split; [reflexivity|].
    split; [auto|]. split; [reflexivity|].
    intros record [Hrec|[]]; discriminate.
  - pose proof (send_fields (send_env e) s) as Hsf.
    pose proof (send_no_notify (send_env e) s) as Hnn.
    pose proof (send_sound (send_env e) s) as Hss.
    destruct (send_to_ai_server (send_env e) s) as [[s1 result] sent].
    cbn [fst snd] in Hsf, Hnn, Hss.
    destruct Hsf as (Hrate & _ & _ & _ & _ & _ & _ & Hsome & _).
    assert (Hsent : forall record, ~ In (NotifyDashboard record) sent).
    { intros record Hin.
      assert (existsb is_notify sent = true)
        by (apply existsb_exists; exists (NotifyDashboard record); auto).
      congruence. }
    destruct result as [r|].
    + pose proof (process_history (now_detect e) r s1) as Hph.
      pose proof (process_sound (now_detect e) r s1) as Hps.
      destruct (process_detection_result (now_detect e) r s1) as [s2 tgt].
      cbn [fst] in Hph, Hps.
      destruct Hph as (_ & Hr2 & _ & Hcf & older & record & Hh & Hfl & Htk & _).
      eexists. cbn [after effects elapsed sleep_time period].
      split; [reflexivity|]. split; [reflexivity|].
      split; [reflexivity|]. split; [reflexivity|].
      split; [auto|]. split; [congruence|].
      intros rec Hin. rewrite Hh, rev_app_distr in Hin. cbn [rev app] in Hin.
      apply in_app_or in Hin as [Hin|Hin]; [exfalso; eapply Hsent; eauto|].
      destruct Hin as [Hin|[Hin|[]]]; [|discriminate].
      inversion Hin. subst rec.
      split; [exact Hfl|]. split; [exact Htk|].
      rewrite Hcf. apply Hsome. discriminate.
    + eexists. cbn [after effects elapsed sleep_time period].
      split; [reflexivity|]. split; [reflexivity|].
      split; [reflexivity|]. split; [reflexivity|].
      split; [auto|]. split; [exact Hrate|].
      intros rec Hin.
      apply in_app_or in Hin as [Hin|Hin]; [exfalso; eapply Hsent; eauto|].
      destruct Hin as [Hin|[Hin|[]]]; discriminate.
  - exists [LogCaptureFailed]. cbn [after effects elapsed sleep_time period].
    split; [reflexivity|]. split; [reflexivity|].
    split; [reflexivity|]. split; [reflexivity|].
    split; [auto|]. split; [reflexivity|].
    intros record [Hrec|[]]; discriminate.
Qed.

(** X11: the cycles of the loop keep the client sound: the flag stays 0
    or 1 and is 1 only after a detection, the history never grows beyond
    100 records, and the counters never turn negative. *)
Theorem cycles_keep_the_client_sound (interval : Q) (es : list CycleEnv) :
  forall s,
    sound s ->
    Forall (fun c => sound (after c)) (capture_cycles interval es s).
Proof.
  induction es as [|e es IH]; intros s Hs.
  - constructor.
  - cbn [capture_cycles].
    destruct (cycle_shape interval e s) as (effs & _ & _ & _ & _ & Hsound & _).
    constructor.
    + apply Hsound. exact Hs.
    + apply IH. apply Hsound. exact Hs.
Qed.

(** X12: a record is sent to the dashboard only in a cycle whose request
    succeeded, and it carries the flag and the task the client holds at
    the end of that cycle. *)
Theorem notification_carries_the_flag (interval : Q) (e : CycleEnv)
    (s : State) (record : HistoryRecord) :
  In (NotifyDashboard record) (effects (cycle interval e s)) ->
  let c := cycle interval e s in
  h_fire_on record = fire_on (after c) /\
  h_task record = current_task (after c) /\
  consecutive_failures (after c) = 0.
Proof.
  intros Hin c. subst c.
  destruct (cycle_shape interval e s) as (effs & He & _ & _ & _ & _ & _ & Hn).
  rewrite He in Hin. apply in_app_or in Hin as [Hin|[Hin|[]]].
  - apply Hn. exact Hin.
  - discriminate.
Qed.

(** X13: every cycle, failed or not, ends with a wait that is never
    negative and fills the cycle up to the base interval: the next cycle
    starts no earlier than one interval after this one, exactly one
    interval after it when the work took no longer, and without a wait
    when the work took longer. *)
Theorem cycles_keep_the_pace (interval : Q) (e : CycleEnv) (s : State) :
  let c := cycle interval e s in
  (0 <= sleep_time c)%Q /\
  (interval <= period c)%Q /\
  (elapsed c <= period c)%Q /\
  ((elapsed c <= interval)%Q -> (period c == interval)%Q) /\
  ((interval <= elapsed c)%Q -> sleep_time c = 0%Q).
Proof.
  intros c. subst c.
  destruct (cycle_shape interval e s) as (effs & _ & _ & Hw & Hp & _).
  rewrite Hp, Hw. set (spent := elapsed (cycle interval e s)).
  unfold max0. destruct (Qle_bool (interval - spent) 0) eqn:E.
  - apply Qle_bool_iff in E. repeat split; try lra; intros; lra.
  - assert (~ (interval - spent <= 0)%Q)
      by (intros H; apply Qle_bool_iff in H; congruence).
    repeat split; try lra; intros; lra.
Qed.

(** *** Counting the sends *)

Lemma after_sends_snoc (es : list SendEnv) (e : SendEnv) (s : State) :
  after_sends (es ++ [e]) s =
  fst (fst (send_to_ai_server e (after_sends es s))).
Proof. unfold after_sends. rewrite fold_left_app. reflexivity. Qed.

Lemma sends_counters (es : list SendEnv) (s : State) :
  0 <= consecutive_failures s ->
  request_count (after_sends es s) =
    request_count s + Z.of_nat (List.length es) /\
  0 <= consecutive_failures (after_sends es s)
    <= consecutive_failures s + Z.of_nat (List.length es).
Proof.
  intros Hcf. induction es as [|e es IH] using rev_ind.
  - cbn. lia.
  - rewrite after_sends_snoc, length_app. cbn [List.length].
    destruct (send_fields e (after_sends es s))
      as (_ & _ & _ & _ & _ & Hr & Hc & _).
    lia.
Qed.

(** X14: every send is counted, whatever its outcome; the consecutive
    failures are never negative and never more than the sends; they are 0
    after a send exactly when that send was answered with status 200 and a
    body that parses, and the reported health is good exactly when they
    are 0. *)
Theorem sends_are_counted (es : list SendEnv) (e : SendEnv) (s : State)
    (now : Z) :
  0 <= consecutive_failures s ->
  let s' := after_sends (es ++ [e]) s in
  request_count s' = request_count s + Z.of_nat (List.length es) + 1 /\
  0 <= consecutive_failures s'
    <= consecutive_failures s + Z.of_nat (List.length es) + 1 /\
  (consecutive_failures s' = 0 <-> succeeded e) /\
  (ai_server_health (get_status now s') = "good"%string <->
   consecutive_failures s' = 0) /\
  (ai_server_health (get_status now s') = "critical"%string <->
   3 <= consecutive_failures s').
Proof.
  intros Hcf s'.
  destruct (sends_counters (es ++ [e]) s Hcf) as [Hr Hb].
  rewrite length_app in Hr, Hb. cbn [List.length] in Hr, Hb.
  fold s' in Hr, Hb.
  split; [lia|]. split; [lia|]. split; [|split].
  - subst s'. rewrite after_sends_snoc.
    destruct (sends_counters es s Hcf) as [_ Hprev].
    destruct (send_fields e (after_sends es s))
      as (_ & _ & _ & _ & _ & _ & _ & _ & Hsucc).
    split.
    + intros H0. apply Hsucc; [exact H0|lia].
    + intros (r & Hpost). unfold send_to_ai_server. rewrite Hpost.
      reflexivity.
  - unfold get_status. cbn [ai_server_health].
    destruct (3 <=? consecutive_failures s') eqn:E3;
      [apply Z.leb_le in E3|apply Z.leb_gt in E3].
    + split; [discriminate|lia].
    + destruct (1 <=? consecutive_failures s') eqn:E1;
        [apply Z.leb_le in E1|apply Z.leb_gt in E1].
      * split; [discriminate|lia].
      * split; [lia|reflexivity].
  - unfold get_status. cbn [ai_server_health].
    destruct (3 <=? consecutive_failures s') eqn:E3;
      [apply Z.leb_le in E3|apply Z.leb_gt in E3].
    + split; [intros _; exact E3|reflexivity].
    + destruct (1 <=? consecutive_failures s');
        (split; [discriminate|lia]).
Qed.

End ClientMoreProps.

(** ** Properties of the dashboard's task *)

Module DashboardProps.
Import PyDict Dashboard ClientMore.

Lemma known_task (task : string) :
  mem task task_models = true <->
  task = "fire"%string \/ task = "leaves"%string.
Proof.
  unfold mem, task_models. cbn [get].
  destruct (String.eqb "fire" task) eqn:Ef.
  - apply String.eqb_eq in Ef. subst task. split; auto.
  - destruct (String.eqb "leaves" task) eqn:El.
    + apply String.eqb_eq in El. subst task. split; auto.
    + apply String.eqb_neq in Ef. apply String.eqb_neq in El.
      split; [discriminate|]. intros [H|H]; congruence.
Qed.

(** X15: a switch request whose task entry, if any, is a string is
    answered with 200 exactly when it names the task fire or leaves, and
    the task is then the named one; any other request leaves the task as
    it was. *)
Theorem switch_takes_known_tasks_only (body : SwitchBody) (d : State) :
  let d' := fst (api_switch_task body d) in
  let r := snd (api_switch_task body d) in
  (switch_status r = 200 <->
   exists task,
     body = Some (Some task) /\
     (task = "fire"%string \/ task = "leaves"%string)) /\
  (forall task, body = Some (Some task) -> switch_status r = 200 ->
                current_task d' = task) /\
  (switch_status r <> 200 -> d' = d).
Proof.
  unfold api_switch_task.
  destruct body as [[[|c task]|]|]; cbn.
  - split; [|split]; auto.
    + split; [discriminate|]. intros (t & H & [Ht|Ht]); inversion H; subst t;
        discriminate.
    + intros task _ H. discriminate.
  - unfold set_current_task.
    destruct (mem (String c task) task_models) eqn:E; cbn.
    + split; [|split].
      * split; [|reflexivity]. intros _. exists (String c task).
        split; [reflexivity|]. apply known_task. exact E.
      * intros t H _. inversion H. reflexivity.
      * intros H. contradiction H. reflexivity.
    + split; [|split].
      * split; [discriminate|]. intros (t & H & Ht). inversion H. subst t.
        apply known_task in Ht. congruence.
      * intros t _ H. discriminate.
      * reflexivity.
  - split; [|split]; auto.
    + split; [discriminate|]. intros (t & H & _). discriminate.
    + intros task H. discriminate.
  - split; [|split]; auto.
    + split; [discriminate|]. intros (t & H & _). discriminate.
    + intros task H. discriminate.
Qed.

Lemma switches_keep_known_task (bodies : list SwitchBody) : forall d,
  mem (current_task d) task_models = true ->
  mem (current_task (serve_switches bodies d)) task_models = true.
Proof.
  induction bodies as [|b bodies IH]; intros d Hd.
  - exact Hd.
  - cbn [serve_switches fold_left]. apply IH.
    unfold api_switch_task.
    destruct b as [[[|c task]|]|]; cbn; try exact Hd.
    unfold set_current_task.
    destruct (mem (String c task) task_models) eqn:E; cbn; assumption.
Qed.

(** X16: whatever switch requests the dashboard has served since its
    start, its task is fire or leaves; the client that asks for the task
    gets that task and asks the worker for the very model the dashboard
    names for it, which is one of the two task models and never the
    fallback name. *)
Theorem dashboard_task_is_known (bodies : list SwitchBody) :
  let d := serve_switches bodies init in
  let task := get_current_task_from_dashboard
                (TaskResponded 200 (Some (Some (fst (api_current_task d))))) in
  (current_task d = "fire"%string \/ current_task d = "leaves"%string) /\
  task = current_task d /\
  Client.model_for_task task = snd (api_current_task d) /\
  (Client.model_for_task task = "fire_detection_final"%string \/
   Client.model_for_task task = "yellow-leaves-best"%string).
Proof.
  intros d task.
  assert (Hk : current_task d = "fire"%string \/
               current_task d = "leaves"%string).
  { apply known_task. apply switches_keep_known_task. reflexivity. }
  assert (Ht : task = current_task d) by reflexivity.
  split; [exact Hk|]. split; [exact Ht|]. rewrite Ht.
  unfold api_current_task, get_current_model. cbn [snd].
  destruct Hk as [-> | ->]; cbn; auto.
Qed.

(** X17: the client works on the task fire whenever the dashboard does
    not answer its question with status 200 and a body that parses and
    names a task. *)
Theorem task_falls_back_to_fire (o : TaskOutcome) :
  (forall task, o <> TaskResponded 200 (Some (Some task))) ->
  get_current_task_from_dashboard o = "fire"%string.
Proof.
  intros H. destruct o as [status [[task|]|]|]; cbn; try reflexivity.
  - destruct (status =? 200) eqn:E; [|reflexivity].
    apply Z.eqb_eq in E. subst status. contradiction (H task). reflexivity.
  - destruct (status =? 200); reflexivity.
Qed.

End DashboardProps.

(** ** Properties of the launcher *)

Module LauncherProps.
Import Supervisor Launcher MoreSpec SupervisorProps.

Lemma await_ready (e : StartEnv) (p : Proc) (left : nat) :
  forall attempt p',
    fst (await_server e p attempt left) = Some p' <->
    p' = p /\
    exists i,
      (attempt <= i < attempt + left)%nat /\
      answer e i = Ready /\
      forall j, (attempt <= j <= i)%nat -> died e j = false.
Proof.
  induction left as [|left IH]; intros attempt p'.
  - cbn. split; [discriminate|]. intros (_ & i & Hi & _). lia.
  - cbn [await_server].
    destruct (died e attempt) eqn:Ed.
    + cbn. split; [discriminate|].
      intros (_ & i & Hi & _ & Halive).
      rewrite Halive in Ed by lia. discriminate.
    + destruct (answer e attempt) eqn:Ea.
      * cbn. split.
        -- intros H. inversion H. split; [reflexivity|].
           exists attempt. split; [lia|]. split; [exact Ea|].
           intros j Hj. assert (j = attempt) by lia. subst j. exact Ed.
        -- intros [-> _]. reflexivity.
      * specialize (IH (S attempt) p').
        destruct (await_server e p (S attempt) left) as [r events].
        cbn [fst] in IH |- *. rewrite IH. split.
        -- intros (-> & i & Hi & Hr & Halive). split; [reflexivity|].
           exists i. split; [lia|]. split; [exact Hr|].
           intros j Hj. destruct (Nat.eq_dec j attempt) as [->|Hne];
             [exact Ed|apply Halive; lia].
        -- intros (-> & i & Hi & Hr & Halive). split; [reflexivity|].
           exists i. split; [|split; [exact Hr|intros j Hj; apply Halive; lia]].
           destruct (Nat.eq_dec i attempt) as [->|Hne]; [congruence|lia].
      * specialize (IH (S attempt) p').
        destruct (await_server e p (S attempt) left) as [r events].
        cbn [fst] in IH |- *. rewrite IH. split.
        -- intros (-> & i & Hi & Hr & Halive). split; [reflexivity|].
           exists i. split; [lia|]. split; [exact Hr|].
           intros j Hj. destruct (Nat.eq_dec j attempt) as [->|Hne];
             [exact Ed|apply Halive; lia].
        -- intros (-> & i & Hi & Hr & Halive). split; [reflexivity|].
           exists i. split; [|split; [exact Hr|intros j Hj; apply Halive; lia]].
           destruct (Nat.eq_dec i attempt) as [->|Hne]; [congruence|lia].
      * specialize (IH (S attempt) p').
        destruct (await_server e p (S attempt) left) as [r events].
        cbn [fst] in IH |- *. rewrite IH. split.
        -- intros (-> & i & Hi & Hr & Halive). split; [reflexivity|].
           exists i. split; [lia|]. split; [exact Hr|].
           intros j Hj. destruct (Nat.eq_dec j attempt) as [->|Hne];
             [exact Ed|apply Halive; lia].
        -- intros (-> & i & Hi & Hr & Halive). split; [reflexivity|].
           exists i. split; [|split; [exact Hr|intros j Hj; apply Halive; lia]].
           destruct (Nat.eq_dec i attempt) as [->|Hne]; [congruence|lia].
Qed.

(** X18: [start_ai_server] hands back a worker exactly when one of its 30
    probes is answered with status 200 and the process has not exited by
    then; the worker it hands back is the process it started. *)
Theorem started_worker_has_answered (e : StartEnv) (p p' : Proc) :
  fst (start_ai_server e p) = Some p' <->
  p' = p /\
  exists i,
    (i < 30)%nat /\ answer e i = Ready /\
    forall j, (j <= i)%nat -> died e j = false.
Proof.
  unfold start_ai_server. rewrite await_ready. split.
  - intros (-> & i & Hi & Hr & Ha). split; [reflexivity|].
    exists i. split; [lia|]. split; [exact Hr|]. intros j Hj. apply Ha. lia.
  - intros (-> & i & Hi & Hr & Ha). split; [reflexivity|].
    exists i. split; [lia|]. split; [exact Hr|]. intros j Hj. apply Ha. lia.
Qed.

Lemma every_fifth_says (attempt : nat) (line : string) :
  count_if is_wait (every_fifth attempt line) = 0 /\
  forall v, In v (every_fifth attempt line) -> exists l n, v = Say l n.
Proof.
  unfold every_fifth. destruct (Nat.eqb (attempt mod 5) 0); split;
    try reflexivity.
  - intros v [<-|[]]. eauto.
  - intros v [].
Qed.

Lemma await_events (e : StartEnv) (p : Proc) (left : nat) :
  forall attempt,
    let events := snd (await_server e p attempt left) in
    count_if is_wait events <= Z.of_nat left /\
    (forall q, ~ In (Kill q) events) /\
    (forall q,
        In (Terminate q) events <->
        q = p /\
        forall i, (attempt <= i < attempt + left)%nat ->
                  died e i = false /\ answer e i <> Ready).
Proof.
  induction left as [|left IH]; intros attempt.
  - cbn. split; [reflexivity|]. split.
    + intros q [H|[H|[]]]; discriminate.
    + intros q. split.
      * intros [H|[H|[]]]; [discriminate|]. inversion H.
        split; [reflexivity|]. intros i Hi. lia.
      * intros [-> _]. right. left. reflexivity.
  - cbn [await_server].
    destruct (died e attempt) eqn:Ed.
    + cbn. split; [unfold count_if; cbn; lia|]. split.
      * intros q [H|[H|[]]]; discriminate.
      * intros q. split.
        -- intros [H|[H|[]]]; discriminate.
        -- intros [_ H]. destruct (H attempt ltac:(lia)). congruence.
    + assert (Hstep :
        forall msgs,
          count_if is_wait msgs = 0 ->
          (forall v, In v msgs -> exists l n, v = Say l n) ->
          answer e attempt <> Ready ->
          let events :=
            Wait 1 :: msgs ++ snd (await_server e p (S attempt) left) in
          count_if is_wait events <= Z.of_nat (S left) /\
          (forall q, ~ In (Kill q) events) /\
          (forall q,
              In (Terminate q) events <->
              q = p /\
              forall i, (attempt <= i < attempt + S left)%nat ->
                        died e i = false /\ answer e i <> Ready)).
      { intros msgs Hm0 Hsay Hnr events.
        destruct (IH (S attempt)) as (Hw & Hk & Ht).
        subst events. split; [|split].
        - change (Wait 1 :: msgs ++ snd (await_server e p (S attempt) left))
            with ([Wait 1] ++ msgs ++ snd (await_server e p (S attempt) left)).
          rewrite !count_if_app, Hm0.
          change (count_if is_wait [Wait 1]) with 1. lia.
        - intros q [H|H]; [discriminate|].
          apply in_app_or in H as [H|H].
          + destruct (Hsay _ H) as (l & n & E). discriminate.
          + exact (Hk q H).
        - intros q. split.
          + intros [H|H]; [discriminate|].
            apply in_app_or in H as [H|H].
            * destruct (Hsay _ H) as (l & n & E). discriminate.
            * apply Ht in H as [-> Hall]. split; [reflexivity|].
              intros i Hi. destruct (Nat.eq_dec i attempt) as [->|Hne].
              -- split; assumption.
              -- apply Hall. lia.
          + intros [-> Hall]. right. apply in_or_app. right.
            apply Ht. split; [reflexivity|]. intros i Hi. apply Hall. lia. }
      destruct (answer e attempt) as [|status| |] eqn:Ea.
      * cbn. split; [unfold count_if; cbn; lia|]. split.
        -- intros q [H|[H|[]]]; discriminate.
        -- intros q. split.
           ++ intros [H|[H|[]]]; discriminate.
           ++ intros [_ H]. destruct (H attempt ltac:(lia)). congruence.
      * destruct (await_server e p (S attempt) left) as [r events] eqn:Er.
        cbn [snd] in Hstep |- *.
        apply (Hstep [Say "not ready" (attempt + 1)]).
        -- reflexivity.
        -- intros v [<-|[]]. eauto.
        -- discriminate.
      * destruct (await_server e p (S attempt) left) as [r events] eqn:Er.
        cbn [snd] in Hstep |- *.
        apply (Hstep (every_fifth attempt "waiting to bind"));
          try apply every_fifth_says. discriminate.
      * destruct (await_server e p (S attempt) left) as [r events] eqn:Er.
        cbn [snd] in Hstep |- *.
        apply (Hstep (every_fifth attempt "connection attempt failed"));
          try apply every_fifth_says. discriminate.
Qed.

(** X19: [start_ai_server] sleeps one second at most 30 times and never
    kills; it terminates the process it started exactly when none of the
    30 attempts found the process dead or the worker ready, and then hands
    back no worker. *)
Theorem start_gives_up_by_terminating (e : StartEnv) (p : Proc) :
  let events := snd (start_ai_server e p) in
  count_if is_wait events <= 30 /\
  (forall q, ~ In (Kill q) events) /\
  (forall q, In (Terminate q) events <-> q = p /\ never_ready e) /\
  (never_ready e -> fst (start_ai_server e p) = None).
Proof.
  unfold start_ai_server.
  destruct (await_events e p 30 0) as (Hw & Hk & Ht).
  split; [exact Hw|]. split; [exact Hk|]. split.
  - intros q. rewrite Ht. unfold never_ready. split.
    + intros [-> H]. split; [reflexivity|]. intros i Hi. apply H. lia.
    + intros [-> H]. split; [reflexivity|]. intros i Hi. apply H. lia.
  - intros Hnever.
    destruct (fst (await_server e p 0 30)) as [p'|] eqn:E; [|reflexivity].
    apply await_ready in E as (_ & i & Hi & Hr & _).
    destruct (Hnever i ltac:(lia)). congruence.
Qed.

(** *** Shutting down *)

Lemma stop_process_signals (e : Env) (name : string) (q p : Proc) :
  (In (Terminate p) (stop_process e (name, q)) <->
   p = q /\ exited e q = false) /\
  (In (Kill p) (stop_process e (name, q)) <->
   p = q /\ exited e q = false /\ graceful e q = false) /\
  (In (Kill p) (stop_process e (name, q)) ->
   stop_process e (name, q) = [Stopping name; Terminate p; Kill p]).
Proof.
  unfold stop_process. cbn [fst snd].
  destruct (exited e q); [|destruct (graceful e q)]; cbn.
  - split; [|split].
    + split; [intros []|intros [_ H]; discriminate].
    + split; [intros []|intros (_ & H & _); discriminate].
    + intros [].
  - split; [|split].
    + split.
      * intros [H|[H|[]]]; [discriminate|]. inversion H. auto.
      * intros [-> _]. auto.
    + split.
      * intros [H|[H|[]]]; discriminate.
      * intros (_ & _ & H). discriminate.
    + intros [H|[H|[]]]; discriminate.
  - split; [|split].
    + split.
      * intros [H|[H|[H|[]]]]; try discriminate. inversion H. auto.
      * intros [-> _]. auto.
    + split.
      * intros [H|[H|[H|[]]]]; try discriminate. inversion H. auto.
      * intros (-> & _). auto.
    + intros [H|[H|[H|[]]]]; try discriminate. inversion H. reflexivity.
Qed.

(** X20: [shutdown_system] empties the process list; it asks exactly the
    processes that still run to terminate, kills exactly those of them
    that are not gone within the wait, each right after its terminate, and
    sends nothing to a process that has exited. *)
Theorem shutdown_stops_what_runs (e : Env) (s : State) :
  let s' := fst (shutdown_system e s) in
  let events := snd (shutdown_system e s) in
  processes s' = [] /\
  (forall p,
      In (Terminate p) events <->
      exists name, In (name, p) (processes s) /\ exited e p = false) /\
  (forall p,
      In (Kill p) events <->
      exists name,
        In (name, p) (processes s) /\ exited e p = false /\
        graceful e p = false) /\
  (forall p,
      In (Kill p) events ->
      exists before after,
        events = before ++ Terminate p :: Kill p :: after).
Proof.
  unfold shutdown_system. cbn [fst snd processes].
  split; [reflexivity|].
  induction (processes s) as [|[name q] ps (IHt & IHk & IHo)].
  - cbn. split; [|split].
    + intros p. split; [intros []|intros (n & [] & _)].
    + intros p. split; [intros []|intros (n & [] & _)].
    + intros p [].
  - cbn [flat_map]. split; [|split].
    + intros p.
      destruct (stop_process_signals e name q p) as (Ht & _ & _).
      rewrite in_app_iff, IHt, Ht. split.
      * intros [[-> Hx]|(n & Hn & Hx)].
        -- exists name. split; [now left|exact Hx].
        -- exists n. split; [now right|exact Hx].
      * intros (n & [Hn|Hn] & Hx).
        -- inversion Hn. subst q n. left. auto.
        -- right. exists n. auto.
    + intros p.
      destruct (stop_process_signals e name q p) as (_ & Hk & _).
      rewrite in_app_iff, IHk, Hk. split.
      * intros [(-> & Hx)|(n & Hn & Hx)].
        -- exists name. split; [now left|exact Hx].
        -- exists n. split; [now right|exact Hx].
      * intros (n & [Hn|Hn] & Hx).
        -- inversion Hn. subst q n. left. auto.
        -- right. exists n. auto.
    + intros p H.
      destruct (stop_process_signals e name q p) as (_ & _ & Ho).
      apply in_app_or in H as [H|H].
      * rewrite (Ho H). exists [Stopping name], (flat_map (stop_process e) ps).
        reflexivity.
      * destruct (IHo p H) as (before & after & E). rewrite E.
        exists (stop_process e (name, q) ++ before), after.
        rewrite <- app_assoc. reflexivity.
Qed.

End LauncherProps.

(** ** More properties of the process monitor *)

Module SupervisorMore.
Import Supervisor SupervisorSpec SupervisorProps MoreSpec.

(** *** What a pass keeps *)

Lemma without_ai_app (a b : list (string * Proc)) :
  without_ai_server (a ++ b) = without_ai_server a ++ without_ai_server b.
Proof. unfold without_ai_server. apply filter_app. Qed.

Lemma without_ai_idem (ps : list (string * Proc)) :
  without_ai_server (without_ai_server ps) = without_ai_server ps.
Proof.
  unfold without_ai_server. induction ps as [|[name p] ps IH].
  - reflexivity.
  - cbn [filter fst]. destruct (is_ai_server name) eqn:E; cbn [negb].
    + exact IH.
    + cbn [filter fst]. rewrite E. cbn [negb]. now rewrite IH.
Qed.

Lemma no_ai_in_others (ps : list (string * Proc)) :
  ai_servers (without_ai_server ps) = [].
Proof.
  unfold ai_servers, without_ai_server.
  induction ps as [|[name p] ps IH].
  - reflexivity.
  - cbn [filter fst]. destruct (is_ai_server name) eqn:E; cbn [negb].
    + exact IH.
    + cbn [filter fst]. rewrite E. exact IH.
Qed.

Lemma ai_servers_app (a b : list (string * Proc)) :
  ai_servers (a ++ b) = ai_servers a ++ ai_servers b.
Proof. unfold ai_servers. apply filter_app. Qed.

Lemma stopped_are_ai_servers (e : Env) (ps : list (string * Proc))
    (p : Proc) :
  stops p (stop_ai_servers e ps) ->
  exists np, In np (ai_servers ps) /\ snd np = p.
Proof.
  unfold stops, stop_ai_servers, ai_servers.
  induction ps as [|[name q] ps IH].
  - intros [[]|[]].
  - cbn [flat_map filter fst snd].
    destruct (is_ai_server name) eqn:E.
    + intros [H|H].
      * destruct H as [H|H].
        -- inversion H. subst q. exists (name, p).
           split; [now left|reflexivity].
        -- apply in_app_or in H as [H|H].
           ++ destruct (graceful e q); [destruct H|].
              destruct H as [H|[]]. discriminate.
           ++ destruct IH as (np & Hnp & Hs); [now left|].
              exists np. split; [now right|exact Hs].
      * destruct H as [H|H]; [discriminate|].
        apply in_app_or in H as [H|H].
        -- destruct (graceful e q); [destruct H|].
           destruct H as [H|[]]. inversion H. subst q.
           exists (name, p). split; [now left|reflexivity].
        -- destruct IH as (np & Hnp & Hs); [now right|].
           exists np. split; [now right|exact Hs].
    + cbn [app]. intros H. apply IH. exact H.
Qed.

Lemma prints_stop_nothing (msgs : list Action) (p : Proc) :
  forallb is_print msgs = true -> ~ stops p msgs.
Proof.
  intros Hm [H|H];
    (assert (Hp : is_print _ = true)
       by (eapply forallb_forall in Hm; [exact Hm|exact H]);
     discriminate).
Qed.

Lemma stops_app (p : Proc) (a b : list Action) :
  stops p (a ++ b) <-> stops p a \/ stops p b.
Proof. unfold stops. rewrite !in_app_iff. tauto. Qed.

(** A step that leaves the list alone and only prints keeps a scan tidy. *)
Lemma tidy_prints (e : Env) (ps0 : list (string * Proc)) (a a' : Scan)
    (msgs : list Action) :
  tidy e ps0 a ->
  sc_processes a' = sc_processes a ->
  sc_actions a' = sc_actions a ++ msgs ->
  forallb is_print msgs = true ->
  tidy e ps0 a'.
Proof.
  intros (H1 & H2 & H3 & H4) Hp Ha Hm. unfold tidy. rewrite Hp, Ha.
  repeat split; auto.
  intros p Hs. apply stops_app in Hs as [Hs|Hs]; [auto|].
  exfalso. exact (prints_stop_nothing _ _ Hm Hs).
Qed.

(** A step that replaces the workers of the list by at most one started
    worker, stopping none but workers of the list, keeps a scan tidy. *)
Lemma tidy_replaced (e : Env) (ps0 : list (string * Proc)) (a a' : Scan)
    (new : list Action) (started : option Proc) (k : nat) :
  tidy e ps0 a ->
  spawn e k = started ->
  sc_processes a' =
    without_ai_server (sc_processes a) ++
    match started with
    | Some p' => [("AI Server"%string, p')]
    | None => []
    end ->
  sc_actions a' = sc_actions a ++ new ->
  (forall p, stops p new ->
             exists np, In np (ai_servers (sc_processes a)) /\ snd np = p) ->
  tidy e ps0 a'.
Proof.
  intros (H1 & H2 & H3 & H4) Hk Hp Ha Hnew. unfold tidy. rewrite Hp, Ha.
  rewrite without_ai_app, without_ai_idem, ai_servers_app, no_ai_in_others.
  split; [|split; [|split]].
  - rewrite H1. destruct started; cbn; apply app_nil_r.
  - intros np Hin. destruct started as [p'|]; cbn in Hin; [|destruct Hin].
    destruct Hin as [<-|[]]. right. exists k. exact Hk.
  - intros _. destruct started; cbn; lia.
  - intros p Hs. apply stops_app in Hs as [Hs|Hs]; [auto|].
    destruct (Hnew p Hs) as (np & Hin & <-). apply H2. exact Hin.
Qed.

Lemma check_process_tidy (e : Env) (ps0 : list (string * Proc)) (a : Scan)
    (np : string * Proc) :
  tidy e ps0 a -> tidy e ps0 (check_process e a np).
Proof.
  intros Ht. destruct np as [name p]. unfold check_process.
  destruct (exited e p); cbn [negb].
  - set (a1 := {| sc_processes := sc_processes a;
                  sc_count := sc_count a;
                  sc_running := sc_running a;
                  sc_responsive := sc_responsive a;
                  sc_spawned := sc_spawned a;
                  sc_actions :=
                    sc_actions a ++ [Print (ProcessStopped name)] |}).
    assert (Ht1 : tidy e ps0 a1)
      by (eapply tidy_prints with (msgs := [Print (ProcessStopped name)]);
          [exact Ht|reflexivity|reflexivity|reflexivity]).
    destruct (is_ai_server name && _)%bool; [|exact Ht1].
    unfold restart_dead.
    destruct (spawn e (sc_spawned a1)) as [p'|] eqn:Es.
    + eapply tidy_replaced with (started := Some p'); try exact Ht1;
        try exact Es; try reflexivity.
      intros q [H|H]; cbn in H;
        repeat (destruct H as [H|H]; [discriminate|]); destruct H.
    + eapply tidy_replaced with (started := None); try exact Ht1;
        try exact Es; try (cbn; rewrite app_nil_r; reflexivity);
        try reflexivity.
      intros q [H|H]; cbn in H;
        repeat (destruct H as [H|H]; [discriminate|]); destruct H.
  - set (a1 := {| sc_processes := sc_processes a;
                  sc_count := sc_count a;
                  sc_running := sc_running a ++ [name];
                  sc_responsive := sc_responsive a;
                  sc_spawned := sc_spawned a;
                  sc_actions := sc_actions a |}).
    assert (Ht1 : tidy e ps0 a1)
      by (eapply tidy_prints with (msgs := []);
          [exact Ht|reflexivity|cbn; now rewrite app_nil_r|reflexivity]).
    destruct (is_ai_server name); [|exact Ht1].
    unfold probe_ai_server.
    destruct (probe e p) as [[rc|]|code|].
    + eapply tidy_prints; [exact Ht1|reflexivity|reflexivity|].
      destruct (220 <? rc); [destruct (240 <? rc)|]; reflexivity.
    + eapply tidy_prints with (msgs := [Print NotResponding]);
        [exact Ht1|reflexivity|reflexivity|reflexivity].
    + eapply tidy_prints with (msgs := [Print (NotHealthy code)]);
        [exact Ht1|reflexivity|reflexivity|reflexivity].
    + eapply tidy_prints with (msgs := [Print NotResponding]);
        [exact Ht1|reflexivity|reflexivity|reflexivity].
Qed.

Lemma scan_tidy (e : Env) (ps0 ps : list (string * Proc)) : forall a,
  tidy e ps0 a -> tidy e ps0 (fold_left (check_process e) ps a).
Proof.
  induction ps as [|np ps IH]; intros a Ht; cbn [fold_left].
  - exact Ht.
  - apply IH. apply check_process_tidy. exact Ht.
Qed.

Lemma force_restart_tidy (e : Env) (ps0 : list (string * Proc)) (a : Scan) :
  tidy e ps0 a -> tidy e ps0 (force_restart e a).
Proof.
  intros Ht. unfold force_restart.
  assert (Hstops : forall started tail q,
             forallb is_print tail = true ->
             stops q (([Print ForcingRestart] ++
                       stop_ai_servers e (sc_processes a) ++
                       [Sleep 2; StartAiServer started]) ++ tail) ->
             exists np, In np (ai_servers (sc_processes a)) /\ snd np = q).
  { intros started tail q Htail Hs.
    apply stops_app in Hs as [Hs|Hs];
      [|exfalso; exact (prints_stop_nothing _ _ Htail Hs)].
    apply stops_app in Hs as [Hs|Hs].
    - destruct Hs as [[H|[]]|[H|[]]]; discriminate.
    - apply stops_app in Hs as [Hs|Hs].
      + apply stopped_are_ai_servers with (e := e). exact Hs.
      + destruct Hs as [[H|[H|[]]]|[H|[H|[]]]]; discriminate. }
  destruct (spawn e (sc_spawned a)) as [p'|] eqn:Es.
  - eapply tidy_replaced with (started := Some p'); try exact Ht;
      try exact Es; try reflexivity.
    intros q. apply Hstops. reflexivity.
  - eapply tidy_replaced with (started := None); try exact Ht;
      try exact Es; try (cbn; rewrite app_nil_r; reflexivity);
      try reflexivity.
    intros q. apply Hstops. reflexivity.
Qed.

Lemma pass_tidy (e : Env) (s : State) :
  without_ai_server (processes (fst (monitor_pass e s))) =
    without_ai_server (processes s) /\
  ((List.length (ai_servers (processes s)) <= 1)%nat ->
   (List.length (ai_servers (processes (fst (monitor_pass e s)))) <= 1)%nat) /\
  (forall p, stops p (snd (monitor_pass e s)) ->
             known_worker e (processes s) p).
Proof.
  unfold monitor_pass.
  set (a0 := {| sc_processes := processes s;
                sc_count := ai_server_restart_count s;
                sc_running := [];
                sc_responsive := false;
                sc_spawned := 0%nat;
                sc_actions := [Sleep 10] |}).
  assert (H0 : tidy e (processes s) a0).
  { unfold tidy. cbn. repeat split; auto.
    - intros np Hin. left. exists np. auto.
    - intros p [[H|[]]|[H|[]]]; discriminate. }
  set (a1 := fold_left (check_process e) (processes s) a0).
  assert (H1 : tidy e (processes s) a1) by (apply scan_tidy; exact H0).
  set (a2 := if negb _ then _ else a1).
  assert (H2 : tidy e (processes s) a2).
  { subst a2. destruct (negb _); [|exact H1].
    eapply tidy_prints
      with (msgs := [Print (RunningProcesses (sc_running a1))]);
      [exact H1|reflexivity|reflexivity|reflexivity]. }
  set (a3 := if (_ && _ && _)%bool then force_restart e a2 else a2).
  assert (H3 : tidy e (processes s) a3).
  { subst a3. destruct (_ && _ && _)%bool; [|exact H2].
    apply force_restart_tidy. exact H2. }
  destruct H3 as (Hw & _ & Hone & Hst). cbn [fst snd processes].
  split; [exact Hw|]. split; [exact Hone|exact Hst].
Qed.

Lemma run_tidy (es : list Env) : forall s,
  without_ai_server (processes (fst (monitor_loop es s))) =
    without_ai_server (processes s) /\
  ((List.length (ai_servers (processes s)) <= 1)%nat ->
   (List.length (ai_servers (processes (fst (monitor_loop es s)))) <= 1)%nat).
Proof.
  induction es as [|e es IH]; intros s.
  - cbn. auto.
  - cbn [monitor_loop]. destruct (pass_tidy e s) as (Hw & Hone & _).
    destruct (monitor_pass e s) as [s1 acts]. cbn [fst] in Hw, Hone.
    destruct (IH s1) as [Hw' Hone'].
    destruct (monitor_loop es s1) as [s2 more]. cbn [fst] in *.
    split; [congruence|auto].
Qed.

(** X21: whatever happens in the passes of the monitor after a launch,
    the process list holds at most one worker, and the other processes of
    the launch, the dashboard among them, stay in it in their order: the
    monitor neither removes nor restarts them. *)
Theorem monitor_keeps_the_other_processes
    (ai dashboard simulator : option Proc) (ps : list (string * Proc))
    (es : list Env) :
  Launcher.launch ai dashboard simulator = Some ps ->
  let s' := fst (monitor_loop es (init ps)) in
  (List.length (ai_servers (processes s')) <= 1)%nat /\
  without_ai_server (processes s') = without_ai_server ps /\
  (forall d, dashboard = Some d ->
             In ("Dashboard"%string, d) (processes s')).
Proof.
  intros Hl. unfold Launcher.launch in Hl.
  destruct ai as [a|]; [|discriminate].
  destruct dashboard as [d|]; [|discriminate].
  injection Hl as <-. intros s'.
  destruct (run_tidy es (init (("AI Server"%string, a) ::
                               ("Dashboard"%string, d) ::
                               match simulator with
                               | Some c => [("ESP32-CAM Simulator"%string, c)]
                               | None => []
                               end))) as [Hw Hone].
  fold s' in Hw, Hone. cbn [init processes] in Hw, Hone.
  split; [|split].
  - apply Hone. destruct simulator; cbn; lia.
  - exact Hw.
  - intros d' Hd. inversion Hd. subst d'.
    assert (Hin : In ("Dashboard"%string, d) (processes s')).
    { enough (H : In ("Dashboard"%string, d)
                    (without_ai_server (processes s'))).
      { unfold without_ai_server in H. apply filter_In in H. tauto. }
      rewrite Hw. destruct simulator; cbn; auto. }
    exact Hin.
Qed.

(** X22: in a pass the monitor sends terminate and kill to workers only:
    to a worker of the list the pass started with, or to one that a start
    of the pass returned. *)
Theorem monitor_signals_workers_only (e : Env) (s : State) (p : Proc) :
  stops p (snd (monitor_pass e s)) ->
  known_worker e (processes s) p.
Proof. intros H. exact (proj2 (proj2 (pass_tidy e s)) p H). Qed.

(** *** The pass over a healthy system *)

Lemma scan_healthy (e : Env) (ps : list (string * Proc)) : forall a,
  Forall (fun np => exited e (snd np) = false) ps ->
  Forall (fun np => is_ai_server (fst np) = true ->
                    answered (probe e (snd np)) = true) ps ->
  let a' := fold_left (check_process e) ps a in
  sc_processes a' = sc_processes a /\
  sc_count a' = sc_count a /\
  sc_spawned a' = sc_spawned a /\
  sc_responsive a' = (sc_responsive a || has_ai_server ps)%bool /\
  sc_running a' = sc_running a ++ map fst ps /\
  exists msgs,
    sc_actions a' = sc_actions a ++ msgs /\ forallb is_print msgs = true.
Proof.
  induction ps as [|[name p] ps IH]; intros a Hrun Hans.
  - cbn. rewrite app_nil_r, orb_false_r. repeat split; auto.
    exists []. rewrite app_nil_r. auto.
  - apply Forall_cons_iff in Hrun as [Hp Hrun].
    apply Forall_cons_iff in Hans as [Hu Hans]. cbn [fst snd] in Hp, Hu.
    cbn [fold_left].
    set (a1 := check_process e a (name, p)).
    assert (H1 : sc_processes a1 = sc_processes a /\
                 sc_count a1 = sc_count a /\
                 sc_spawned a1 = sc_spawned a /\
                 sc_responsive a1 =
                   (sc_responsive a || is_ai_server name)%bool /\
                 sc_running a1 = sc_running a ++ [name] /\
                 exists msgs, sc_actions a1 = sc_actions a ++ msgs /\
                              forallb is_print msgs = true).
    { subst a1. unfold check_process. rewrite Hp. cbn [negb].
      destruct (is_ai_server name).
      - specialize (Hu eq_refl). unfold probe_ai_server.
        destruct (probe e p) as [[rc|]|code|]; try discriminate.
        cbn. rewrite orb_true_r. repeat split; auto.
        eexists. split; [reflexivity|].
        destruct (220 <? rc); [destruct (240 <? rc)|]; reflexivity.
      - cbn. rewrite orb_false_r. repeat split; auto.
        exists []. rewrite app_nil_r. auto. }
    destruct H1 as (Hp1 & Hc1 & Hs1 & Hr1 & Hn1 & m1 & Ha1 & Hm1).
    destruct (IH a1 Hrun Hans)
      as (Hp2 & Hc2 & Hs2 & Hr2 & Hn2 & m2 & Ha2 & Hm2).
    split; [congruence|]. split; [congruence|]. split; [congruence|].
    split; [|split].
    + rewrite Hr2, Hr1. unfold has_ai_server. cbn [existsb fst].
      now rewrite orb_assoc.
    + rewrite Hn2, Hn1, <- app_assoc. reflexivity.
    + exists (m1 ++ m2).
      rewrite Ha2, Ha1, <- app_assoc, forallb_app, Hm1, Hm2. auto.
Qed.

(** X23: a pass that finds every process running and every probe of the
    worker answered leaves the monitor as it is: it starts nothing, stops
    nothing, and only sleeps and prints. *)
Theorem healthy_pass_changes_nothing (e : Env) (s : State) :
  Forall (fun np => exited e (snd np) = false) (processes s) ->
  Forall (fun np => is_ai_server (fst np) = true ->
                    answered (probe e (snd np)) = true) (processes s) ->
  fst (monitor_pass e s) = s /\
  exists msgs,
    snd (monitor_pass e s) = Sleep 10 :: msgs /\
    forallb is_print msgs = true.
Proof.
  intros Hrun Hans. unfold monitor_pass.
  set (a0 := {| sc_processes := processes s;
                sc_count := ai_server_restart_count s;
                sc_running := [];
                sc_responsive := false;
                sc_spawned := 0%nat;
                sc_actions := [Sleep 10] |}).
  destruct (scan_healthy e (processes s) a0 Hrun Hans)
    as (Hp & Hc & Hs & Hr & Hn & msgs & Ha & Hm).
  set (a1 := fold_left (check_process e) (processes s) a0) in *.
  cbn [sc_processes sc_count sc_spawned sc_running sc_actions
       sc_responsive a0 orb app] in Hp, Hc, Hs, Hn, Ha, Hr.
  assert (Hlen : Nat.eqb (List.length (sc_running a1))
                         (List.length (sc_processes a1)) = true).
  { rewrite Hn, Hp, length_map. apply Nat.eqb_refl. }
  rewrite Hlen. cbn [negb].
  rewrite Hp, (all_running e _ Hrun), Hr.
  destruct (has_ai_server (processes s)); cbn [negb andb fst snd].
  - split; [destruct s; cbn in *; congruence|].
    exists msgs. split; [exact Ha|exact Hm].
  - split; [destruct s; cbn in *; congruence|].
    exists msgs. split; [exact Ha|exact Hm].
Qed.

(** *** The pass that finds the worker dead *)

Lemma others_are_kept (l : list (string * Proc)) :
  Forall (fun np => is_ai_server (fst np) = false) l ->
  without_ai_server l = l /\ has_ai_server l = false.
Proof.
  unfold without_ai_server, has_ai_server.
  induction 1 as [|np l Hnp Hl [IH1 IH2]]; [split; reflexivity|].
  cbn [filter existsb]. rewrite Hnp. cbn [negb orb].
  rewrite IH1, IH2. split; reflexivity.
Qed.

Lemma force_restart_terminates (e : Env) (a : Scan) (np : string * Proc) :
  In np (ai_servers (sc_processes a)) ->
  In (Terminate (snd np)) (sc_actions (force_restart e a)).
Proof.
  intros Hin.
  assert (Hstop : In (Terminate (snd np)) (stop_ai_servers e (sc_processes a))).
  { unfold ai_servers in Hin. apply filter_In in Hin as [Hin Hai].
    unfold stop_ai_servers. apply in_flat_map. exists np.
    split; [exact Hin|]. rewrite Hai. now left. }
  unfold force_restart.
  destruct (spawn e (sc_spawned a)); cbn [sc_actions];
    apply in_or_app; right; apply in_or_app; left;
    apply in_or_app; right; apply in_or_app; left; exact Hstop.
Qed.

(** X24: a worker found dead while two restarts or more are left is
    started twice in the pass that finds it: the worker started first has
    not been probed when the check for a running but unresponsive worker
    follows, so it is terminated and replaced in turn, and the restart
    counter grows by 2. *)
Theorem dead_worker_is_replaced_twice (e : Env) (s : State)
    (l1 l2 : list (string * Proc)) (p p1 p2 : Proc) :
  processes s = l1 ++ ("AI Server"%string, p) :: l2 ->
  Forall (fun np => is_ai_server (fst np) = false) (l1 ++ l2) ->
  Forall (fun np => exited e (snd np) = false) (l1 ++ l2) ->
  exited e p = true ->
  ai_server_restart_count s + 1 < max_ai_server_restarts ->
  spawn e 0%nat = Some p1 ->
  spawn e 1%nat = Some p2 ->
  exited e p1 = false ->
  fst (monitor_pass e s) =
    {| processes := l1 ++ l2 ++ [("AI Server"%string, p2)];
       ai_server_restart_count := ai_server_restart_count s + 2 |} /\
  count_if is_successful_start (snd (monitor_pass e s)) = 2 /\
  In (Terminate p1) (snd (monitor_pass e s)).
Proof.
  intros Hps Hothers Hrun Hdead Hlt Hsp0 Hsp1 Halive.
  apply Forall_app in Hothers as [Ho1 Ho2].
  apply Forall_app in Hrun as [Hr1 Hr2].
  destruct (others_are_kept l1 Ho1) as [Hk1 Hh1].
  destruct (others_are_kept l2 Ho2) as [Hk2 Hh2].
  assert (Hv1 : Forall (fun np => is_ai_server (fst np) = true ->
                                  answered (probe e (snd np)) = true) l1).
  { eapply Forall_impl; [|exact Ho1]. cbn. intros np H H'. congruence. }
  assert (Hv2 : Forall (fun np => is_ai_server (fst np) = true ->
                                  answered (probe e (snd np)) = true) l2).
  { eapply Forall_impl; [|exact Ho2]. cbn. intros np H H'. congruence. }
  assert (Hkept : without_ai_server (processes s) = l1 ++ l2).
  { rewrite Hps, without_ai_app. cbn [without_ai_server filter fst].
    change (is_ai_server "AI Server") with true. cbn [negb].
    fold (without_ai_server l2). now rewrite Hk1, Hk2. }
  pose proof (pass_accounting e s) as Hacc.
  enough (Hmain :
    fst (monitor_pass e s) =
      {| processes := l1 ++ l2 ++ [("AI Server"%string, p2)];
         ai_server_restart_count := ai_server_restart_count s + 2 |} /\
    In (Terminate p1) (snd (monitor_pass e s))).
  { destruct Hmain as [Hs Hin]. split; [exact Hs|]. split; [|exact Hin].
    destruct Hacc as (Hc & _). cbv zeta in Hc. rewrite Hs in Hc.
    cbn [ai_server_restart_count] in Hc. lia. }
  clear Hacc.
  pose (a0 := {| sc_processes := processes s;
                 sc_count := ai_server_restart_count s;
                 sc_running := [];
                 sc_responsive := false;
                 sc_spawned := 0%nat;
                 sc_actions := [Sleep 10] |}).
  assert (Hscan : exists d,
            fold_left (check_process e) (processes s) a0 = d /\
            sc_processes d = l1 ++ l2 ++ [("AI Server"%string, p1)] /\
            sc_count d = ai_server_restart_count s + 1 /\
            sc_spawned d = 1%nat /\
            sc_responsive d = false /\
            sc_running d = map fst l1 ++ map fst l2).
  { eexists. split; [reflexivity|].
    rewrite Hps, fold_left_app. cbn [fold_left].
    destruct (scan_healthy e l1 a0 Hr1 Hv1)
      as (Hbp & Hbc & Hbs & Hbr & Hbn & _).
    cbn [a0 sc_processes sc_count sc_spawned sc_responsive sc_running
         orb app] in Hbp, Hbc, Hbs, Hbr, Hbn.
    set (b := fold_left (check_process e) l1 a0) in *.
    rewrite Hh1 in Hbr.
    set (c := check_process e b ("AI Server"%string, p)).
    assert (Hc : sc_processes c = l1 ++ l2 ++ [("AI Server"%string, p1)] /\
                 sc_count c = ai_server_restart_count s + 1 /\
                 sc_spawned c = 1%nat /\
                 sc_responsive c = false /\
                 sc_running c = map fst l1).
    { subst c. unfold check_process. rewrite Hdead. cbn [negb].
      change (is_ai_server "AI Server") with true. rewrite Hbc.
      assert (E : (ai_server_restart_count s <? max_ai_server_restarts)
                  = true) by (apply Z.ltb_lt; lia).
      rewrite E. cbn [andb]. unfold restart_dead.
      cbn [sc_spawned sc_processes sc_count sc_running sc_responsive].
      rewrite Hbs, Hsp0.
      cbn [sc_spawned sc_processes sc_count sc_running sc_responsive].
      rewrite Hbp, Hkept, Hbr, Hbn, <- app_assoc. auto. }
    destruct Hc as (Hcp & Hcc & Hcs & Hcr & Hcn).
    destruct (scan_healthy e l2 c Hr2 Hv2)
      as (Hdp & Hdc & Hds & Hdr & Hdn & _).
    rewrite Hcp in Hdp. rewrite Hcc in Hdc. rewrite Hcs in Hds.
    rewrite Hcr, Hh2 in Hdr. rewrite Hcn in Hdn. cbn [orb] in Hdr.
    auto. }
  destruct Hscan as (d & Hfold & Hdp & Hdc & Hds & Hdr & Hdn).
  unfold a0 in Hfold. clear a0.
  unfold monitor_pass. rewrite Hfold. clear Hfold.
  assert (Hlen : Nat.eqb (List.length (sc_running d))
                         (List.length (sc_processes d)) = false).
  { apply Nat.eqb_neq. rewrite Hdn, Hdp.
    rewrite !length_app, !length_map. cbn. lia. }
  rewrite Hlen. cbn [negb sc_processes sc_responsive sc_count].
  assert (Hrunning :
            ai_server_process_running e (sc_processes d) = true).
  { unfold ai_server_process_running. apply existsb_exists.
    exists ("AI Server"%string, p1). split; [|reflexivity].
    apply filter_In. split.
    - rewrite Hdp. apply in_or_app. right. apply in_or_app. right. now left.
    - cbn. now rewrite Halive. }
  rewrite Hrunning, Hdr, Hdc.
  assert (E : (ai_server_restart_count s + 1 <? max_ai_server_restarts)
              = true) by (apply Z.ltb_lt; exact Hlt).
  rewrite E. cbn [negb andb].
  set (a2 := {| sc_processes := sc_processes d;
                sc_count := sc_count d;
                sc_running := sc_running d;
                sc_responsive := sc_responsive d;
                sc_spawned := sc_spawned d;
                sc_actions :=
                  sc_actions d ++ [Print (RunningProcesses (sc_running d))] |}).
  split.
  - unfold force_restart. cbn [a2 sc_spawned sc_processes sc_count].
    rewrite Hds, Hsp1. cbn [fst sc_processes sc_count].
    rewrite Hdp.
    replace (without_ai_server (l1 ++ l2 ++ [("AI Server"%string, p1)]))
      with (l1 ++ l2).
    + rewrite <- app_assoc. f_equal. lia.
    + rewrite !without_ai_app, Hk1, Hk2. cbn [without_ai_server filter fst].
      change (is_ai_server "AI Server") with true. cbn [negb].
      now rewrite app_nil_r.
  - cbn [snd].
    change (Terminate p1) with (Terminate (snd ("AI Server"%string, p1))).
    apply force_restart_terminates.
    cbn [sc_processes]. rewrite Hdp, !ai_servers_app.
    apply in_or_app. right. apply in_or_app. right. now left.
Qed.

End SupervisorMore.

(** ** The further properties on concrete runs *)

Module WorkerMoreExamples.
Import PyStr PyDict Worker WorkerSpec WorkerStatus MoreSpec WorkerMore
       Fixtures MoreFixtures.


Lemma served_body_is_consistent_witness :
  exists body,
    response (detect (env_at healthy_disk) fire_request fresh) = Http200 body /\
    request_count BBox body = 1 /\
    detection_count BBox body = Z.of_nat (List.length (detections body)).
Proof.
  assert (H : exists body,
             response (detect (env_at healthy_disk) fire_request fresh)
             = Http200 body)
    by (vm_compute; eexists; reflexivity).
  destruct H as [body H]. exists body. split; [exact H|].
  destruct (served_body_is_consistent Model Image BBox open_image fst snd
              predict (env_at healthy_disk) fire_request fresh body H)
    as (Hn & Hc & _).
  split; [exact Hn|exact Hc].
Defined.

Lemma status_names_next_cleanup_witness :
  nth_error (run (repeat one_call 20) fresh) 19 = Some twentieth /\
  next_cleanup_at (memory_info (get_status 0 fresh)) = 20 /\
  cleanup (maintenance twentieth) = true.
Proof.
  assert (H : nth_error (run (repeat one_call 20) fresh) 19 = Some twentieth)
    by (vm_compute; reflexivity).
  split; [exact H|]. split; [reflexivity|].
  destruct (status_names_next_cleanup Model Image BBox open_image fst snd
              predict (repeat one_call 20) fresh 19 twentieth 0 H)
    as (_ & _ & _ & Hc).
  apply Hc; reflexivity.
Defined.

Lemma status_names_next_reload_witness :
  nth_error (run (repeat one_call 20) fresh) 19 = Some twentieth /\
  next_model_reload_at (memory_info (get_status 0 fresh)) = 100 /\
  reload_ran twentieth <> true.
Proof.
  assert (H : nth_error (run (repeat one_call 20) fresh) 19 = Some twentieth)
    by (vm_compute; reflexivity).
  split; [exact H|]. split; [reflexivity|].
  intros Hran.
  assert (Hlt : requests_since_model_reload
                  (memory_info (get_status 0 fresh)) < 100) by reflexivity.
  assert (Hle : request_counter fresh + Z.of_nat 19 + 1
                <= next_model_reload_at (memory_info (get_status 0 fresh)))
    by (vm_compute; discriminate).
  pose proof (proj1 (status_names_next_reload Model Image BBox open_image
                       fst snd predict (repeat one_call 20) fresh 19
                       twentieth 0 H Hlt Hle) Hran) as E.
  vm_compute in E. discriminate E.
Defined.

Lemma data_url_is_stripped_witness :
  decode_base64_image open_image "data:image/jpeg;base64,aGVsbG8="
  = open_image "aGVsbG8=" /\
  decode_base64_image open_image "data:image/jpeg;base64,aGVsbG8=,more"
  = open_image "aGVsbG8=".
Proof.
  destruct (data_url_is_stripped Image open_image
              "data:image/jpeg;base64" "aGVsbG8=" eq_refl eq_refl eq_refl)
    as (H1 & H2 & _).
  split; [exact H1|exact (H2 "more"%string)].
Defined.

Lemma model_files_are_served_by_name_witness :
  In (("fire_detection_final" ++ ".pt")%string, Some "fire-weights"%string)
     [("fire_detection_final.pt"%string, Some "fire-weights"%string);
      ("README.md"%string, None)] /\
  mem "fire_detection_final" (models fresh) = true.
Proof.
  assert (H : In (("fire_detection_final" ++ ".pt")%string,
                  Some "fire-weights"%string)
                 [("fire_detection_final.pt"%string,
                   Some "fire-weights"%string);
                  ("README.md"%string, None)])
    by (left; reflexivity).
  split; [exact H|].
  exact (proj1 (model_files_are_served_by_name Model _ []
                  "fire_detection_final"%string "fire-weights"%string
                  eq_refl H)).
Defined.

End WorkerMoreExamples.

Module ClientMoreExamples.
Import PyStr PyDict Client ClientSpec ClientMore MoreSpec ClientMoreProps
       ClientFixtures MoreFixtures.

Lemma unknown_task_never_alarms_witness :
  target_detected "weeds" fire_seen = false /\
  fire_on (fst (process_detection_result 3000000 fire_seen on_weeds)) = 0.
Proof.
  assert (Hf : current_task on_weeds <> "fire"%string)
    by (cbn; discriminate).
  assert (Hl : current_task on_weeds <> "leaves"%string)
    by (cbn; discriminate).
  destruct (unknown_task_never_alarms on_weeds 3000000 fire_seen Hf Hl)
    as [H1 H2].
  split; [exact H1|exact (H2 eq_refl)].
Defined.

(** A day and five seconds after the detection the alarm is still up. *)
Lemma grace_counts_seconds_of_day_witness :
  target_detected (current_task alarmed) nothing_seen = false /\
  fire_on (fst (process_detection_result (0 + 1 * day + 5000000)
                  nothing_seen alarmed)) = 1.
Proof.
  assert (Hd : 0 <= 5000000 < day) by (unfold day; lia).
  split; [reflexivity|].
  exact (proj1 (grace_counts_seconds_of_day alarmed 0 1 5000000 nothing_seen
                  eq_refl eq_refl eq_refl Hd) eq_refl).
Defined.

Lemma idle_is_sound : sound idle.
Proof.
  unfold sound. cbn.
  split; [left; reflexivity|].
  split; [intros H; discriminate H|].
  split; [apply Nat.le_0_l|].
  split; apply Z.le_refl.
Defined.

Lemma cycles_keep_the_client_sound_witness :
  sound idle /\
  Forall (fun c => sound (after c))
    (capture_cycles 1 [cycle_with refused; cycle_with refused] idle).
Proof.
  split; [exact idle_is_sound|].
  exact (cycles_keep_the_client_sound 1
           [cycle_with refused; cycle_with refused] idle idle_is_sound).
Defined.

Lemma notification_carries_the_flag_witness :
  exists record,
    In (NotifyDashboard record)
       (effects (cycle 1 (cycle_with (Responded 200 (inl fire_seen))) idle)) /\
    h_fire_on record = 1 /\
    h_task record = "fire"%string.
Proof.
  assert (H : exists record,
             In (NotifyDashboard record)
                (effects (cycle 1 (cycle_with (Responded 200 (inl fire_seen)))
                            idle)))
    by (vm_compute; eauto 10).
  destruct H as [record H]. exists record. split; [exact H|].
  destruct (notification_carries_the_flag 1
              (cycle_with (Responded 200 (inl fire_seen))) idle record H)
    as (Hf & Ht & _).
  split; [exact Hf|exact Ht].
Defined.

Lemma sends_are_counted_witness :
  0 <= consecutive_failures idle /\
  request_count
    (after_sends ([send_with refused] ++ [send_with refused]) idle) = 2.
Proof.
  assert (H : 0 <= consecutive_failures idle) by apply Z.le_refl.
  split; [exact H|].
  exact (proj1 (sends_are_counted [send_with refused] (send_with refused)
                  idle 0 H)).
Defined.

End ClientMoreExamples.

Module DashboardExamples.
Import Dashboard ClientMore DashboardProps.

Lemma task_falls_back_to_fire_witness :
  get_current_task_from_dashboard TaskRaised = "fire"%string /\
  get_current_task_from_dashboard (TaskResponded 500 None) = "fire"%string.
Proof.
  split.
  - apply task_falls_back_to_fire. intros task H. discriminate H.
  - reflexivity.
Defined.

End DashboardExamples.

Module SupervisorMoreExamples.
Import Supervisor SupervisorSpec MoreSpec SupervisorMore SupervisorFixtures
       MoreFixtures.

Lemma monitor_keeps_the_other_processes_witness :
  Launcher.launch (Some 1%nat) (Some 2%nat) (Some 3%nat) = Some launched /\
  In ("Dashboard"%string, 2%nat)
     (processes (fst (monitor_loop [hung 10; crashed 10 20] (init launched)))).
Proof.
  split; [reflexivity|].
  destruct (monitor_keeps_the_other_processes (Some 1%nat) (Some 2%nat)
              (Some 3%nat) launched [hung 10; crashed 10 20] eq_refl)
    as (_ & _ & H).
  exact (H 2%nat eq_refl).
Defined.

Lemma monitor_signals_workers_only_witness :
  stops 1%nat (snd (monitor_pass (hung 10) (init launched))) /\
  known_worker (hung 10) (processes (init launched)) 1%nat.
Proof.
  assert (H : stops 1%nat (snd (monitor_pass (hung 10) (init launched))))
    by (left; vm_compute; eauto 10).
  split; [exact H|].
  exact (monitor_signals_workers_only (hung 10) (init launched) 1%nat H).
Defined.

Lemma healthy_pass_changes_nothing_witness :
  fst (monitor_pass healthy (init launched)) = init launched.
Proof.
  apply healthy_pass_changes_nothing.
  - repeat constructor.
  - repeat (constructor; [intros _; reflexivity|]). constructor.
Defined.

Lemma dead_worker_is_replaced_twice_witness :
  exited (crashed 1 10) 1%nat = true /\
  ai_server_restart_count (fst (monitor_pass (crashed 1 10) (init launched)))
  = 2 /\
  In (Terminate 10%nat) (snd (monitor_pass (crashed 1 10) (init launched))).
Proof.
  assert (Ho : Forall (fun np : string * Proc => is_ai_server (fst np) = false)
                 ([] ++ [("Dashboard"%string, 2%nat);
                         ("ESP32-CAM Simulator"%string, 3%nat)]))
    by (repeat constructor).
  assert (Hr : Forall (fun np : string * Proc =>
                         exited (crashed 1 10) (snd np) = false)
                 ([] ++ [("Dashboard"%string, 2%nat);
                         ("ESP32-CAM Simulator"%string, 3%nat)]))
    by (repeat constructor).
  assert (Hlt : ai_server_restart_count (init launched) + 1
                < max_ai_server_restarts) by reflexivity.
  split; [reflexivity|].
  destruct (dead_worker_is_replaced_twice (crashed 1 10) (init launched) []
              [("Dashboard"%string, 2%nat);
               ("ESP32-CAM Simulator"%string, 3%nat)]
              1%nat 10%nat 11%nat eq_refl Ho Hr eq_refl Hlt eq_refl eq_refl
              eq_refl) as (Hs & _ & Hin).
  split; [rewrite Hs; reflexivity|exact Hin].
Defined.

End SupervisorMoreExamples.
